(** * RBAC and session contract of the case-management backend

    A shallow embedding of the request handlers of [app/api] (deps.py,
    cases.py, users.py, organizations.py, evidence.py, audit_log.py) together
    with the SQLAlchemy models they read and write.  Handlers are functions
    in a state-and-exception monad over a [World]: the database session of
    the request, the fault schedule of the storage engine and the values
    drawn from [uuid.uuid4]. *)

From Stdlib Require Import ZArith NArith Lia Ascii String.
From stdpp Require Import base decidable option list strings gmap.

Set Warnings "-register-all".

Local Open Scope string_scope.
Local Open Scope Z_scope.

(** ** Column types *)

(** [uuid.UUID]: a 128-bit number. *)
Abbreviation UUID := N.

(** app/models/user.py, [class UserRole(enum.Enum)]. *)
Inductive UserRole := SUPER_ADMIN | ORG_ADMIN | STAFF_USER | INDIVIDUAL_USER.

#[global] Instance UserRole_eq_dec : EqDecision UserRole.
Proof. solve_decision. Defined.

(** [role.value] and the constructor call [UserRole(role_str)], which raises
    [ValueError] (here [None]) on any other string. *)
Definition UserRole_value (r : UserRole) : string :=
  match r with
  | SUPER_ADMIN => "SUPER_ADMIN"
  | ORG_ADMIN => "ORG_ADMIN"
  | STAFF_USER => "STAFF_USER"
  | INDIVIDUAL_USER => "INDIVIDUAL_USER"
  end.

Definition UserRole_of_value (s : string) : option UserRole :=
  if bool_decide (s = "SUPER_ADMIN") then Some SUPER_ADMIN
  else if bool_decide (s = "ORG_ADMIN") then Some ORG_ADMIN
  else if bool_decide (s = "STAFF_USER") then Some STAFF_USER
  else if bool_decide (s = "INDIVIDUAL_USER") then Some INDIVIDUAL_USER
  else None.

(** [datetime.datetime]: the wall-clock reading in microseconds and, for an
    aware value, the UTC offset of its [tzinfo] in microseconds.  A naive
    value has [tzinfo = None]. *)
Record datetime := mk_datetime { wall : Z; tzinfo : option Z }.

#[global] Instance datetime_eq_dec : EqDecision datetime.
Proof. solve_decision. Defined.

(** app/models/case.py *)
Inductive CaseStatus := OPEN | IN_PROGRESS | CLOSED | ARCHIVED.
Inductive CasePriority := LOW | MEDIUM | HIGH | CRITICAL.

(** ** Rows (app/models) *)

Record User := mk_User {
  User_id : UUID;
  username : string;
  email : string;
  full_name : string;
  hashed_password : string;
  role : UserRole;
  user_organization_id : option UUID;
  is_active : bool;
  password_changed_at : option datetime
}.

Record Organization := mk_Organization {
  Organization_id : UUID;
  org_name : string;
  org_description : option string;
  org_plan : string;
  org_max_users : Z;
  org_max_cases : Z;
  org_is_active : bool
}.

(** [Case.organization_id] is what the handlers write, [None] included. *)
Record Case := mk_Case {
  Case_id : UUID;
  title : string;
  description : option string;
  status : CaseStatus;
  priority : CasePriority;
  created_by : UUID;
  assigned_to : option UUID;
  case_organization_id : option UUID
}.

Record CaseAssignment := mk_CaseAssignment {
  ca_id : UUID;
  ca_case_id : UUID;
  ca_user_id : UUID;
  ca_assigned_by : option UUID
}.

Record Evidence := mk_Evidence {
  ev_id : UUID;
  ev_case_id : UUID;
  ev_name : string;
  ev_organization_id : option UUID;
  ev_uploaded_by : UUID
}.

(** ** Values handed to the audit trail

    The [details] argument of [create_audit_log_entry] is an arbitrary
    Python value; [PyObject] is an instance with a [__dict__], [PyOpaque]
    any other value (an [int], a [str] already counted apart, an enum that
    is not [UserRole], ...). *)
Inductive PyVal :=
| PyNone
| PyBool (b : bool)
| PyInt (z : Z)
| PyStr (s : string)
| PyRole (r : UserRole)
| PyDatetime (d : datetime)
| PyUUID (u : UUID)
| PyObject (attrs : list (string * PyVal))
| PyDict (items : list (string * PyVal))
| PyList (elems : list PyVal)
| PyOpaque (tag : string).

Record AuditLog := mk_AuditLog {
  al_id : UUID;
  al_user_id : option UUID;
  al_organization_id : option UUID;
  al_case_id : option UUID;
  al_action : string;
  al_resource_type : string;
  al_resource_id : option UUID;
  al_details : option PyVal;
  al_ip_address : string;
  al_user_agent : string
}.

(** ** The storage engine, the session and the process *)

Record Store := mk_Store {
  users : list User;
  organizations : list Organization;
  cases : list Case;
  case_assignments : list CaseAssignment;
  evidence : list Evidence;
  audit_logs : list AuditLog
}.

(** users.py: the value kept for a key of [password_reset_tokens]. *)
Record ResetEntry := mk_ResetEntry { re_user_id : UUID; re_expires : datetime }.

(** [committed] is what the engine holds durably, [working] what the
    session sees inside its open transaction (queries, pending rows, bulk
    updates).  Each handler below queries a row before it writes it, so
    reading [working] agrees with either autoflush setting.  [faults] is the
    engine's fault schedule: every [commit] consumes its head and raises
    when it is [true] (a refused write, a violated constraint, a lost
    connection).  [uuid4_source] and [uuid4_drawn] give the values of
    [uuid.uuid4], the column default of every primary key; [clock] is the
    reading of [datetime.utcnow()] in microseconds; [stack_left] is how
    deep [serialize_for_json] may still nest before the interpreter raises
    [RecursionError];
    [token_source] and [tokens_drawn] give the values of
    [secrets.token_urlsafe]; [password_reset_tokens] is the module-level
    dict of users.py. *)
Record World := mk_World {
  committed : Store;
  working : Store;
  faults : list bool;
  uuid4_source : nat -> UUID;
  uuid4_drawn : nat;
  clock : Z;
  stack_left : nat;
  token_source : nat -> string;
  tokens_drawn : nat;
  password_reset_tokens : gmap string ResetEntry
}.

Definition with_stores (c s : Store) (fs : list bool) (w : World) : World :=
  mk_World c s fs (uuid4_source w) (uuid4_drawn w) (clock w) (stack_left w)
           (token_source w) (tokens_drawn w) (password_reset_tokens w).

(** ** Exceptions and the handler monad *)

Inductive Exn :=
| HTTPException (status_code : Z) (detail : string)
| NameError (name : string)
| RecursionError
| TypeError (what : string)
| SQLAlchemyError.

Inductive Outcome (A : Type) :=
| Return (a : A)
| Raise (e : Exn).
Arguments Return {A} a.
Arguments Raise {A} e.

Definition M (A : Type) : Type := World -> Outcome A * World.

Definition ret {A} (a : A) : M A := fun w => (Return a, w).
Definition raise {A} (e : Exn) : M A := fun w => (Raise e, w).
Definition bind {A B} (m : M A) (k : A -> M B) : M B :=
  fun w => match m w with
           | (Return a, w') => k a w'
           | (Raise e, w') => (Raise e, w')
           end.

(** [try: body except Exception: handler]. *)
Definition try_except {A} (body : M A) (handler : Exn -> M A) : M A :=
  fun w => match body w with
           | (Return a, w') => (Return a, w')
           | (Raise e, w') => handler e w'
           end.

Notation "'let*' x ':=' m 'in' k" := (bind m (fun x => k))
  (at level 10, x name, m at level 100, k at level 200).
Notation "'run' m 'in' k" := (bind m (fun _ => k))
  (at level 10, m at level 100, k at level 200).

(** [if cond: raise e]. *)
Definition raise_if (cond : bool) (e : Exn) : M unit :=
  if cond then raise e else ret tt.

(** Lifting a computation that touches no state. *)
Definition lift {A} (o : Outcome A) : M A := fun w => (o, w).

Definition HTTP_400_BAD_REQUEST : Z := 400.
Definition HTTP_401_UNAUTHORIZED : Z := 401.
Definition HTTP_403_FORBIDDEN : Z := 403.
Definition HTTP_404_NOT_FOUND : Z := 404.

(** Session primitives. *)
Definition get_working : M Store := fun w => (Return (working w), w).

Definition set_working (s : Store) : M unit :=
  fun w => (Return tt, with_stores (committed w) s (faults w) w).

Definition uuid4 : M UUID :=
  fun w => (Return (uuid4_source w (uuid4_drawn w)),
            mk_World (committed w) (working w) (faults w) (uuid4_source w)
                     (S (uuid4_drawn w)) (clock w) (stack_left w)
                     (token_source w) (tokens_drawn w)
                     (password_reset_tokens w)).

(** [secrets.token_urlsafe(32)]. *)
Definition token_urlsafe : M string :=
  fun w => (Return (token_source w (tokens_drawn w)),
            mk_World (committed w) (working w) (faults w) (uuid4_source w)
                     (uuid4_drawn w) (clock w) (stack_left w)
                     (token_source w) (S (tokens_drawn w))
                     (password_reset_tokens w)).

(** [password_reset_tokens[key] = entry]. *)
Definition reset_tokens_setitem (key : string) (entry : ResetEntry) : M unit :=
  fun w => (Return tt,
            mk_World (committed w) (working w) (faults w) (uuid4_source w)
                     (uuid4_drawn w) (clock w) (stack_left w)
                     (token_source w) (tokens_drawn w)
                     (<[key := entry]> (password_reset_tokens w))).

(** [datetime.utcnow()]: a naive value. *)
Definition utcnow : M datetime :=
  fun w => (Return (mk_datetime (clock w) None), w).

(** [db.commit()]: on a fault the engine rolls the transaction back and the
    call raises. *)
Definition db_commit : M unit :=
  fun w => match faults w with
           | true :: fs =>
               (Raise SQLAlchemyError, with_stores (committed w) (committed w) fs w)
           | false :: fs =>
               (Return tt, with_stores (working w) (working w) fs w)
           | [] =>
               (Return tt, with_stores (working w) (working w) [] w)
           end.

(** [db.rollback()]. *)
Definition db_rollback : M unit :=
  fun w => (Return tt, with_stores (committed w) (committed w) (faults w) w).

(** Replacing one table of a store. *)
Definition with_users (l : list User) (s : Store) : Store :=
  mk_Store l (organizations s) (cases s) (case_assignments s) (evidence s) (audit_logs s).
Definition with_organizations (l : list Organization) (s : Store) : Store :=
  mk_Store (users s) l (cases s) (case_assignments s) (evidence s) (audit_logs s).
Definition with_cases (l : list Case) (s : Store) : Store :=
  mk_Store (users s) (organizations s) l (case_assignments s) (evidence s) (audit_logs s).
Definition with_case_assignments (l : list CaseAssignment) (s : Store) : Store :=
  mk_Store (users s) (organizations s) (cases s) l (evidence s) (audit_logs s).
Definition with_evidence (l : list Evidence) (s : Store) : Store :=
  mk_Store (users s) (organizations s) (cases s) (case_assignments s) l (audit_logs s).
Definition with_audit_logs (l : list AuditLog) (s : Store) : Store :=
  mk_Store (users s) (organizations s) (cases s) (case_assignments s) (evidence s) l.

(** A write on the session's view of the data. *)
Definition modify_working (f : Store -> Store) : M unit :=
  fun w => (Return tt, with_stores (committed w) (f (working w)) (faults w) w).

(** Queries [db.query(T).filter(...).first()]. *)
Definition first_user_by_id (s : Store) (x : UUID) : option User :=
  List.find (fun u => bool_decide (User_id u = x)) (users s).
Definition first_user_by_username (s : Store) (x : string) : option User :=
  List.find (fun u => bool_decide (username u = x)) (users s).
Definition first_user_by_email (s : Store) (x : string) : option User :=
  List.find (fun u => bool_decide (email u = x)) (users s).
Definition first_organization_by_id (s : Store) (x : UUID) : option Organization :=
  List.find (fun o => bool_decide (Organization_id o = x)) (organizations s).
Definition first_case_by_id (s : Store) (x : UUID) : option Case :=
  List.find (fun c => bool_decide (Case_id c = x)) (cases s).
Definition first_assignment (s : Store) (cid uid : UUID) : option CaseAssignment :=
  List.find (fun a => bool_decide (ca_case_id a = cid) && bool_decide (ca_user_id a = uid))
            (case_assignments s).

(** The claim set [jwt.decode] returns; [exp] in seconds. *)
Record Payload := mk_Payload {
  p_sub : option string;
  p_role : option string;
  p_organization_id : option string;
  p_password_changed_at : option string;
  p_exp : Z
}.

(** ** What the handlers take from libraries

    Standard-library and third-party functions the handlers call and this
    repository does not define. *)
Class Platform := {
  (** [datetime.isoformat] and [datetime.fromisoformat] ([None]: [ValueError]). *)
  isoformat : datetime -> string;
  fromisoformat : string -> option datetime;
  (** [str(uuid)] and [uuid.UUID(s)] ([None]: [ValueError]). *)
  str_of_uuid : UUID -> string;
  uuid_of_str : string -> option UUID;
  (** python-jose: the signature check of a bearer token ([None]:
      [JWTError]); the expiry test of [jwt.decode] is in [jwt_decode]. *)
  jwt_verify : string -> option Payload;
  (** passlib: [pwd_context.verify(plain, hashed)] and [pwd_context.hash]. *)
  verify_password : string -> string -> bool;
  get_password_hash : string -> string;
  (** The system time zone used by [astimezone(None)]: its UTC offset in
      microseconds at a local wall-clock reading and at a UTC instant. *)
  utcoffset_at_wall : Z -> Z;
  utcoffset_at_utc : Z -> Z
}.

(** ** Python helpers *)

(** Truth value of a Python object, as tested by [if obj]. *)
Definition truthy (v : PyVal) : bool :=
  match v with
  | PyNone => false
  | PyBool b => b
  | PyInt z => negb (z =? 0)
  | PyStr s => match s with EmptyString => false | _ => true end
  | PyDict items => match items with [] => false | _ => true end
  | PyList elems => match elems with [] => false | _ => true end
  | _ => true
  end.

(** [a or b] on strings. *)
Definition str_or (a b : string) : string :=
  if bool_decide (a = EmptyString) then b else a.

(** [s.split(",")[0]]. *)
Fixpoint split_comma_first (s : string) : string :=
  match s with
  | EmptyString => EmptyString
  | String c r =>
      if Ascii.eqb c ","%char then EmptyString else String c (split_comma_first r)
  end.

(** White space removed by [str.strip()] (ASCII range). *)
Definition py_is_space (c : ascii) : bool :=
  let n := Ascii.N_of_ascii c in
  ((9 <=? n) && (n <=? 13) || (28 <=? n) && (n <=? 32))%N.

Fixpoint lstrip (s : string) : string :=
  match s with
  | EmptyString => EmptyString
  | String c r => if py_is_space c then lstrip r else s
  end.

Definition strip (s : string) : string :=
  String.rev (lstrip (String.rev (lstrip s))).

(** [key.startswith('_')]. *)
Definition startswith_underscore (key : string) : bool :=
  match key with
  | String c _ => Ascii.eqb c "_"%char
  | EmptyString => false
  end.

(** A comprehension whose element expression may raise. *)
Fixpoint comprehension {A B} (f : A -> Outcome B) (l : list A) : Outcome (list B) :=
  match l with
  | [] => Return []
  | x :: r =>
      match f x with
      | Raise e => Raise e
      | Return y =>
          match comprehension f r with
          | Raise e => Raise e
          | Return ys => Return (y :: ys)
          end
      end
  end.

(** A starlette [Request] as far as the handlers read it. *)
Record Request := mk_Request {
  headers : gmap string string;
  client : option string
}.

(** [request.headers.get(name, default)]. *)
Definition headers_get (r : Request) (name default : string) : string :=
  match headers r !! name with
  | Some v => v
  | None => default
  end.

Section Handlers.
Context `{Platform}.

(** ** app/api/audit_log.py *)

(** [serialize_for_json]; [depth] is the number of nested calls the
    interpreter still accepts. *)
Fixpoint serialize_for_json (depth : nat) (obj : PyVal) : Outcome PyVal :=
  match depth with
  | O => Raise RecursionError
  | S d =>
      let on_item (kv : string * PyVal) : Outcome (string * PyVal) :=
        match serialize_for_json d (snd kv) with
        | Return v => Return (fst kv, v)
        | Raise e => Raise e
        end in
      match obj with
      | PyRole r => Return (PyStr (UserRole_value r))
      | PyDatetime t => Return (PyStr (isoformat t))
      | PyUUID u => Return (PyStr (str_of_uuid u))
      | PyObject attrs =>
          match comprehension on_item
                  (List.filter (fun kv => negb (startswith_underscore (fst kv))) attrs) with
          | Return items => Return (PyDict items)
          | Raise e => Raise e
          end
      | PyDict items =>
          match comprehension on_item items with
          | Return items' => Return (PyDict items')
          | Raise e => Raise e
          end
      | PyList elems =>
          match comprehension (serialize_for_json d) elems with
          | Return elems' => Return (PyList elems')
          | Raise e => Raise e
          end
      | _ => Return obj
      end
  end.

(** [db.add(audit_log)]. *)
Definition db_add_audit_log (a : AuditLog) : M unit :=
  modify_working (fun s => with_audit_logs (audit_logs s ++ [a]) s).

(** The [ip_address] expression: [A or B or C if request.client else D]
    parses as [(A or B or C) if request.client else D]. *)
Definition request_ip_address (request : Request) : string :=
  match client request with
  | Some host =>
      str_or (strip (split_comma_first (headers_get request "X-Forwarded-For" EmptyString)))
             (str_or (headers_get request "X-Real-IP" EmptyString) host)
  | None => "127.0.0.1"
  end.

Definition create_audit_log_entry (user : User) (action resource_type : string)
    (resource_id : option UUID) (details : option PyVal)
    (request : option Request) (case_id : option UUID) : M (option AuditLog) :=
  try_except
    (let* serialized_details :=
       match details with
       | Some d =>
           if truthy d
           then fun w =>
                  match serialize_for_json (stack_left w) d with
                  | Return v => (Return (Some v), w)
                  | Raise e => (Raise e, w)
                  end
           else ret None
       | None => ret None
       end in
     let ip_address :=
       match request with
       | Some r => request_ip_address r
       | None => "127.0.0.1"
       end in
     let user_agent :=
       match request with
       | Some r => headers_get r "User-Agent" "Unknown"
       | None => "Unknown"
       end in
     let* new_id := uuid4 in
     let audit_log :=
       mk_AuditLog new_id (Some (User_id user)) (user_organization_id user)
                   case_id action resource_type resource_id serialized_details
                   ip_address user_agent in
     run db_add_audit_log audit_log in
     run db_commit in
     (* db.refresh(audit_log) reads the committed row back *)
     ret (Some audit_log))
    (fun _ => run db_rollback in ret None).

(** ** app/api/cases.py *)

(** The names the module binds at import time and by its own [def]s. *)
Definition cases_py_globals : list string :=
  [ "List"; "Optional"; "APIRouter"; "Depends"; "HTTPException"; "status";
    "Request"; "Session"; "get_db"; "get_current_active_user";
    "get_current_active_super_admin"; "get_current_active_org_admin";
    "get_current_active_staff_user"; "get_current_active_individual_user";
    "create_audit_log_entry"; "Case"; "CaseStatus"; "CasePriority"; "User";
    "UserRole"; "CaseAssignment"; "Evidence"; "CaseSchema"; "CaseCreate";
    "CaseUpdate"; "uuid"; "router"; "create_case"; "read_cases"; "read_case";
    "update_case"; "delete_case"; "get_assignable_users";
    "assign_users_to_case"; "remove_user_from_case"; "get_case_assignments" ].

(** Evaluating a global name inside a function body. *)
Definition load_global (bound : list string) (name : string) : M unit :=
  if existsb (fun n => bool_decide (n = name)) bound
  then ret tt else raise (NameError name).

(** app/schemas/case.py.  [None] in [cc_status], [cc_priority], [cc_tags]
    stands for a field the client did not send, which
    [model_dump(exclude_unset=True)] leaves out. *)
Record CaseCreate := mk_CaseCreate {
  cc_title : string;
  cc_description : option string;
  cc_status : option CaseStatus;
  cc_priority : option CasePriority;
  cc_tags : option (list string);
  cc_organization_id : option UUID
}.

(** In [CaseUpdate] a field that was not sent is [None]; for the nullable
    columns the inner option is the value sent. *)
Record CaseUpdate := mk_CaseUpdate {
  cu_title : option string;
  cu_description : option (option string);
  cu_status : option CaseStatus;
  cu_priority : option CasePriority;
  cu_assigned_to : option (option UUID);
  cu_tags : option (list string)
}.

(** An [enum.Enum] member as [serialize_for_json] sees it: an object whose
    [__dict__] holds only underscore names. *)
Definition PyEnum (name : string) : PyVal :=
  PyObject [("_value_", PyStr name); ("_name_", PyStr name);
            ("__objclass__", PyOpaque "type")].

Definition CaseStatus_value (x : CaseStatus) : string :=
  match x with
  | OPEN => "OPEN" | IN_PROGRESS => "IN_PROGRESS"
  | CLOSED => "CLOSED" | ARCHIVED => "ARCHIVED"
  end.

Definition CasePriority_value (x : CasePriority) : string :=
  match x with
  | LOW => "LOW" | MEDIUM => "MEDIUM" | HIGH => "HIGH" | CRITICAL => "CRITICAL"
  end.

Definition py_opt {A} (f : A -> PyVal) (o : option A) : PyVal :=
  match o with Some a => f a | None => PyNone end.

(** One entry of a [model_dump(exclude_unset=True)] dict. *)
Definition dump_field {A} (key : string) (f : A -> PyVal) (o : option A)
  : list (string * PyVal) :=
  match o with Some a => [(key, f a)] | None => [] end.

Definition create_case (case_in : CaseCreate) (current_user : User)
    (request : option Request) : M Case :=
  let* organization_id_to_assign :=
    match role current_user with
    | SUPER_ADMIN =>
        run raise_if (bool_decide (cc_organization_id case_in = None))
              (HTTPException HTTP_400_BAD_REQUEST
                 "Super Admin must specify an organization_id when creating a case.") in
        run load_global cases_py_globals "Organization" in
        let* s := get_working in
        match cc_organization_id case_in with
        | Some oid =>
            match first_organization_by_id s oid with
            | None => raise (HTTPException HTTP_404_NOT_FOUND "Organization not found.")
            | Some _ => ret (cc_organization_id case_in)
            end
        | None => ret None
        end
    | INDIVIDUAL_USER => ret None
    | _ =>
        run raise_if (bool_decide (user_organization_id current_user = None))
              (HTTPException HTTP_400_BAD_REQUEST
                 "User must belong to an organization to create a case.") in
        run raise_if
              (negb (bool_decide (cc_organization_id case_in = None))
               && negb (bool_decide (cc_organization_id case_in
                                     = user_organization_id current_user)))
              (HTTPException HTTP_403_FORBIDDEN
                 "Cannot create cases for other organizations.") in
        ret (user_organization_id current_user)
    end in
  (* the keyword arguments of Case come from model_dump: the model has no
     tags column *)
  run raise_if (negb (bool_decide (cc_tags case_in = None)))
        (TypeError "'tags' is an invalid keyword argument for Case") in
  let* new_id := uuid4 in
  let case :=
    mk_Case new_id (cc_title case_in) (cc_description case_in)
            (default OPEN (cc_status case_in))
            (default MEDIUM (cc_priority case_in))
            (User_id current_user) None organization_id_to_assign in
  run modify_working (fun s => with_cases (cases s ++ [case]) s) in
  run db_commit in
  run create_audit_log_entry current_user "CREATE" "Case" (Some (Case_id case))
        (Some (PyDict [("title", PyStr (title case))])) request None in
  ret case.

(** The role-specific test shared, line for line, by [read_case],
    [update_case] and [get_case_assignments] for staff and individual
    users. *)
Definition is_assigned_via_table (s : Store) (case_id : UUID) (current_user : User) : bool :=
  negb (bool_decide (first_assignment s case_id (User_id current_user) = None)).

Definition read_case (case_id : UUID) (current_user : User)
    (request : option Request) : M Case :=
  let* s := get_working in
  match first_case_by_id s case_id with
  | None => raise (HTTPException HTTP_404_NOT_FOUND "Case not found.")
  | Some case =>
      run match role current_user with
          | SUPER_ADMIN => ret tt
          | ORG_ADMIN =>
              raise_if (negb (bool_decide (case_organization_id case
                                           = user_organization_id current_user)))
                (HTTPException HTTP_403_FORBIDDEN "Not authorized to access this case.")
          | STAFF_USER =>
              raise_if
                (negb (bool_decide (created_by case = User_id current_user))
                 && negb (bool_decide (assigned_to case = Some (User_id current_user)))
                 && negb (is_assigned_via_table s case_id current_user))
                (HTTPException HTTP_403_FORBIDDEN "Not authorized to access this case.")
          | INDIVIDUAL_USER =>
              raise_if
                (negb (bool_decide (created_by case = User_id current_user))
                 && negb (bool_decide (assigned_to case = Some (User_id current_user)))
                 && negb (is_assigned_via_table s case_id current_user))
                (HTTPException HTTP_403_FORBIDDEN "Not authorized to access this case.")
          end in
      run create_audit_log_entry current_user "READ" "Case" (Some (Case_id case))
            (Some (PyDict [("title", PyStr (title case))])) request None in
      ret case
  end.

(** [for field, value in update_data.items(): setattr(case, field, value)];
    [tags] lands on the instance only, not in a column. *)
Definition apply_case_update (u : CaseUpdate) (c : Case) : Case :=
  mk_Case (Case_id c)
          (default (title c) (cu_title u))
          (default (description c) (cu_description u))
          (default (status c) (cu_status u))
          (default (priority c) (cu_priority u))
          (created_by c)
          (default (assigned_to c) (cu_assigned_to u))
          (case_organization_id c).

Definition case_update_data (u : CaseUpdate) : PyVal :=
  PyDict (dump_field "title" PyStr (cu_title u)
          ++ dump_field "description" (py_opt PyStr) (cu_description u)
          ++ dump_field "status" (fun x => PyEnum (CaseStatus_value x)) (cu_status u)
          ++ dump_field "priority" (fun x => PyEnum (CasePriority_value x)) (cu_priority u)
          ++ dump_field "assigned_to" (py_opt PyUUID) (cu_assigned_to u)
          ++ dump_field "tags" (fun l => PyList (List.map PyStr l)) (cu_tags u)).

Definition update_case (case_id : UUID) (case_update : CaseUpdate)
    (current_user : User) (request : option Request) : M Case :=
  let* s := get_working in
  match first_case_by_id s case_id with
  | None => raise (HTTPException HTTP_404_NOT_FOUND "Case not found.")
  | Some case =>
      run match role current_user with
          | SUPER_ADMIN => ret tt
          | ORG_ADMIN =>
              raise_if (negb (bool_decide (case_organization_id case
                                           = user_organization_id current_user)))
                (HTTPException HTTP_403_FORBIDDEN "Not authorized to update this case.")
          | STAFF_USER =>
              raise_if
                (negb (bool_decide (created_by case = User_id current_user))
                 && negb (bool_decide (assigned_to case = Some (User_id current_user)))
                 && negb (is_assigned_via_table s case_id current_user))
                (HTTPException HTTP_403_FORBIDDEN "Not authorized to update this case.")
          | INDIVIDUAL_USER =>
              raise_if
                (negb (bool_decide (created_by case = User_id current_user))
                 && negb (bool_decide (assigned_to case = Some (User_id current_user)))
                 && negb (is_assigned_via_table s case_id current_user))
                (HTTPException HTTP_403_FORBIDDEN
                   "Individual users can only update their own cases or cases assigned to them.")
          end in
      let case' := apply_case_update case_update case in
      run modify_working (fun s =>
            with_cases (List.map (fun c => if bool_decide (Case_id c = Case_id case)
                                           then apply_case_update case_update c else c)
                                 (cases s)) s) in
      run db_commit in
      run create_audit_log_entry current_user "UPDATE" "Case" (Some (Case_id case'))
            (Some (PyDict [("updated_fields", case_update_data case_update)]))
            request None in
      ret case'
  end.

Definition delete_case (case_id : UUID) (current_user : User)
    (request : option Request) : M string :=
  let* s := get_working in
  match first_case_by_id s case_id with
  | None => raise (HTTPException HTTP_404_NOT_FOUND "Case not found.")
  | Some case =>
      run match role current_user with
          | SUPER_ADMIN => ret tt
          | ORG_ADMIN =>
              raise_if (negb (bool_decide (case_organization_id case
                                           = user_organization_id current_user)))
                (HTTPException HTTP_403_FORBIDDEN "Not authorized to delete this case.")
          | r =>
              if bool_decide (r = INDIVIDUAL_USER)
                 && bool_decide (created_by case = User_id current_user)
              then ret tt
              else raise (HTTPException HTTP_403_FORBIDDEN
                            "Not authorized to delete this case.")
          end in
      run modify_working (fun s =>
            with_evidence
              (List.filter (fun e => negb (bool_decide (ev_case_id e = case_id)))
                           (evidence s)) s) in
      run modify_working (fun s =>
            with_case_assignments
              (List.filter (fun a => negb (bool_decide (ca_case_id a = case_id)))
                           (case_assignments s)) s) in
      run modify_working (fun s =>
            with_cases
              (List.filter (fun c => negb (bool_decide (Case_id c = Case_id case)))
                           (cases s)) s) in
      run db_commit in
      (* the deleted instance is detached by the commit and keeps the
         title it had loaded *)
      run create_audit_log_entry current_user "DELETE" "Case" (Some case_id)
            (Some (PyDict [("title", PyStr (title case))])) request None in
      ret "Case deleted successfully"
  end.

(** The loop of [assign_users_to_case] over [user_ids]. *)
Fixpoint assign_loop (case_id assigned_by : UUID) (user_ids : list UUID)
    (assignments_created : list string) : M (list string) :=
  match user_ids with
  | [] => ret assignments_created
  | user_id :: rest =>
      let* s := get_working in
      match first_assignment s case_id user_id with
      | Some _ => assign_loop case_id assigned_by rest assignments_created
      | None =>
          let* new_id := uuid4 in
          run modify_working (fun s =>
                with_case_assignments
                  (case_assignments s
                   ++ [mk_CaseAssignment new_id case_id user_id (Some assigned_by)]) s) in
          assign_loop case_id assigned_by rest
                      (assignments_created ++ [str_of_uuid user_id])
      end
  end.

(** Returns the [assigned_users] entry of the response; the message only
    repeats its length. *)
Definition assign_users_to_case (case_id : UUID) (user_ids : list UUID)
    (current_user : User) (request : option Request) : M (list string) :=
  let* s := get_working in
  match first_case_by_id s case_id with
  | None => raise (HTTPException HTTP_404_NOT_FOUND "Case not found.")
  | Some case =>
      run match role current_user with
          | SUPER_ADMIN => ret tt
          | ORG_ADMIN =>
              raise_if (negb (bool_decide (case_organization_id case
                                           = user_organization_id current_user)))
                (HTTPException HTTP_403_FORBIDDEN
                   "Not authorized to assign users to this case.")
          | _ => raise (HTTPException HTTP_403_FORBIDDEN
                          "Not authorized to assign users to cases.")
          end in
      let users_found :=
        List.filter (fun u => existsb (fun i => bool_decide (User_id u = i)) user_ids
                              && is_active u)
                    (users s) in
      run raise_if (negb (bool_decide (length users_found = length user_ids)))
            (HTTPException HTTP_400_BAD_REQUEST
               "One or more user IDs are invalid or inactive.") in
      run match case_organization_id case with
          | Some _ =>
              let invalid_users :=
                List.filter (fun u => negb (bool_decide (user_organization_id u
                                                         = case_organization_id case)))
                            users_found in
              raise_if (negb (bool_decide (length invalid_users = 0%nat)))
                (HTTPException HTTP_400_BAD_REQUEST
                   "All assigned users must belong to the case's organization.")
          | None => ret tt
          end in
      let* assignments_created :=
        assign_loop case_id (User_id current_user) user_ids [] in
      run db_commit in
      run create_audit_log_entry current_user "ASSIGN" "Case" (Some case_id)
            (Some (PyDict [("assigned_users",
                            PyList (List.map PyStr assignments_created))]))
            request None in
      ret assignments_created
  end.

(** The rows [get_case_assignments] lists from the assignment table. *)
Definition assignments_for (s : Store) (case_id : UUID) : list CaseAssignment :=
  List.filter (fun a => bool_decide (ca_case_id a = case_id)) (case_assignments s).

(** ** app/api/evidence.py *)

Definition read_evidence_for_case (case_id : UUID) (skip limit : nat)
    (current_user : User) (request : option Request) : M (list Evidence) :=
  let* s := get_working in
  match first_case_by_id s case_id with
  | None => raise (HTTPException HTTP_404_NOT_FOUND "Case not found.")
  | Some case =>
      run raise_if
            (negb (bool_decide (role current_user = SUPER_ADMIN))
             && negb (bool_decide (case_organization_id case
                                   = user_organization_id current_user)))
            (HTTPException HTTP_403_FORBIDDEN
               "Not authorized to view evidence for this case.") in
      let evidence_rows :=
        take limit (drop skip
          (List.filter (fun e => bool_decide (ev_case_id e = case_id)) (evidence s))) in
      run create_audit_log_entry current_user "READ" "Evidence" None
            (Some (PyDict [("action", PyStr "list_evidence_for_case");
                           ("case_id", PyStr (str_of_uuid case_id))]))
            request None in
      ret evidence_rows
  end.

(** ** app/api/users.py *)

(** app/schemas/user.py *)
Record UserCreate := mk_UserCreate {
  uc_username : string;
  uc_email : string;
  uc_full_name : string;
  uc_role : UserRole;
  uc_is_active : bool;
  uc_organization_id : option UUID;
  uc_password : string
}.

(** [None]: the field was not sent.  For the nullable [organization_id] the
    inner option is the value sent ([Some None] is an explicit null). *)
Record UserUpdate := mk_UserUpdate {
  uu_username : option string;
  uu_email : option string;
  uu_full_name : option string;
  uu_role : option UserRole;
  uu_is_active : option bool;
  uu_password : option string;
  uu_organization_id : option (option UUID)
}.

(** [user_update.organization_id], [None] when unset or null. *)
Definition uu_organization_id_value (u : UserUpdate) : option UUID :=
  match uu_organization_id u with
  | Some v => v
  | None => None
  end.

Definition create_user (user_in : UserCreate) (current_user : User)
    (request : option Request) : M User :=
  let* s := get_working in
  run raise_if (negb (bool_decide (first_user_by_username s (uc_username user_in) = None)))
        (HTTPException HTTP_400_BAD_REQUEST "Username already registered") in
  run raise_if (negb (bool_decide (first_user_by_email s (uc_email user_in) = None)))
        (HTTPException HTTP_400_BAD_REQUEST "Email already registered") in
  run raise_if (bool_decide (uc_role user_in = INDIVIDUAL_USER)
                && negb (bool_decide (uc_organization_id user_in = None)))
        (HTTPException HTTP_400_BAD_REQUEST
           "Individual users cannot be assigned to an organization.") in
  let organization_id_to_assign :=
    if bool_decide (uc_role user_in = INDIVIDUAL_USER) then None
    else uc_organization_id user_in in
  let* organization_id_to_assign :=
    match role current_user with
    | SUPER_ADMIN =>
        run raise_if ((bool_decide (uc_role user_in = STAFF_USER)
                       || bool_decide (uc_role user_in = ORG_ADMIN))
                      && bool_decide (organization_id_to_assign = None))
              (HTTPException HTTP_400_BAD_REQUEST
                 "Staff users and Organization Administrators must be assigned to an organization.") in
        run match organization_id_to_assign with
            | Some oid =>
                raise_if (bool_decide (first_organization_by_id s oid = None))
                  (HTTPException HTTP_404_NOT_FOUND "Organization not found.")
            | None => ret tt
            end in
        ret organization_id_to_assign
    | ORG_ADMIN =>
        run raise_if (bool_decide (user_organization_id current_user = None))
              (HTTPException HTTP_400_BAD_REQUEST
                 "Organization Admin must belong to an organization.") in
        run raise_if
              (negb (bool_decide (uc_organization_id user_in = None))
               && negb (bool_decide (uc_organization_id user_in
                                     = user_organization_id current_user)))
              (HTTPException HTTP_403_FORBIDDEN
                 "Organization Admin can only create users within their own organization.") in
        run raise_if (bool_decide (uc_role user_in = SUPER_ADMIN)
                      || bool_decide (uc_role user_in = ORG_ADMIN))
              (HTTPException HTTP_403_FORBIDDEN
                 "Organization Admin cannot create Super Admin or other Organization Admin users.") in
        ret (if bool_decide (uc_role user_in = STAFF_USER)
             then user_organization_id current_user
             else organization_id_to_assign)
    | _ => raise (HTTPException HTTP_403_FORBIDDEN
                    "Not enough permissions to create users.")
    end in
  let hashed := get_password_hash (uc_password user_in) in
  let* now := utcnow in
  let* new_id := uuid4 in
  let db_user :=
    mk_User new_id (uc_username user_in) (uc_email user_in) (uc_full_name user_in)
            hashed (uc_role user_in) organization_id_to_assign
            (uc_is_active user_in) (Some now) in
  run modify_working (fun s => with_users (users s ++ [db_user]) s) in
  run db_commit in
  run create_audit_log_entry current_user "CREATE" "User" (Some (User_id db_user))
        (Some (PyDict [("username", PyStr (username db_user));
                       ("role", PyStr (UserRole_value (role db_user)));
                       ("organization_id",
                        py_opt (fun o => PyStr (str_of_uuid o))
                               (user_organization_id db_user))]))
        request None in
  ret db_user.

(** The [setattr] loop of [update_user] on one row; [now] is the reading
    taken when a password is sent. *)
Definition apply_user_update (u : UserUpdate) (now : datetime) (x : User) : User :=
  mk_User (User_id x)
          (default (username x) (uu_username u))
          (default (email x) (uu_email u))
          (default (full_name x) (uu_full_name u))
          (match uu_password u with
           | Some p => get_password_hash p
           | None => hashed_password x
           end)
          (default (role x) (uu_role u))
          (default (user_organization_id x) (uu_organization_id u))
          (default (is_active x) (uu_is_active u))
          (match uu_password u with
           | Some _ => Some now
           | None => password_changed_at x
           end).

(** [audit_details["updated_fields"]]. *)
Definition user_update_fields (u : UserUpdate) : PyVal :=
  PyDict (dump_field "username" PyStr (uu_username u)
          ++ dump_field "email" PyStr (uu_email u)
          ++ dump_field "full_name" PyStr (uu_full_name u)
          ++ dump_field "role" (fun r => PyStr (UserRole_value r)) (uu_role u)
          ++ dump_field "is_active" PyBool (uu_is_active u)
          ++ dump_field "organization_id"
               (py_opt (fun o => PyStr (str_of_uuid o))) (uu_organization_id u)
          ++ dump_field "hashed_password"
               (fun p => PyStr (get_password_hash p)) (uu_password u)).

Definition update_user (user_id : UUID) (user_update : UserUpdate)
    (current_user : User) (request : option Request) : M User :=
  let* s := get_working in
  match first_user_by_id s user_id with
  | None => raise (HTTPException 404 "User not found")
  | Some user_to_update =>
      run raise_if
            (bool_decide (User_id current_user = user_id)
             && bool_decide (role current_user = SUPER_ADMIN)
             && bool_decide (uu_is_active user_update = Some false))
            (HTTPException HTTP_400_BAD_REQUEST
               "Super Admin cannot mark themselves as inactive. This must be done by another Super Admin.") in
      run match role current_user with
          | SUPER_ADMIN => ret tt
          | ORG_ADMIN =>
              run raise_if (bool_decide (user_organization_id current_user = None))
                    (HTTPException HTTP_400_BAD_REQUEST
                       "Organization Admin must belong to an organization.") in
              run raise_if
                    (negb (bool_decide (user_organization_id user_to_update
                                        = user_organization_id current_user)))
                    (HTTPException HTTP_403_FORBIDDEN
                       "Organization Admin can only update users within their own organization.") in
              run raise_if
                    (bool_decide (uu_role user_update = Some SUPER_ADMIN)
                     || bool_decide (uu_role user_update = Some ORG_ADMIN))
                    (HTTPException HTTP_403_FORBIDDEN
                       "Organization Admin cannot assign Super Admin or Organization Admin roles.") in
              raise_if
                (negb (bool_decide (uu_organization_id_value user_update = None))
                 && negb (bool_decide (uu_organization_id_value user_update
                                       = user_organization_id current_user)))
                (HTTPException HTTP_403_FORBIDDEN
                   "Organization Admin cannot change organization of users.")
          | _ =>
              if bool_decide (User_id current_user = user_id)
              then raise_if
                     (negb (bool_decide (uu_role user_update = None))
                      || negb (bool_decide (uu_organization_id_value user_update = None)))
                     (HTTPException HTTP_403_FORBIDDEN
                        "Users cannot change their own role or organization.")
              else raise (HTTPException HTTP_403_FORBIDDEN
                            "Not enough permissions to update this user.")
          end in
      let* now := utcnow in
      let updated := apply_user_update user_update now user_to_update in
      run modify_working (fun s =>
            with_users (List.map (fun x => if bool_decide (User_id x = User_id user_to_update)
                                           then apply_user_update user_update now x else x)
                                 (users s)) s) in
      run db_commit in
      run create_audit_log_entry current_user "UPDATE" "User" (Some (User_id updated))
            (Some (PyDict [("updated_fields", user_update_fields user_update)]))
            request None in
      ret updated
  end.

(** app/schemas/pii.py *)
Record ChangePasswordRequest := mk_ChangePasswordRequest {
  current_password : string;
  new_password : string
}.

(** The two assignments [change_password] makes on a user row. *)
Definition with_new_password (hashed : string) (now : datetime) (x : User) : User :=
  mk_User (User_id x) (username x) (email x) (full_name x) hashed
          (role x) (user_organization_id x) (is_active x) (Some now).

Definition change_password (password_data : ChangePasswordRequest)
    (current_user : User) (request : option Request) : M string :=
  run raise_if (negb (verify_password (current_password password_data)
                                      (hashed_password current_user)))
        (HTTPException HTTP_400_BAD_REQUEST "Current password is incorrect") in
  let hashed := get_password_hash (new_password password_data) in
  let* now := utcnow in
  let current_user' := with_new_password hashed now current_user in
  run modify_working (fun s =>
        with_users (List.map (fun x => if bool_decide (User_id x = User_id current_user)
                                       then with_new_password hashed now x else x)
                             (users s)) s) in
  run db_commit in
  run create_audit_log_entry current_user' "UPDATE" "User" (Some (User_id current_user'))
        (Some (PyDict [("action", PyStr "password_change")])) request None in
  ret "Password changed successfully".

(** One hour, in microseconds. *)
Definition one_hour : Z := 3600 * 1000000.

Definition reset_message : string :=
  "If the email exists, a password reset link has been sent.".

(** The response is the dict the handler returns. *)
Definition request_password_reset (reset_email : string) : M (gmap string string) :=
  let* s := get_working in
  match first_user_by_email s reset_email with
  | None => ret {[ "message" := reset_message ]}
  | Some user =>
      let* token := token_urlsafe in
      let* now := utcnow in
      run reset_tokens_setitem token
            (mk_ResetEntry (User_id user)
                           (mk_datetime (wall now + one_hour) (tzinfo now))) in
      ret (<[ "token" := token ]> {[ "message" := reset_message ]})
  end.

(** ** app/api/organizations.py *)

(** app/schemas/organization.py; [None]: the field was not sent. *)
Record OrganizationUpdate := mk_OrganizationUpdate {
  ou_name : option string;
  ou_description : option (option string);
  ou_plan : option string;
  ou_max_users : option Z;
  ou_max_cases : option Z;
  ou_is_active : option bool
}.

Definition apply_organization_update (u : OrganizationUpdate) (o : Organization)
  : Organization :=
  mk_Organization (Organization_id o)
                  (default (org_name o) (ou_name u))
                  (default (org_description o) (ou_description u))
                  (default (org_plan o) (ou_plan u))
                  (default (org_max_users o) (ou_max_users u))
                  (default (org_max_cases o) (ou_max_cases u))
                  (default (org_is_active o) (ou_is_active u)).

Definition organization_update_data (u : OrganizationUpdate) : PyVal :=
  PyDict (dump_field "name" PyStr (ou_name u)
          ++ dump_field "description" (py_opt PyStr) (ou_description u)
          ++ dump_field "plan" PyStr (ou_plan u)
          ++ dump_field "max_users" PyInt (ou_max_users u)
          ++ dump_field "max_cases" PyInt (ou_max_cases u)
          ++ dump_field "is_active" PyBool (ou_is_active u)).

(** [User.organization_id == org_id], the filter of the bulk update. *)
Definition member_of (org_id : UUID) (u : User) : bool :=
  bool_decide (user_organization_id u = Some org_id).

Definition deactivate (u : User) : User :=
  mk_User (User_id u) (username u) (email u) (full_name u) (hashed_password u)
          (role u) (user_organization_id u) false (password_changed_at u).

(** [db.query(User).filter(User.organization_id == org_id).update({"is_active": False})]:
    the statement runs at once inside the transaction and returns the number
    of rows its filter matched. *)
Definition bulk_deactivate_users (org_id : UUID) : M Z :=
  let* s := get_working in
  run modify_working (fun s =>
        with_users (List.map (fun u => if member_of org_id u then deactivate u else u)
                             (users s)) s) in
  ret (Z.of_nat (length (List.filter (member_of org_id) (users s)))).

Definition update_organization (org_id : UUID) (org_update : OrganizationUpdate)
    (current_user : User) (request : option Request) : M Organization :=
  let* s := get_working in
  match first_organization_by_id s org_id with
  | None => raise (HTTPException HTTP_404_NOT_FOUND "Organization not found.")
  | Some organization =>
      run (if bool_decide (ou_is_active org_update = Some false)
              && org_is_active organization
           then
             let* affected_users := bulk_deactivate_users org_id in
             run create_audit_log_entry current_user "UPDATE" "User" None
                   (Some (PyDict [("action", PyStr "cascade_deactivate_users");
                                  ("organization_id", PyStr (str_of_uuid org_id));
                                  ("affected_users_count", PyInt affected_users)]))
                   request None in
             ret tt
           else ret tt) in
      let organization' := apply_organization_update org_update organization in
      run modify_working (fun s =>
            with_organizations
              (List.map (fun o => if bool_decide (Organization_id o = Organization_id organization)
                                  then apply_organization_update org_update o else o)
                        (organizations s)) s) in
      run db_commit in
      run create_audit_log_entry current_user "UPDATE" "Organization"
            (Some (Organization_id organization'))
            (Some (PyDict [("updated_fields", organization_update_data org_update)]))
            request None in
      ret organization'
  end.

(** ** app/api/deps.py *)

(** The UTC instant a [datetime] denotes once [astimezone(None)] has read it:
    a naive value is taken as a reading of the system zone. *)
Definition instant (d : datetime) : Z :=
  match tzinfo d with
  | Some off => wall d - off
  | None => wall d - utcoffset_at_wall (wall d)
  end.

(** [d.astimezone(datetime.utcnow().tzinfo)]: [utcnow()] is naive, so the
    argument is [None] and the result is an aware value in the system zone. *)
Definition astimezone_local (d : datetime) : datetime :=
  let utc := instant d in
  mk_datetime (utc + utcoffset_at_utc utc) (Some (utcoffset_at_utc utc)).

(** [a > b] on [datetime]: comparing a naive with an aware value raises. *)
Definition datetime_gt (a b : datetime) : Outcome bool :=
  match tzinfo a, tzinfo b with
  | None, None => Return (wall b <? wall a)
  | Some oa, Some ob => Return (wall b - ob <? wall a - oa)
  | _, _ => Raise (TypeError "can't compare offset-naive and offset-aware datetimes")
  end.

Definition credentials_exception : Exn :=
  HTTPException HTTP_401_UNAUTHORIZED "Could not validate credentials".

Definition jwt_decode (credentials : string) : M (option Payload) :=
  fun w => match jwt_verify credentials with
           | Some p => if p_exp p * 1000000 <? clock w
                       then (Return None, w) else (Return (Some p), w)
           | None => (Return None, w)
           end.

Definition get_current_user (credentials : string) : M User :=
  let* decoded := jwt_decode credentials in
  match decoded with
  | None => raise credentials_exception
  | Some payload =>
      match p_sub payload, p_role payload, p_password_changed_at payload with
      | Some username, Some role_str, Some token_password_changed_at_str =>
          match UserRole_of_value role_str with
          | None => raise credentials_exception
          | Some token_role =>
              let* organization_id :=
                match p_organization_id payload with
                | Some organization_id_str =>
                    if bool_decide (organization_id_str = EmptyString) then ret None
                    else match uuid_of_str organization_id_str with
                         | Some o => ret (Some o)
                         | None => raise credentials_exception
                         end
                | None => ret None
                end in
              match fromisoformat token_password_changed_at_str with
              | None => raise credentials_exception
              | Some token_password_changed_at =>
                  let* s := get_working in
                  match first_user_by_username s username with
                  | None => raise credentials_exception
                  | Some user =>
                      run raise_if
                            (negb (bool_decide (role user = token_role))
                             || negb (bool_decide (user_organization_id user
                                                   = organization_id)))
                            (HTTPException HTTP_401_UNAUTHORIZED
                               "Token mismatch with user data. Please log in again.") in
                      run match password_changed_at user with
                          | Some stored =>
                              let user_pw_changed_utc := astimezone_local stored in
                              let token_pw_changed_utc :=
                                astimezone_local token_password_changed_at in
                              let* later :=
                                lift (datetime_gt user_pw_changed_utc
                                                  token_pw_changed_utc) in
                              raise_if later
                                (HTTPException HTTP_401_UNAUTHORIZED
                                   "Your password has been changed. Please log in again.")
                          | None => ret tt
                          end in
                      ret user
                  end
              end
          end
      | _, _, _ => raise credentials_exception
      end
  end.

Definition get_current_active_user (credentials : string) : M User :=
  let* current_user := get_current_user credentials in
  run raise_if (negb (is_active current_user))
        (HTTPException 400 "Inactive user") in
  ret current_user.

(** ** Predicates and readings used in the statements *)

(** The response a handler's exception turns into. *)
Definition raises_http {A} (code : Z) (r : Outcome A * World) : bool :=
  match fst r with
  | Raise (HTTPException c _) => c =? code
  | _ => false
  end.

Definition forbidden {A} (r : Outcome A * World) : bool :=
  raises_http HTTP_403_FORBIDDEN r.

Definition unauthorized {A} (r : Outcome A * World) : bool :=
  raises_http HTTP_401_UNAUTHORIZED r.

Definition returns {A} (r : Outcome A * World) : bool :=
  match fst r with
  | Return _ => true
  | Raise _ => false
  end.

(** The outcome of the [serialized_details] line. *)
Definition serialized_details_of (details : option PyVal) (w : World)
  : Outcome (option PyVal) :=
  match details with
  | Some d =>
      if truthy d
      then match serialize_for_json (stack_left w) d with
           | Return v => Return (Some v)
           | Raise e => Raise e
           end
      else Return None
  | None => Return None
  end.

(** Whether the next [commit] is scheduled to fail. *)
Definition next_commit_fails (w : World) : bool :=
  match faults w with
  | true :: _ => true
  | _ => false
  end.

(** The row a successful call stores and the world it leaves. *)
Definition audit_entry (user : User) (action resource_type : string)
    (resource_id : option UUID) (serialized_details : option PyVal)
    (request : option Request) (case_id : option UUID) (w : World) : AuditLog :=
  mk_AuditLog (uuid4_source w (uuid4_drawn w)) (Some (User_id user))
              (user_organization_id user) case_id action resource_type resource_id
              serialized_details
              (match request with
               | Some r => request_ip_address r
               | None => "127.0.0.1"
               end)
              (match request with
               | Some r => headers_get r "User-Agent" "Unknown"
               | None => "Unknown"
               end).

Definition audit_world (a : AuditLog) (w : World) : World :=
  let s := with_audit_logs (audit_logs (working w) ++ [a]) (working w) in
  mk_World s s (tail (faults w)) (uuid4_source w) (S (uuid4_drawn w)) (clock w)
           (stack_left w) (token_source w) (tokens_drawn w)
           (password_reset_tokens w).

(** The denial test of [read_case] and [update_case], read off their
    branches. *)
Definition case_access_denied (s : Store) (case : Case) (case_id : UUID)
    (current_user : User) : bool :=
  match role current_user with
  | SUPER_ADMIN => false
  | ORG_ADMIN =>
      negb (bool_decide (case_organization_id case = user_organization_id current_user))
  | _ =>
      negb (bool_decide (created_by case = User_id current_user))
      && negb (bool_decide (assigned_to case = Some (User_id current_user)))
      && negb (is_assigned_via_table s case_id current_user)
  end.

Definition case_delete_denied (case : Case) (current_user : User) : bool :=
  match role current_user with
  | SUPER_ADMIN => false
  | ORG_ADMIN =>
      negb (bool_decide (case_organization_id case = user_organization_id current_user))
  | STAFF_USER => true
  | INDIVIDUAL_USER => negb (bool_decide (created_by case = User_id current_user))
  end.

(** The validation query of [assign_users_to_case]. *)
Definition users_found (s : Store) (user_ids : list UUID) : list User :=
  List.filter (fun u => existsb (fun i => bool_decide (User_id u = i)) user_ids
                        && is_active u)
              (users s).

(** The organization claim as [get_current_user] decodes it; the outer
    [None] is the [ValueError] of [uuid.UUID]. *)
Definition organization_claim (payload : Payload) : option (option UUID) :=
  match p_organization_id payload with
  | Some organization_id_str =>
      if bool_decide (organization_id_str = EmptyString) then Some None
      else match uuid_of_str organization_id_str with
           | Some o => Some (Some o)
           | None => None
           end
  | None => Some None
  end.

(** The epoch a bearer token carries. *)
Definition token_epoch (credentials : string) : option datetime :=
  match jwt_verify credentials with
  | Some payload =>
      match p_password_changed_at payload with
      | Some s => fromisoformat s
      | None => None
      end
  | None => None
  end.

Definition members (org_id : UUID) (us : list User) : list User :=
  List.filter (member_of org_id) us.

Definition active_members (org_id : UUID) (us : list User) : list User :=
  List.filter is_active (members org_id us).

(** How many rows went from active to inactive between two readings of the
    users table. *)
Definition flipped (before after : list User) : nat :=
  length (List.filter (fun p => is_active (fst p) && negb (is_active (snd p)))
                      (combine before after)).

(** The details of the cascade entry once serialized. *)
Definition cascade_details (org_id : UUID) (count : Z) : PyVal :=
  PyDict [("action", PyStr "cascade_deactivate_users");
          ("organization_id", PyStr (str_of_uuid org_id));
          ("affected_users_count", PyInt count)].

(** The count an audit row reports if it is a cascade entry
    ([UPDATE], [User], action [cascade_deactivate_users]). *)
Definition cascade_count (a : AuditLog) : option Z :=
  if bool_decide (al_action a = "UPDATE")
     && bool_decide (al_resource_type a = "User")
  then match al_details a with
       | Some (PyDict [(k1, PyStr v1); _; (k3, PyInt n)]) =>
           if bool_decide (k1 = "action")
              && bool_decide (v1 = "cascade_deactivate_users")
              && bool_decide (k3 = "affected_users_count")
           then Some n else None
       | _ => None
       end
  else None.

(** The counts of the cascade entries among audit rows. *)
Definition cascade_counts (rows : list AuditLog) : list Z :=
  omap cascade_count rows.

(** The claim read literally: the rows that flip number K, the active
    members, and the call adds exactly one cascade entry, whose count is K. *)
Definition cascade_reports_active_members (w : World) (org_id : UUID)
    (org_update : OrganizationUpdate) (current_user : User)
    (request : option Request) : Prop :=
  let K := length (active_members org_id (users (working w))) in
  let w' := snd (update_organization org_id org_update current_user request w) in
  flipped (users (working w)) (users (committed w')) = K
  /\ cascade_counts (drop (length (audit_logs (working w))) (audit_logs (committed w')))
     = [Z.of_nat K].

(** ** app/api/deps.py, the role guards *)

Definition get_current_active_super_admin (credentials : string) : M User :=
  let* current_user := get_current_active_user credentials in
  run raise_if (negb (bool_decide (role current_user = SUPER_ADMIN)))
        (HTTPException HTTP_403_FORBIDDEN "Super Admin access required") in
  ret current_user.

Definition get_current_active_org_admin (credentials : string) : M User :=
  let* current_user := get_current_active_user credentials in
  run raise_if (negb (bool_decide (role current_user = ORG_ADMIN)
                      || bool_decide (role current_user = SUPER_ADMIN)))
        (HTTPException HTTP_403_FORBIDDEN
           "Organization Admin or Super Admin access required") in
  ret current_user.

Definition get_current_active_staff_user (credentials : string) : M User :=
  let* current_user := get_current_active_user credentials in
  run raise_if (negb (bool_decide (role current_user = STAFF_USER)
                      || bool_decide (role current_user = ORG_ADMIN)
                      || bool_decide (role current_user = SUPER_ADMIN)))
        (HTTPException HTTP_403_FORBIDDEN
           "Staff User, Organization Admin or Super Admin access required") in
  ret current_user.

Definition get_current_active_individual_user (credentials : string) : M User :=
  get_current_active_user credentials.

Definition get_current_organization (credentials : string) : M Organization :=
  let* current_user := get_current_active_user credentials in
  run raise_if (bool_decide (role current_user = SUPER_ADMIN))
        (HTTPException HTTP_403_FORBIDDEN
           "Super Admin cannot access organization-specific resources directly without specifying an organization.") in
  match user_organization_id current_user with
  | None => raise (HTTPException HTTP_400_BAD_REQUEST
                     "User is not associated with an organization.")
  | Some oid =>
      let* s := get_working in
      match first_organization_by_id s oid with
      | None => raise (HTTPException HTTP_404_NOT_FOUND
                         "Organization not found or inactive.")
      | Some organization =>
          run raise_if (negb (org_is_active organization))
                (HTTPException HTTP_404_NOT_FOUND
                   "Organization not found or inactive.") in
          ret organization
      end
  end.

(** ** app/core/security.py and app/api/auth.py *)

(** python-jose: [jwt.encode] of a claim set with the configured key. *)
Class TokenSigner := { jwt_encode : Payload -> string }.

Context `{TokenSigner}.

(** app/core/config.py *)
Definition ACCESS_TOKEN_EXPIRE_MINUTES : Z := 60 * 8.

(** The dict [to_encode] of [create_access_token]; [now] is the reading of
    [datetime.utcnow()] and [expires_delta] a [timedelta], both in
    microseconds.  jose turns the [exp] datetime into whole seconds. *)
Definition access_claims (subject : string) (expires_delta : Z) (r : UserRole)
    (organization_id : option UUID) (password_changed_at : datetime) (now : Z)
  : Payload :=
  mk_Payload (Some subject) (Some (UserRole_value r))
             (match organization_id with
              | Some o => Some (str_of_uuid o)
              | None => None
              end)
             (Some (isoformat password_changed_at))
             ((now + expires_delta) / 1000000).

Definition create_access_token (subject : string) (expires_delta : Z) (r : UserRole)
    (organization_id : option UUID) (password_changed_at : datetime) : M string :=
  let* now := utcnow in
  ret (jwt_encode (access_claims subject expires_delta r organization_id
                                 password_changed_at (wall now))).

Definition authenticate_user (name password : string) : M (option User) :=
  let* s := get_working in
  match first_user_by_username s name with
  | None => ret None
  | Some user =>
      if verify_password password (hashed_password user)
      then ret (Some user) else ret None
  end.

(** Returns the [access_token] and [user] entries of the response. *)
Definition login_for_access_token (form_username form_password : string)
  : M (string * User) :=
  let* found := authenticate_user form_username form_password in
  match found with
  | None => raise (HTTPException HTTP_401_UNAUTHORIZED
                     "Incorrect username or password")
  | Some user =>
      run raise_if (negb (is_active user))
            (HTTPException HTTP_400_BAD_REQUEST "Inactive user") in
      let access_token_expires := ACCESS_TOKEN_EXPIRE_MINUTES * 60 * 1000000 in
      let* now := utcnow in
      let* access_token :=
        create_access_token (username user) access_token_expires (role user)
          (user_organization_id user)
          (match password_changed_at user with
           | Some t => t
           | None => now
           end) in
      ret (access_token, user)
  end.

(** ** app/api/cases.py, listings and unassignment *)

#[global] Instance CaseStatus_eq_dec : EqDecision CaseStatus.
Proof. solve_decision. Defined.

#[global] Instance CasePriority_eq_dec : EqDecision CasePriority.
Proof. solve_decision. Defined.

(** The [or_] filter of [read_cases] for staff and individual users: the
    subquery selects the case ids of the user's rows in the assignment
    table. *)
Definition created_or_assigned (s : Store) (current_user : User) (c : Case) : bool :=
  bool_decide (created_by c = User_id current_user)
  || bool_decide (assigned_to c = Some (User_id current_user))
  || existsb (fun a => bool_decide (ca_user_id a = User_id current_user)
                       && bool_decide (ca_case_id a = Case_id c))
             (case_assignments s).

(** [if x: query = query.filter(col == x)]; an enum member is truthy. *)
Definition filter_opt {A B} `{EqDecision B} (col : A -> B) (x : option B)
    (l : list A) : list A :=
  match x with
  | Some v => List.filter (fun a => bool_decide (col a = v)) l
  | None => l
  end.

Definition read_cases (skip limit : nat) (case_status : option CaseStatus)
    (case_priority : option CasePriority) (current_user : User)
    (request : option Request) : M (list Case) :=
  let* s := get_working in
  let* query :=
    match role current_user with
    | SUPER_ADMIN => ret (cases s)
    | ORG_ADMIN =>
        run raise_if (bool_decide (user_organization_id current_user = None))
              (HTTPException HTTP_400_BAD_REQUEST
                 "User must belong to an organization to view cases.") in
        ret (List.filter (fun c => bool_decide (case_organization_id c
                                                = user_organization_id current_user))
                         (cases s))
    | STAFF_USER =>
        run raise_if (bool_decide (user_organization_id current_user = None))
              (HTTPException HTTP_400_BAD_REQUEST
                 "User must belong to an organization to view cases.") in
        ret (List.filter (created_or_assigned s current_user) (cases s))
    | INDIVIDUAL_USER =>
        ret (List.filter (created_or_assigned s current_user) (cases s))
    end in
  let query := filter_opt status case_status query in
  let query := filter_opt priority case_priority query in
  let listed := take limit (drop skip query) in
  run create_audit_log_entry current_user "READ" "Case" None
        (Some (PyDict
           [("action", PyStr "list_cases");
            ("filters",
             PyDict [("status", py_opt (fun x => PyEnum (CaseStatus_value x)) case_status);
                     ("priority",
                      py_opt (fun x => PyEnum (CasePriority_value x)) case_priority)])]))
        request None in
  ret listed.

(** One dict of the list [get_assignable_users] returns. *)
Record AssignableUser := mk_AssignableUser {
  au_id : string;
  au_username : string;
  au_full_name : string;
  au_role : string
}.

(** The users [get_assignable_users] selects, before they are turned into
    dicts. *)
Definition assignable_users (s : Store) (current_user : User) : Outcome (list User) :=
  match role current_user with
  | SUPER_ADMIN => Return (List.filter is_active (users s))
  | INDIVIDUAL_USER =>
      Raise (HTTPException HTTP_403_FORBIDDEN "Not authorized to assign cases.")
  | _ =>
      if bool_decide (user_organization_id current_user = None)
      then Raise (HTTPException HTTP_400_BAD_REQUEST
                    "User must belong to an organization.")
      else Return (List.filter
                     (fun u => bool_decide (user_organization_id u
                                            = user_organization_id current_user)
                               && is_active u)
                     (users s))
  end.

Definition get_assignable_users (current_user : User) : M (list AssignableUser) :=
  let* s := get_working in
  let* selected := lift (assignable_users s current_user) in
  ret (List.map (fun user => mk_AssignableUser (str_of_uuid (User_id user))
                                               (username user) (full_name user)
                                               (UserRole_value (role user)))
                selected).

Definition remove_user_from_case (case_id user_id : UUID) (current_user : User)
    (request : option Request) : M string :=
  let* s := get_working in
  match first_case_by_id s case_id with
  | None => raise (HTTPException HTTP_404_NOT_FOUND "Case not found.")
  | Some case =>
      run match role current_user with
          | SUPER_ADMIN => ret tt
          | ORG_ADMIN =>
              raise_if (negb (bool_decide (case_organization_id case
                                           = user_organization_id current_user)))
                (HTTPException HTTP_403_FORBIDDEN
                   "Not authorized to modify assignments for this case.")
          | _ => raise (HTTPException HTTP_403_FORBIDDEN
                          "Not authorized to modify case assignments.")
          end in
      match first_assignment s case_id user_id with
      | None => raise (HTTPException HTTP_404_NOT_FOUND "Assignment not found.")
      | Some assignment =>
          (* db.delete(assignment): the row with that primary key *)
          run modify_working (fun s =>
                with_case_assignments
                  (List.filter (fun a => negb (bool_decide (ca_id a = ca_id assignment)))
                               (case_assignments s)) s) in
          run db_commit in
          run create_audit_log_entry current_user "UNASSIGN" "Case" (Some case_id)
                (Some (PyDict [("unassigned_user", PyStr (str_of_uuid user_id))]))
                request None in
          ret "User assignment removed successfully"
      end
  end.

(** ** app/api/evidence.py, a single record *)

Definition first_evidence_by_id (s : Store) (x : UUID) : option Evidence :=
  List.find (fun e => bool_decide (ev_id e = x)) (evidence s).

Definition read_evidence (evidence_id : UUID) (current_user : User)
    (request : option Request) : M Evidence :=
  let* s := get_working in
  match first_evidence_by_id s evidence_id with
  | None => raise (HTTPException HTTP_404_NOT_FOUND "Evidence not found.")
  | Some ev =>
      run raise_if
            (negb (bool_decide (role current_user = SUPER_ADMIN))
             && negb (bool_decide (ev_organization_id ev
                                   = user_organization_id current_user)))
            (HTTPException HTTP_403_FORBIDDEN
               "Not authorized to access this evidence.") in
      run create_audit_log_entry current_user "READ" "Evidence" (Some (ev_id ev))
            (Some (PyDict [("name", PyStr (ev_name ev))])) request None in
      ret ev
  end.

(** ** app/api/users.py, listing and password resets *)

Definition read_users_me (current_user : User) : User := current_user.

Definition read_users (skip limit : nat) (current_user : User)
    (request : option Request) : M (list User) :=
  let* s := get_working in
  let* listed :=
    match role current_user with
    | SUPER_ADMIN => ret (take limit (drop skip (users s)))
    | ORG_ADMIN =>
        run raise_if (bool_decide (user_organization_id current_user = None))
              (HTTPException HTTP_400_BAD_REQUEST
                 "Organization Admin must belong to an organization.") in
        ret (take limit (drop skip
               (List.filter (fun u => bool_decide (user_organization_id u
                                                   = user_organization_id current_user))
                            (users s))))
    | _ => raise (HTTPException HTTP_403_FORBIDDEN
                    "Not enough permissions to view all users.")
    end in
  run create_audit_log_entry current_user "READ" "User" None
        (Some (PyDict [("action", PyStr "list_users");
                       ("role_filter", PyStr (UserRole_value (role current_user)))]))
        request None in
  ret listed.

(** app/schemas/pii.py *)
Record AdminPasswordResetRequest := mk_AdminPasswordResetRequest {
  apr_user_id : UUID;
  apr_new_password : string;
  apr_admin_password : string
}.

Definition admin_reset_password (reset_data : AdminPasswordResetRequest)
    (current_user : User) (request : option Request) : M User :=
  run raise_if (negb (verify_password (apr_admin_password reset_data)
                                      (hashed_password current_user)))
        (HTTPException HTTP_400_BAD_REQUEST
           "Admin password verification failed. Please enter your own password correctly.") in
  run raise_if (negb (bool_decide (role current_user = SUPER_ADMIN)
                      || bool_decide (role current_user = ORG_ADMIN)))
        (HTTPException HTTP_403_FORBIDDEN
           "Not enough permissions to reset user passwords.") in
  let* s := get_working in
  match first_user_by_id s (apr_user_id reset_data) with
  | None => raise (HTTPException 404 "User not found")
  | Some user_to_reset =>
      run (if bool_decide (role current_user = ORG_ADMIN)
           then
             run raise_if (bool_decide (user_organization_id current_user = None))
                   (HTTPException HTTP_400_BAD_REQUEST
                      "Organization Admin must belong to an organization.") in
             run raise_if
                   (negb (bool_decide (user_organization_id user_to_reset
                                       = user_organization_id current_user)))
                   (HTTPException HTTP_403_FORBIDDEN
                      "Organization Admin can only reset passwords for users within their own organization.") in
             raise_if (bool_decide (role user_to_reset = SUPER_ADMIN)
                       || bool_decide (role user_to_reset = ORG_ADMIN))
               (HTTPException HTTP_403_FORBIDDEN
                  "Organization Admin cannot reset passwords for Super Admin or other Organization Admin users.")
           else ret tt) in
      let hashed := get_password_hash (apr_new_password reset_data) in
      let* now := utcnow in
      let user_to_reset' := with_new_password hashed now user_to_reset in
      run modify_working (fun s =>
            with_users (List.map (fun x => if bool_decide (User_id x = User_id user_to_reset)
                                           then with_new_password hashed now x else x)
                                 (users s)) s) in
      run db_commit in
      run create_audit_log_entry current_user "UPDATE" "User"
            (Some (User_id user_to_reset'))
            (Some (PyDict [("action", PyStr "admin_password_reset");
                           ("target_user", PyStr (username user_to_reset'))]))
            request None in
      (* the response message names this user *)
      ret user_to_reset'
  end.

(** [del password_reset_tokens[key]]; the handler only deletes keys it has
    just read. *)
Definition reset_tokens_delitem (key : string) : M unit :=
  fun w => (Return tt,
            mk_World (committed w) (working w) (faults w) (uuid4_source w)
                     (uuid4_drawn w) (clock w) (stack_left w)
                     (token_source w) (tokens_drawn w)
                     (delete key (password_reset_tokens w))).

(** [password_reset_tokens.get(key)]. *)
Definition reset_tokens_get (key : string) : M (option ResetEntry) :=
  fun w => (Return (password_reset_tokens w !! key), w).

Record PasswordResetConfirm := mk_PasswordResetConfirm {
  prc_token : string;
  prc_new_password : string
}.

Definition confirm_password_reset (reset_confirm : PasswordResetConfirm) : M string :=
  let* token_data := reset_tokens_get (prc_token reset_confirm) in
  match token_data with
  | None => raise (HTTPException HTTP_400_BAD_REQUEST "Invalid or expired reset token")
  | Some entry =>
      let* now := utcnow in
      let* expired := lift (datetime_gt now (re_expires entry)) in
      if expired
      then
        run reset_tokens_delitem (prc_token reset_confirm) in
        raise (HTTPException HTTP_400_BAD_REQUEST "Reset token has expired")
      else
        let* s := get_working in
        match first_user_by_id s (re_user_id entry) with
        | None => raise (HTTPException 404 "User not found")
        | Some user =>
            let hashed := get_password_hash (prc_new_password reset_confirm) in
            let* now := utcnow in
            let user' := with_new_password hashed now user in
            run modify_working (fun s =>
                  with_users (List.map (fun x => if bool_decide (User_id x = User_id user)
                                                 then with_new_password hashed now x else x)
                                       (users s)) s) in
            run db_commit in
            run reset_tokens_delitem (prc_token reset_confirm) in
            run create_audit_log_entry user' "UPDATE" "User" (Some (User_id user'))
                  (Some (PyDict [("action", PyStr "password_reset_via_email")]))
                  None None in
            ret "Password reset successfully"
        end
  end.

(** [password_data] is the JSON object of the request body, as far as the
    handler reads it: its ["password"] entry when that is a string. *)
Definition verify_admin_password (password : option string) (current_user : User)
  : M string :=
  run raise_if (negb (bool_decide (role current_user = SUPER_ADMIN)
                      || bool_decide (role current_user = ORG_ADMIN)))
        (HTTPException HTTP_403_FORBIDDEN
           "Not enough permissions to perform admin operations.") in
  match password with
  | None => raise (HTTPException HTTP_400_BAD_REQUEST "Password is required")
  | Some admin_password =>
      run raise_if (bool_decide (admin_password = EmptyString))
            (HTTPException HTTP_400_BAD_REQUEST "Password is required") in
      run raise_if (negb (verify_password admin_password (hashed_password current_user)))
            (HTTPException HTTP_400_BAD_REQUEST "Password verification failed") in
      ret "Password verified successfully"
  end.

(** ** app/api/organizations.py, creation and reads *)

(** app/schemas/organization.py; [None]: the field was not sent and
    [model_dump()] gives its default. *)
Record OrganizationCreate := mk_OrganizationCreate {
  oc_name : string;
  oc_description : option string;
  oc_plan : option string;
  oc_max_users : option Z;
  oc_max_cases : option Z;
  oc_is_active : option bool
}.

Definition first_organization_by_name (s : Store) (x : string) : option Organization :=
  List.find (fun o => bool_decide (org_name o = x)) (organizations s).

Definition create_organization (org_in : OrganizationCreate) (current_user : User)
    (request : option Request) : M Organization :=
  let* s := get_working in
  run raise_if (negb (bool_decide (first_organization_by_name s (oc_name org_in) = None)))
        (HTTPException HTTP_400_BAD_REQUEST
           "Organization with this name already exists.") in
  let* new_id := uuid4 in
  let organization :=
    mk_Organization new_id (oc_name org_in) (oc_description org_in)
                    (default "free" (oc_plan org_in))
                    (default 10 (oc_max_users org_in))
                    (default 50 (oc_max_cases org_in))
                    (default true (oc_is_active org_in)) in
  run modify_working (fun s => with_organizations (organizations s ++ [organization]) s) in
  run db_commit in
  run create_audit_log_entry current_user "CREATE" "Organization"
        (Some (Organization_id organization))
        (Some (PyDict [("name", PyStr (org_name organization))])) request None in
  ret organization.

Definition read_organizations (skip limit : nat) (current_user : User)
    (request : option Request) : M (list Organization) :=
  let* s := get_working in
  let listed := take limit (drop skip (organizations s)) in
  run create_audit_log_entry current_user "READ" "Organization" None
        (Some (PyDict [("action", PyStr "list_organizations")])) request None in
  ret listed.

Definition read_organizations_simple (current_user : User)
    (request : option Request) : M (list Organization) :=
  run raise_if (negb (bool_decide (role current_user = SUPER_ADMIN)
                      || bool_decide (role current_user = ORG_ADMIN)))
        (HTTPException HTTP_403_FORBIDDEN
           "Not enough permissions to view organizations.") in
  let* s := get_working in
  let listed := List.filter org_is_active (organizations s) in
  run create_audit_log_entry current_user "READ" "Organization" None
        (Some (PyDict [("action", PyStr "list_organizations_simple")])) request None in
  ret listed.

Definition read_organization (org_id : UUID) (current_user : User)
    (request : option Request) : M Organization :=
  let* s := get_working in
  match first_organization_by_id s org_id with
  | None => raise (HTTPException HTTP_404_NOT_FOUND "Organization not found.")
  | Some organization =>
      run create_audit_log_entry current_user "READ" "Organization"
            (Some (Organization_id organization))
            (Some (PyDict [("name", PyStr (org_name organization))])) request None in
      ret organization
  end.

(** ** Shapes of audit details *)


(** How deep [serialize_for_json] descends into a value: containers count,
    and of an instance only the attributes it copies. *)
Fixpoint nesting (v : PyVal) : nat :=
  match v with
  | PyObject attrs =>
      foldr (fun kv acc =>
               if startswith_underscore (fst kv) then acc
               else Nat.max (S (nesting (snd kv))) acc) 0%nat attrs
  | PyDict items =>
      foldr (fun kv acc => Nat.max (S (nesting (snd kv))) acc) 0%nat items
  | PyList elems =>
      foldr (fun x acc => Nat.max (S (nesting x)) acc) 0%nat elems
  | _ => 0%nat
  end.

(** The handler answered with an [HTTPException]. *)
Definition http_error {A} (r : Outcome A * World) : bool :=
  match fst r with
  | Raise (HTTPException _ _) => true
  | _ => false
  end.

(** The tables other than the assignment table agree. *)
Definition same_but_assignments (s s' : Store) : Prop :=
  users s' = users s /\ organizations s' = organizations s
  /\ cases s' = cases s /\ evidence s' = evidence s
  /\ audit_logs s' = audit_logs s.

(** The key the unique constraint of [case_assignments] is on. *)
Definition assignment_pair (a : CaseAssignment) : UUID * UUID :=
  (ca_case_id a, ca_user_id a).

(** The conditions under which [get_current_user] hands back [user]. *)
Definition token_resolves_to (w : World) (credentials : string) (user : User) : Prop :=
  exists payload uname role_str pt,
    jwt_verify credentials = Some payload
    /\ (p_exp payload * 1000000 <? clock w) = false
    /\ p_sub payload = Some uname
    /\ p_role payload = Some role_str
    /\ UserRole_of_value role_str = Some (role user)
    /\ organization_claim payload = Some (user_organization_id user)
    /\ token_epoch credentials = Some pt
    /\ first_user_by_username (working w) uname = Some user
    /\ (forall stored, password_changed_at user = Some stored ->
                       instant stored <= instant pt).

(** The element function of the dict comprehensions. *)
Definition on_item (d : nat) (kv : string * PyVal) : Outcome (string * PyVal) :=
  match serialize_for_json d (snd kv) with
  | Return v => Return (fst kv, v)
  | Raise e => Raise e
  end.

(** The tables other than the audit log agree. *)
Definition same_but_audit_logs (s s' : Store) : Prop :=
  users s' = users s /\ organizations s' = organizations s
  /\ cases s' = cases s /\ case_assignments s' = case_assignments s
  /\ evidence s' = evidence s.

(** What a handler that only reads may leave behind, from a session with
    nothing pending: the tables other than the audit log as they were,
    and nothing uncommitted. *)
Definition only_audit_logs_written {A} (w : World) (r : Outcome A * World) : Prop :=
  same_but_audit_logs (working w) (working (snd r))
  /\ committed (snd r) = working (snd r).

(** The engine accepts the [n]-th commit from now on ([n] counted from 0):
    every [commit] consumes the head of the fault schedule, and an
    exhausted schedule refuses nothing. *)
Definition commit_accepted (n : nat) (w : World) : Prop :=
  nth n (faults w) false = false.

End Handlers.

(** * A concrete deployment

    A platform and a small database on which the statements below are
    evaluated. *)

Definition utc_platform : Platform := {|
  isoformat d := if bool_decide (d = mk_datetime 1000 None) then "1970-01-01T00:00:00.001000"
                 else if bool_decide (d = mk_datetime 5000 None) then "1970-01-01T00:00:00.005000"
                 else EmptyString;
  fromisoformat s := if bool_decide (s = "1970-01-01T00:00:00.001000") then Some (mk_datetime 1000 None)
                     else if bool_decide (s = "1970-01-01T00:00:00.005000") then Some (mk_datetime 5000 None)
                     else None;
  str_of_uuid u := if bool_decide (u = 10%N) then "0000000a" else EmptyString;
  uuid_of_str s := if bool_decide (s = "0000000a") then Some 10%N else None;
  jwt_verify t :=
    if bool_decide (t = "token-sam")
    then Some (mk_Payload (Some "sam") (Some "STAFF_USER") (Some "0000000a")
                          (Some "1970-01-01T00:00:00.001000") 86400)
    else if bool_decide (t = "token-lee")
    then Some (mk_Payload (Some "lee") (Some "STAFF_USER") (Some "0000000a")
                          (Some "1970-01-01T00:00:00.005000") 86400)
    else None;
  verify_password plain hashed := bool_decide (hashed = String.append "bcrypt:" plain);
  get_password_hash plain := String.append "bcrypt:" plain;
  utcoffset_at_wall _ := 0;
  utcoffset_at_utc _ := 0
|}.

Definition root : User :=
  mk_User 1 "root" "root@example.org" "Root" "bcrypt:r" SUPER_ADMIN None true
          (Some (mk_datetime 1000 None)).
Definition olivia : User :=
  mk_User 2 "olivia" "olivia@example.org" "Olivia" "bcrypt:o" ORG_ADMIN (Some 10%N) true
          (Some (mk_datetime 1000 None)).
Definition sam : User :=
  mk_User 3 "sam" "sam@example.org" "Sam" "bcrypt:s" STAFF_USER (Some 10%N) true
          (Some (mk_datetime 1000 None)).
Definition tess : User :=
  mk_User 4 "tess" "tess@example.org" "Tess" "bcrypt:t" STAFF_USER (Some 10%N) false
          (Some (mk_datetime 1000 None)).
Definition ivy : User :=
  mk_User 5 "ivy" "ivy@example.org" "Ivy" "bcrypt:i" INDIVIDUAL_USER None true
          (Some (mk_datetime 1000 None)).
Definition lee : User :=
  mk_User 6 "lee" "lee@example.org" "Lee" "bcrypt:l" STAFF_USER (Some 10%N) true None.

Definition acme : Organization :=
  mk_Organization 10 "acme" None "free" 10 50 true.

(** Case 100 has sam as legacy assignee, case 101 has nobody assigned. *)
Definition case_100 : Case :=
  mk_Case 100 "Leak" None OPEN MEDIUM 2 (Some 3%N) (Some 10%N).
Definition case_101 : Case :=
  mk_Case 101 "Fraud" None OPEN HIGH 2 None (Some 10%N).

Definition store0 : Store :=
  mk_Store [root; olivia; sam; tess; ivy; lee] [acme] [case_100; case_101]
           [mk_CaseAssignment 200 100 6 (Some 2%N)]
           [mk_Evidence 300 101 "ledger.pdf" (Some 10%N) 2]
           [].

Definition world0 : World :=
  mk_World store0 store0 [] (fun n => (1000 + N.of_nat n)%N) 0 2000 100
           (fun _ => "reset-token") 0 ∅.




(** The engine refuses the next write. *)
Definition world_faulty : World :=
  mk_World store0 store0 [true] (fun n => (1000 + N.of_nat n)%N) 0 2000 100
           (fun _ => "reset-token") 0 ∅.

Definition no_case_update : CaseUpdate :=
  mk_CaseUpdate None None (Some CLOSED) None None None.

Definition deactivate_acme : OrganizationUpdate :=
  mk_OrganizationUpdate None None None None None (Some false).

Definition move_into_acme : UserUpdate :=
  mk_UserUpdate None None None None None None (Some (Some 10%N)).

Definition case_for_acme : CaseCreate :=
  mk_CaseCreate "Intrusion" None None None None (Some 10%N).

(** The claims of the token [login_for_access_token] issues to sam at
    reading 2000: eight hours later is second 28800. *)
Definition sam_claims : Payload :=
  mk_Payload (Some "sam") (Some "STAFF_USER") (Some "0000000a")
             (Some "1970-01-01T00:00:00.001000") 28800.

Definition demo_signer : TokenSigner := {|
  jwt_encode p := if bool_decide (p_exp p = 28800) then "issued-sam" else "issued"
|}.

(** The platform above, which also verifies what [demo_signer] signs. *)
Definition issuing_platform : Platform := {|
  isoformat := @isoformat utc_platform;
  fromisoformat := @fromisoformat utc_platform;
  str_of_uuid := @str_of_uuid utc_platform;
  uuid_of_str := @uuid_of_str utc_platform;
  jwt_verify t := if bool_decide (t = "issued-sam") then Some sam_claims
                  else @jwt_verify utc_platform t;
  verify_password := @verify_password utc_platform;
  get_password_hash := @get_password_hash utc_platform;
  utcoffset_at_wall := @utcoffset_at_wall utc_platform;
  utcoffset_at_utc := @utcoffset_at_utc utc_platform
|}.

Definition role_in_details : PyVal :=
  PyDict [("role", PyRole STAFF_USER); ("ids", PyList [PyUUID 10%N])].

Definition nina : UserCreate :=
  mk_UserCreate "nina" "nina@example.org" "Nina" STAFF_USER true (Some 10%N) "pw".

Definition reset_sam : AdminPasswordResetRequest :=
  mk_AdminPasswordResetRequest 3 "fresh" "o".

Definition globex : OrganizationCreate :=
  mk_OrganizationCreate "globex" None None None None None.

Definition rename_acme : OrganizationUpdate :=
  mk_OrganizationUpdate (Some "acme ltd") None None None None None.

(** [world0] after sam asked for a reset token. *)
Definition world_reset : World :=
  snd (request_password_reset "sam@example.org" world0).

(** * Properties *)

Section Properties.
Context `{Platform}.

(** ** Reasoning about handlers *)

Lemma bind_Return {A B} (m : M A) (k : A -> M B) w a w' :
  m w = (Return a, w') -> bind m k w = k a w'.
Proof. unfold bind. intros ->. reflexivity. Qed.

Lemma bind_Raise {A B} (m : M A) (k : A -> M B) w e w' :
  m w = (Raise e, w') -> bind m k w = (Raise e, w').
Proof. unfold bind. intros ->. reflexivity. Qed.

Lemma raise_if_false {B} e (k : unit -> M B) w :
  bind (raise_if false e) k w = k tt w.
Proof. reflexivity. Qed.

Lemma raise_if_true {B} e (k : unit -> M B) w :
  bind (raise_if true e) k w = (Raise e, w).
Proof. reflexivity. Qed.

(** ** The audit trail never raises *)

Lemma create_audit_log_entry_returns user action resource_type resource_id
    details request case_id w :
  exists r w',
    create_audit_log_entry user action resource_type resource_id details
                           request case_id w = (Return r, w').
Proof.
  unfold create_audit_log_entry, try_except, bind.
  destruct details as [d|]; cbn.
  - destruct (truthy d); cbn.
    + destruct (serialize_for_json (stack_left w) d); cbn.
      * destruct (faults w) as [|[] fs]; cbn; eauto.
      * eauto.
    + destruct (faults w) as [|[] fs]; cbn; eauto.
  - destruct (faults w) as [|[] fs]; cbn; eauto.
Qed.


Lemma create_audit_log_entry_success user action resource_type resource_id
    details request case_id w sd :
  serialized_details_of details w = Return sd ->
  next_commit_fails w = false ->
  let a := audit_entry user action resource_type resource_id sd request case_id w in
  create_audit_log_entry user action resource_type resource_id details
                         request case_id w = (Return (Some a), audit_world a w).
Proof.
  unfold create_audit_log_entry, try_except, bind, serialized_details_of,
    next_commit_fails, audit_entry, audit_world.
  intros Hs Hf.
  destruct details as [d|]; cbn.
  - destruct (truthy d); cbn.
    + destruct (serialize_for_json (stack_left w) d); [|discriminate].
      injection Hs as <-. cbn. unfold db_commit; cbn.
      destruct (faults w) as [|[] fs]; try discriminate; reflexivity.
    + injection Hs as <-. unfold db_commit; cbn.
      destruct (faults w) as [|[] fs]; try discriminate; reflexivity.
  - injection Hs as <-. unfold db_commit; cbn.
    destruct (faults w) as [|[] fs]; try discriminate; reflexivity.
Qed.


Arguments create_audit_log_entry : simpl never.

Ltac audit_returns :=
  match goal with
  | |- context [create_audit_log_entry ?u ?a ?rt ?rid ?d ?rq ?cid ?w] =>
      let r := fresh "r" in
      let w' := fresh "w'" in
      let E := fresh "E" in
      destruct (create_audit_log_entry_returns u a rt rid d rq cid w)
        as (r & w' & E);
      rewrite E; cbn
  end.

(** ** Case authorization *)

Lemma read_case_forbidden w case_id current_user request case :
  first_case_by_id (working w) case_id = Some case ->
  forbidden (read_case case_id current_user request w)
  = case_access_denied (working w) case case_id current_user.
Proof.
  intros Hc. unfold read_case, case_access_denied, forbidden, raises_http.
  unfold bind at 1. cbn. rewrite Hc.
  destruct (role current_user); cbn.
  - unfold bind; cbn. audit_returns. reflexivity.
  - unfold bind at 1.
    destruct (bool_decide (case_organization_id case = user_organization_id current_user));
      cbn; [|reflexivity].
    unfold bind; cbn. audit_returns. reflexivity.
  - unfold bind at 1.
    destruct (_ && _ && _); cbn; [reflexivity|].
    unfold bind; cbn. audit_returns. reflexivity.
  - unfold bind at 1.
    destruct (_ && _ && _); cbn; [reflexivity|].
    unfold bind; cbn. audit_returns. reflexivity.
Qed.

Lemma db_commit_cases w :
  (exists w', db_commit w = (Return tt, w'))
  \/ (exists w', db_commit w = (Raise SQLAlchemyError, w')).
Proof.
  unfold db_commit. destruct (faults w) as [|[] fs]; eauto.
Qed.

Arguments db_commit : simpl never.

Ltac commit_cases :=
  match goal with
  | |- context [db_commit ?w] =>
      let w' := fresh "w'" in
      let E := fresh "E" in
      destruct (db_commit_cases w) as [(w' & E) | (w' & E)]; rewrite E; cbn
  end.

(** One step through the control flow of a handler whose binds have been
    unfolded. *)
Ltac handler_step :=
  match goal with
  | |- context [raise_if ?c ?e ?w] => destruct c eqn:?; cbn
  | |- context [db_commit ?w] => commit_cases
  | |- context [create_audit_log_entry _ _ _ _ _ _ _ _] => audit_returns
  | |- context [match role ?u with _ => _ end] => destruct (role u) eqn:?; cbn
  end.

Lemma update_case_forbidden w case_id case_update current_user request case :
  first_case_by_id (working w) case_id = Some case ->
  forbidden (update_case case_id case_update current_user request w)
  = case_access_denied (working w) case case_id current_user.
Proof.
  intros Hc. unfold update_case, case_access_denied, forbidden, raises_http.
  unfold bind at 1. cbn. rewrite Hc.
  destruct (role current_user); cbn.
  - unfold bind; cbn. commit_cases; [audit_returns|]; reflexivity.
  - unfold bind at 1.
    destruct (bool_decide (case_organization_id case = user_organization_id current_user));
      cbn; [|reflexivity].
    unfold bind; cbn. commit_cases; [audit_returns|]; reflexivity.
  - unfold bind at 1.
    destruct (_ && _ && _); cbn; [reflexivity|].
    unfold bind; cbn. commit_cases; [audit_returns|]; reflexivity.
  - unfold bind at 1.
    destruct (_ && _ && _); cbn; [reflexivity|].
    unfold bind; cbn. commit_cases; [audit_returns|]; reflexivity.
Qed.

Lemma delete_case_forbidden w case_id current_user request case :
  first_case_by_id (working w) case_id = Some case ->
  forbidden (delete_case case_id current_user request w)
  = case_delete_denied case current_user.
Proof.
  intros Hc. unfold delete_case, case_delete_denied, forbidden, raises_http.
  unfold bind at 1. cbn. rewrite Hc.
  destruct (role current_user); cbn.
  - unfold bind; cbn. commit_cases; [|reflexivity].
    audit_returns. reflexivity.
  - unfold bind at 1.
    destruct (bool_decide (case_organization_id case = user_organization_id current_user));
      cbn; [|reflexivity].
    unfold bind; cbn. commit_cases; [|reflexivity].
    audit_returns. reflexivity.
  - reflexivity.
  - unfold bind at 1.
    rewrite (bool_decide_eq_true_2 (INDIVIDUAL_USER = INDIVIDUAL_USER) eq_refl).
    destruct (bool_decide (created_by case = User_id current_user)); cbn; [|reflexivity].
    unfold bind; cbn. commit_cases; [|reflexivity].
    audit_returns. reflexivity.
Qed.

(** C2.  For every actor, whatever the role, and every existing case,
    [read_case] and [update_case] deny (403) on exactly the same inputs;
    [delete_case] allows no more than [update_case] does; and a staff or
    individual user who is assigned to the case (legacy field or assignment
    table) without being its creator may update it but not delete it. *)
Theorem read_update_agree_delete_narrower w case_id case_update current_user
    request case :
  first_case_by_id (working w) case_id = Some case ->
  forbidden (read_case case_id current_user request w)
  = forbidden (update_case case_id case_update current_user request w)
  /\ (forbidden (delete_case case_id current_user request w) = false ->
      forbidden (update_case case_id case_update current_user request w) = false)
  /\ (role current_user = STAFF_USER \/ role current_user = INDIVIDUAL_USER ->
      created_by case <> User_id current_user ->
      assigned_to case = Some (User_id current_user)
      \/ first_assignment (working w) case_id (User_id current_user) <> None ->
      forbidden (update_case case_id case_update current_user request w) = false
      /\ forbidden (delete_case case_id current_user request w) = true).
Proof.
  intros Hc.
  rewrite (read_case_forbidden _ _ _ _ _ Hc),
          (update_case_forbidden _ _ _ _ _ _ Hc),
          (delete_case_forbidden _ _ _ _ _ Hc).
  unfold case_access_denied, case_delete_denied, is_assigned_via_table.
  split; [reflexivity|]. split.
  - destruct (role current_user); try done.
    destruct (bool_decide (created_by case = User_id current_user)); done.
  - intros Hr Hnc Ha.
    rewrite (bool_decide_eq_false_2 _ Hnc).
    destruct Hr as [-> | ->]; (split; [|reflexivity]); cbn;
      destruct Ha as [Ha | Ha].
    + rewrite (bool_decide_eq_true_2 _ Ha). reflexivity.
    + rewrite (bool_decide_eq_false_2 _ Ha). cbn. apply andb_false_r.
    + rewrite (bool_decide_eq_true_2 _ Ha). reflexivity.
    + rewrite (bool_decide_eq_false_2 _ Ha). cbn. apply andb_false_r.
Qed.

(** ** Case creation *)

Lemma load_global_Organization w :
  load_global cases_py_globals "Organization" w = (Raise (NameError "Organization"), w).
Proof. reflexivity. Qed.

(** C6.  A SuperAdmin who supplies an organization id does not get a case
    created under it, nor a 404 for an unknown id: cases.py looks the
    organization up through the name [Organization], which the module never
    imports, so the lookup raises [NameError] whatever the id is. *)
Theorem create_case_super_admin_name_error w case_in current_user request oid :
  role current_user = SUPER_ADMIN ->
  cc_organization_id case_in = Some oid ->
  create_case case_in current_user request w
  = (Raise (NameError "Organization"), w).
Proof.
  intros Hr Ho. unfold create_case. rewrite Hr, Ho.
  unfold bind. cbn. reflexivity.
Qed.

Lemma create_case_super_admin_without_org w case_in current_user request :
  role current_user = SUPER_ADMIN ->
  cc_organization_id case_in = None ->
  raises_http HTTP_400_BAD_REQUEST (create_case case_in current_user request w) = true.
Proof.
  intros Hr Ho. unfold create_case, raises_http. rewrite Hr, Ho. reflexivity.
Qed.

Lemma create_case_other_organization w case_in current_user request oid :
  role current_user = ORG_ADMIN \/ role current_user = STAFF_USER ->
  cc_organization_id case_in = Some oid ->
  user_organization_id current_user <> Some oid ->
  (if bool_decide (user_organization_id current_user = None)
   then raises_http HTTP_400_BAD_REQUEST (create_case case_in current_user request w)
   else forbidden (create_case case_in current_user request w)) = true.
Proof.
  intros Hr Ho Hne. unfold create_case, forbidden, raises_http.
  assert (Hb : bool_decide (Some oid = user_organization_id current_user) = false)
    by (apply bool_decide_eq_false_2; congruence).
  destruct Hr as [-> | ->]; rewrite Ho; unfold bind at 1; unfold bind at 1;
    destruct (bool_decide (user_organization_id current_user = None)); cbn;
    try reflexivity; unfold bind at 1; rewrite Hb; reflexivity.
Qed.

Lemma create_case_own_organization w case_in current_user request :
  role current_user <> SUPER_ADMIN ->
  (role current_user <> INDIVIDUAL_USER ->
   user_organization_id current_user <> None
   /\ (cc_organization_id case_in = None
       \/ cc_organization_id case_in = user_organization_id current_user)) ->
  cc_tags case_in = None ->
  next_commit_fails w = false ->
  exists c w',
    create_case case_in current_user request w = (Return c, w')
    /\ created_by c = User_id current_user
    /\ case_organization_id c
       = (if bool_decide (role current_user = INDIVIDUAL_USER) then None
          else user_organization_id current_user).
Proof.
  intros Hs Hm Ht Hf. unfold create_case.
  assert (Hcommit : forall w0, faults w0 = faults w ->
            db_commit w0 = (Return tt, with_stores (working w0) (working w0)
                                                   (tail (faults w0)) w0)).
  { intros w0 E. unfold db_commit, next_commit_fails in *. rewrite E.
    destruct (faults w) as [|[] fs]; try discriminate; reflexivity. }
  destruct (role current_user) eqn:Hr; try congruence.
  - destruct Hm as [Hsome Hor]; [discriminate|].
    unfold bind at 1. unfold bind at 1.
    rewrite (bool_decide_eq_false_2 _ Hsome). cbn.
    unfold bind at 1.
    replace (negb (bool_decide (cc_organization_id case_in = None))
             && negb (bool_decide (cc_organization_id case_in
                                   = user_organization_id current_user))) with false.
    2:{ destruct Hor as [E | E]; rewrite (bool_decide_eq_true_2 _ E); cbn;
        [reflexivity | symmetry; apply andb_false_r]. }
    cbn. rewrite Ht. unfold bind; cbn. rewrite Hcommit by reflexivity. cbn.
    audit_returns. eauto.
  - destruct Hm as [Hsome Hor]; [discriminate|].
    unfold bind at 1. unfold bind at 1.
    rewrite (bool_decide_eq_false_2 _ Hsome). cbn.
    unfold bind at 1.
    replace (negb (bool_decide (cc_organization_id case_in = None))
             && negb (bool_decide (cc_organization_id case_in
                                   = user_organization_id current_user))) with false.
    2:{ destruct Hor as [E | E]; rewrite (bool_decide_eq_true_2 _ E); cbn;
        [reflexivity | symmetry; apply andb_false_r]. }
    cbn. rewrite Ht. unfold bind; cbn. rewrite Hcommit by reflexivity. cbn.
    audit_returns. eauto.
  - unfold bind at 1. cbn. rewrite Ht. unfold bind; cbn.
    rewrite Hcommit by reflexivity. cbn. audit_returns. eauto.
Qed.

(** ** Assignment batches *)

Lemma filter_ids_NoDup (p : User -> bool) (us : list User) :
  NoDup (List.map User_id us) -> NoDup (List.map User_id (List.filter p us)).
Proof.
  induction us as [|u us IH]; cbn; intros Hnd; [constructor|].
  apply NoDup_cons in Hnd as [Hnotin Hnd].
  destruct (p u); cbn; [|auto].
  apply NoDup_cons. split; [|auto].
  intros Hin. apply Hnotin.
  apply list_elem_of_In, in_map_iff in Hin as (x & Hx & Hin).
  apply filter_In in Hin as [Hin _].
  apply list_elem_of_In, in_map_iff. eauto.
Qed.

Lemma users_found_ids s user_ids x :
  x ∈ List.map User_id (users_found s user_ids) -> x ∈ user_ids.
Proof.
  intros Hin. apply list_elem_of_In, in_map_iff in Hin as (u & <- & Hin).
  apply filter_In in Hin as [_ Hp].
  apply andb_true_iff in Hp as [Hp _].
  apply existsb_exists in Hp as (i & Hi & Hb).
  apply bool_decide_eq_true_1 in Hb as ->. by apply list_elem_of_In.
Qed.

(** A batch that passes the length test has no repeated id. *)
Lemma users_found_length_NoDup s user_ids :
  NoDup (List.map User_id (users s)) ->
  length (users_found s user_ids) = length user_ids ->
  NoDup user_ids.
Proof.
  intros Hnd Hlen.
  pose proof (filter_ids_NoDup
                (fun u => existsb (fun i => bool_decide (User_id u = i)) user_ids
                          && is_active u) _ Hnd) as Hnd'.
  fold (users_found s user_ids) in Hnd'.
  assert (Hsub : List.map User_id (users_found s user_ids) ⊆+ user_ids)
    by (apply NoDup_submseteq; [exact Hnd' | apply users_found_ids]).
  assert (Hperm : List.map User_id (users_found s user_ids) ≡ₚ user_ids).
  { apply submseteq_length_Permutation; [exact Hsub|].
    rewrite length_map. lia. }
  rewrite <- Hperm. exact Hnd'.
Qed.

Lemma assign_duplicate_batch_rejected w case_id user_ids current_user request case :
  first_case_by_id (working w) case_id = Some case ->
  role current_user = SUPER_ADMIN
  \/ (role current_user = ORG_ADMIN
      /\ case_organization_id case = user_organization_id current_user) ->
  NoDup (List.map User_id (users (working w))) ->
  ~ NoDup user_ids ->
  assign_users_to_case case_id user_ids current_user request w
  = (Raise (HTTPException HTTP_400_BAD_REQUEST
              "One or more user IDs are invalid or inactive."), w).
Proof.
  intros Hc Hauth Hnd Hdup. unfold assign_users_to_case.
  unfold bind at 1. cbn. rewrite Hc.
  fold (users_found (working w) user_ids).
  assert (Hlen : bool_decide (length (users_found (working w) user_ids)
                              = length user_ids) = false).
  { apply bool_decide_eq_false_2. intros E.
    apply Hdup. eapply users_found_length_NoDup; eauto. }
  destruct Hauth as [-> | [-> Horg]].
  - unfold bind at 1. cbn. unfold bind at 1. rewrite Hlen. reflexivity.
  - unfold bind at 1. rewrite (bool_decide_eq_true_2 _ Horg). cbn.
    unfold bind at 1. rewrite Hlen. reflexivity.
Qed.

(** C5.  With user ids unique in the users table, an authorized request
    that names the same user twice is not carried out: the length test of
    the validation query sends the batch [u1, u1] back with 400 and the
    assignment table is left as it was. *)
Theorem assign_same_user_twice_rejected w case_id u1 current_user request case :
  first_case_by_id (working w) case_id = Some case ->
  role current_user = SUPER_ADMIN
  \/ (role current_user = ORG_ADMIN
      /\ case_organization_id case = user_organization_id current_user) ->
  NoDup (List.map User_id (users (working w))) ->
  assign_users_to_case case_id [u1; u1] current_user request w
  = (Raise (HTTPException HTTP_400_BAD_REQUEST
              "One or more user IDs are invalid or inactive."), w).
Proof.
  intros Hc Hauth Hnd.
  apply (assign_duplicate_batch_rejected _ _ _ _ _ _ Hc Hauth Hnd).
  intros Hdup. apply NoDup_cons in Hdup as [Hnotin _].
  apply Hnotin. constructor.
Qed.

(** What a call of the audit emitter leaves in the session: either its
    row was committed on top of the pending writes, or the transaction was
    rolled back to the last commit. *)
Lemma create_audit_log_entry_stores user action resource_type resource_id
    details request case_id w :
  exists r w',
    create_audit_log_entry user action resource_type resource_id details
                           request case_id w = (Return r, w')
    /\ committed w' = working w'
    /\ (working w' = committed w
        \/ exists a, r = Some a
             /\ working w' = with_audit_logs (audit_logs (working w) ++ [a]) (working w)).
Proof.
  unfold create_audit_log_entry, try_except, bind, db_commit.
  destruct details as [d|]; cbn.
  - destruct (truthy d); cbn.
    + destruct (serialize_for_json (stack_left w) d); cbn.
      * destruct (faults w) as [|[] fs]; cbn; eauto 10.
      * eauto 10.
    + destruct (faults w) as [|[] fs]; cbn; eauto 10.
  - destruct (faults w) as [|[] fs]; cbn; eauto 10.
Qed.

(** An authorized request for a pair that is already in the assignment
    table goes through and adds nothing. *)
Lemma assign_existing_pair_noop w case_id u1 u a current_user request case :
  first_case_by_id (working w) case_id = Some case ->
  role current_user = SUPER_ADMIN
  \/ (role current_user = ORG_ADMIN
      /\ case_organization_id case = user_organization_id current_user) ->
  users_found (working w) [u1] = [u] ->
  case_organization_id case = None
  \/ user_organization_id u = case_organization_id case ->
  first_assignment (working w) case_id u1 = Some a ->
  next_commit_fails w = false ->
  exists w',
    assign_users_to_case case_id [u1] current_user request w = (Return [], w')
    /\ case_assignments (working w') = case_assignments (working w)
    /\ committed w' = working w'.
Proof.
  intros Hc Hauth Hfound Horg Ha Hf. unfold assign_users_to_case.
  unfold bind at 1. cbn -[existsb]. rewrite Hc.
  fold (users_found (working w) [u1]). rewrite Hfound.
  assert (Hauth' :
    (match role current_user with
     | SUPER_ADMIN => ret ()
     | ORG_ADMIN =>
         raise_if (negb (bool_decide (case_organization_id case
                                      = user_organization_id current_user)))
           (HTTPException HTTP_403_FORBIDDEN
              "Not authorized to assign users to this case.")
     | _ => raise (HTTPException HTTP_403_FORBIDDEN
                     "Not authorized to assign users to cases.")
     end) w = (Return tt, w)).
  { destruct Hauth as [-> | [-> E]]; [reflexivity|].
    rewrite (bool_decide_eq_true_2 _ E). reflexivity. }
  rewrite (bind_Return _ _ _ _ _ Hauth').
  unfold bind at 1. cbn.
  rewrite (bool_decide_eq_true_2 (1%nat = 1%nat) eq_refl). cbn.
  assert (Hcommit : db_commit w
            = (Return tt, with_stores (working w) (working w) (tail (faults w)) w)).
  { unfold db_commit, next_commit_fails in *.
    destruct (faults w) as [|[] fs]; try discriminate; reflexivity. }
  assert (Hrest : exists w',
    (let* assignments_created := assign_loop case_id (User_id current_user) [u1] [] in
     run db_commit in
     run create_audit_log_entry current_user "ASSIGN" "Case" (Some case_id)
           (Some (PyDict [("assigned_users",
                           PyList (List.map PyStr assignments_created))]))
           request None in
     ret assignments_created) w = (Return [], w')
    /\ case_assignments (working w') = case_assignments (working w)
    /\ committed w' = working w').
  { unfold bind at 1. cbn. unfold bind at 1. cbn. rewrite Ha. cbn.
    rewrite (bind_Return _ _ _ _ _ Hcommit).
    match goal with
    | |- context [bind (create_audit_log_entry ?us ?ac ?rt ?rid ?d ?rq ?cid) _ ?w0] =>
        destruct (create_audit_log_entry_stores us ac rt rid d rq cid w0)
          as (r & w' & E & Hcw & Hw)
    end.
    rewrite (bind_Return _ _ _ _ _ E). cbn.
    exists w'. split; [reflexivity|]. split; [|exact Hcw].
    destruct Hw as [-> | (x & _ & ->)]; reflexivity. }
  destruct (case_organization_id case) as [o|] eqn:Eo.
  - destruct Horg as [E | E]; [discriminate|].
    rewrite (bool_decide_eq_true_2 _ E). cbn.
    rewrite (bool_decide_eq_true_2 (0%nat = 0%nat) eq_refl). cbn.
    exact Hrest.
  - exact Hrest.
Qed.

(** ** Session tokens *)

(** After [astimezone] both operands are aware, so the comparison never
    raises and orders the two instants. *)
Lemma datetime_gt_normalized (a b : datetime) :
  datetime_gt (astimezone_local a) (astimezone_local b)
  = Return (instant b <? instant a).
Proof.
  unfold datetime_gt, astimezone_local. cbn. f_equal. f_equal; lia.
Qed.

Arguments datetime_gt : simpl never.
Arguments astimezone_local : simpl never.



(** C8.  When the user row has no [password_changed_at], the staleness
    test is skipped: a token that passes every other check resolves to the
    user whatever epoch it carries. *)
Theorem null_stored_epoch_skips_staleness_check w credentials payload username
    role_str s pt user :
  jwt_verify credentials = Some payload ->
  (p_exp payload * 1000000 <? clock w) = false ->
  p_sub payload = Some username ->
  p_role payload = Some role_str ->
  UserRole_of_value role_str = Some (role user) ->
  organization_claim payload = Some (user_organization_id user) ->
  p_password_changed_at payload = Some s ->
  fromisoformat s = Some pt ->
  first_user_by_username (working w) username = Some user ->
  password_changed_at user = None ->
  get_current_user credentials w = (Return user, w).
Proof.
  intros Hv Hexp Hsub Hrole Hr Horg Hs Hpt Hu Hnone.
  unfold get_current_user. unfold bind at 1. unfold jwt_decode.
  rewrite Hv, Hexp, Hsub, Hrole, Hs, Hr, Hpt.
  assert (Hend : forall oid, oid = user_organization_id user ->
    (let* s0 := get_working in
     match first_user_by_username s0 username with
     | None => raise credentials_exception
     | Some user0 =>
         run raise_if
               (negb (bool_decide (role user0 = role user))
                || negb (bool_decide (user_organization_id user0 = oid)))
               (HTTPException HTTP_401_UNAUTHORIZED
                  "Token mismatch with user data. Please log in again.") in
         run match password_changed_at user0 with
             | Some stored =>
                 let user_pw_changed_utc := astimezone_local stored in
                 let token_pw_changed_utc := astimezone_local pt in
                 let* later :=
                   lift (datetime_gt user_pw_changed_utc token_pw_changed_utc) in
                 raise_if later
                   (HTTPException HTTP_401_UNAUTHORIZED
                      "Your password has been changed. Please log in again.")
             | None => ret tt
             end in
         ret user0
     end) w = (Return user, w)).
  { intros oid ->. unfold bind at 1. cbn. rewrite Hu. unfold bind at 1.
    rewrite !(bool_decide_eq_true_2 _ eq_refl). cbn. rewrite Hnone. reflexivity. }
  unfold organization_claim in Horg. unfold bind at 1.
  destruct (p_organization_id payload) as [o|].
  - destruct (bool_decide (o = EmptyString)).
    + cbn. apply Hend. congruence.
    + destruct (uuid_of_str o); [|discriminate].
      cbn. apply Hend. congruence.
  - cbn. apply Hend. congruence.
Qed.

(** A lookup through a row update that keeps the looked-up column. *)
Lemma find_map_invariant {A} (p : A -> bool) (g : A -> A) (l : list A) :
  (forall x, p (g x) = p x) ->
  List.find p (List.map g l) = option_map g (List.find p l).
Proof.
  intros Hp. induction l as [|x l IH]; cbn; [reflexivity|].
  rewrite Hp. destruct (p x); [reflexivity | exact IH].
Qed.




(** ** Password reset requests *)

Lemma request_password_reset_response w reset_email :
  exists resp w',
    request_password_reset reset_email w = (Return resp, w')
    /\ resp !! "message" = Some reset_message
    /\ (is_Some (resp !! "token")
        <-> is_Some (first_user_by_email (working w) reset_email)).
Proof.
  unfold request_password_reset. unfold bind at 1. cbn.
  destruct (first_user_by_email (working w) reset_email) as [user|].
  - unfold bind; cbn. eexists _, _. split; [reflexivity|]. split.
    + rewrite lookup_insert_ne by discriminate. apply lookup_singleton_eq.
    + rewrite lookup_insert_eq. split; eauto.
  - eexists _, _. split; [reflexivity|]. split.
    + apply lookup_singleton_eq.
    + rewrite lookup_singleton_ne by discriminate.
      split; intros [x Hx]; discriminate.
Qed.

(** C9.  The dict [request_password_reset] returns always carries the same
    message and has a ["token"] entry exactly when a user row has the
    supplied email; so the response to a registered email and the response
    to an unknown one always differ. *)
Theorem request_password_reset_reveals_account :
  (forall w reset_email,
     exists resp w',
       request_password_reset reset_email w = (Return resp, w')
       /\ resp !! "message" = Some reset_message
       /\ (is_Some (resp !! "token")
           <-> is_Some (first_user_by_email (working w) reset_email)))
  /\ (forall w1 email1 w2 email2,
        is_Some (first_user_by_email (working w1) email1) ->
        first_user_by_email (working w2) email2 = None ->
        fst (request_password_reset email1 w1)
        <> fst (request_password_reset email2 w2)).
Proof.
  split; [apply request_password_reset_response|].
  intros w1 email1 w2 email2 H1 H2 Heq.
  destruct (request_password_reset_response w1 email1) as (r1 & w1' & E1 & _ & T1).
  destruct (request_password_reset_response w2 email2) as (r2 & w2' & E2 & _ & T2).
  rewrite E1, E2 in Heq. cbn in Heq. injection Heq as ->.
  apply T1 in H1. apply T2 in H1. rewrite H2 in H1.
  destruct H1 as [x Hx]. discriminate.
Qed.

(** ** Individual users and organizations *)

Lemma create_user_individual_with_organization w user_in current_user request :
  uc_role user_in = INDIVIDUAL_USER ->
  uc_organization_id user_in <> None ->
  raises_http HTTP_400_BAD_REQUEST (create_user user_in current_user request w) = true.
Proof.
  intros Hr Ho. unfold create_user, raises_http.
  unfold bind at 1. cbn. unfold bind at 1.
  destruct (bool_decide (first_user_by_username (working w) (uc_username user_in) = None));
    cbn; [|reflexivity].
  unfold bind at 1.
  destruct (bool_decide (first_user_by_email (working w) (uc_email user_in) = None));
    cbn; [|reflexivity].
  unfold bind at 1.
  rewrite (bool_decide_eq_true_2 _ Hr), (bool_decide_eq_false_2 _ Ho). reflexivity.
Qed.

(** No user row comes out of [create_user] with the individual role and an
    organization. *)
Lemma create_user_Return w user_in current_user request u w' :
  create_user user_in current_user request w = (Return u, w') ->
  role u = uc_role user_in
  /\ (role u = INDIVIDUAL_USER -> user_organization_id u = None).
Proof.
  unfold create_user, bind; cbn.
  repeat (first [discriminate | handler_step]).
  all: try discriminate.
  all: repeat match goal with
         | |- context [match ?o with Some _ => _ | None => _ end] =>
             destruct o eqn:?; cbn
         end.
  all: repeat (first [discriminate | handler_step]).
  all: try discriminate.
  all: intros [= <- _]; cbn; (split; [reflexivity|]); intros Hr.
  all: repeat case_bool_decide; simplify_eq/=; try congruence.
Qed.

Lemma db_commit_ok w :
  next_commit_fails w = false ->
  db_commit w = (Return tt, with_stores (working w) (working w) (tail (faults w)) w).
Proof.
  unfold db_commit, next_commit_fails.
  destruct (faults w) as [|[] fs]; try discriminate; reflexivity.
Qed.

(** C3.  [update_user] has no counterpart of the individual-user test of
    [create_user]: a SuperAdmin who sends an organization id for an
    individual user gets it stored, and the committed users table then holds
    an individual user with a non-null organization. *)
Theorem update_user_gives_individual_an_organization w user_id user_update
    current_user request target oid :
  role current_user = SUPER_ADMIN ->
  first_user_by_id (working w) user_id = Some target ->
  role target = INDIVIDUAL_USER ->
  uu_role user_update = None ->
  uu_is_active user_update <> Some false ->
  uu_organization_id user_update = Some (Some oid) ->
  next_commit_fails w = false ->
  exists u' w',
    update_user user_id user_update current_user request w = (Return u', w')
    /\ role u' = INDIVIDUAL_USER
    /\ user_organization_id u' = Some oid
    /\ In u' (users (committed w')).
Proof.
  intros Hr Hfind Hind Hrole Hact Horg Hf.
  unfold update_user. unfold bind at 1. cbn. rewrite Hfind.
  unfold bind at 1.
  rewrite (bool_decide_eq_false_2 _ Hact), andb_false_r. cbn.
  rewrite Hr. unfold bind at 1. cbn. unfold bind at 1.
  rewrite db_commit_ok by exact Hf. cbn.
  match goal with
  | |- context [bind (create_audit_log_entry ?us ?ac ?rt ?rid ?d ?rq ?cid) _ ?w0] =>
      destruct (create_audit_log_entry_stores us ac rt rid d rq cid w0)
        as (r & w' & E & Hcw & Hw)
  end.
  rewrite (bind_Return _ _ _ _ _ E). cbn.
  eexists _, w'. split; [reflexivity|].
  unfold apply_user_update at 1 2. cbn. rewrite Hrole, Horg. cbn.
  split; [exact Hind|]. split; [reflexivity|].
  assert (Hin : In (apply_user_update user_update (mk_datetime (clock w) None) target)
                   (List.map (fun x => if bool_decide (User_id x = User_id target)
                                       then apply_user_update user_update
                                              (mk_datetime (clock w) None) x
                                       else x)
                             (users (working w)))).
  { apply in_map_iff. exists target. split.
    - rewrite (bool_decide_eq_true_2 _ eq_refl). reflexivity.
    - apply find_some in Hfind. tauto. }
  rewrite Hcw. destruct Hw as [-> | (a & _ & ->)]; exact Hin.
Qed.

(** ** Deactivating an organization *)

Lemma flipped_bulk_deactivate org_id us :
  flipped us (List.map (fun u => if member_of org_id u then deactivate u else u) us)
  = length (active_members org_id us).
Proof.
  unfold flipped, active_members, members.
  induction us as [|u us IH]; cbn; [reflexivity|].
  destruct (member_of org_id u); cbn.
  - rewrite andb_true_r. destruct (is_active u); cbn; congruence.
  - rewrite andb_negb_r. exact IH.
Qed.

Lemma members_split org_id us :
  length (members org_id us)
  = (length (active_members org_id us)
     + length (List.filter (fun u => negb (is_active u)) (members org_id us)))%nat.
Proof.
  unfold active_members. induction (members org_id us) as [|u l IH]; cbn; [reflexivity|].
  destruct (is_active u); cbn; lia.
Qed.

Lemma organization_update_data_serializes n u :
  exists sd,
    serialize_for_json (S (S (S n)))
      (PyDict [("updated_fields", organization_update_data u)]) = Return sd.
Proof.
  destruct u as [a b c d e f].
  destruct a, b as [[|]|], c, d, e, f; cbn; eauto.
Qed.

(** The two ways a call of the audit emitter ends: the row is committed on
    top of the pending writes, or (the details do not serialize, or the
    engine refuses the commit) its handler rolls the session back to the
    last commit and the call returns [None]. *)
Lemma create_audit_log_entry_cases user action resource_type resource_id
    details request case_id w :
  (exists sd,
     serialized_details_of details w = Return sd
     /\ next_commit_fails w = false
     /\ create_audit_log_entry user action resource_type resource_id details
                               request case_id w
        = (Return (Some (audit_entry user action resource_type resource_id sd
                                     request case_id w)),
           audit_world (audit_entry user action resource_type resource_id sd
                                    request case_id w) w))
  \/ (((exists e, serialized_details_of details w = Raise e)
       \/ next_commit_fails w = true)
      /\ exists w',
           create_audit_log_entry user action resource_type resource_id details
                                  request case_id w = (Return None, w')
           /\ committed w' = committed w
           /\ working w' = committed w).
Proof.
  destruct (serialized_details_of details w) as [sd|e] eqn:Hs.
  - destruct (next_commit_fails w) eqn:Hf.
    + right. split; [auto|].
      revert Hs Hf.
      unfold create_audit_log_entry, try_except, bind, serialized_details_of,
        next_commit_fails, db_commit.
      destruct details as [d|]; cbn.
      * destruct (truthy d); cbn.
        -- destruct (serialize_for_json (stack_left w) d); [|discriminate]. cbn.
           destruct (faults w) as [|[] fs]; try discriminate. cbn. eauto.
        -- destruct (faults w) as [|[] fs]; try discriminate. cbn. eauto.
      * destruct (faults w) as [|[] fs]; try discriminate. cbn. eauto.
    + left. exists sd. split; [reflexivity|]. split; [reflexivity|].
      apply create_audit_log_entry_success; assumption.
  - right. split; [eauto|].
    revert Hs.
    unfold create_audit_log_entry, try_except, bind, serialized_details_of.
    destruct details as [d|]; [|discriminate].
    destruct (truthy d); [|discriminate]. cbn.
    destruct (serialize_for_json (stack_left w) d); [discriminate|]. cbn. eauto.
Qed.

(** C4 (as the code has it).  Deactivating an active organization, when
    the cascade audit entry is written (its details serialize and the
    engine accepts its commit) and the engine accepts the organization's
    commit: the call returns the organization inactive, every member row
    ends up inactive, the rows that flip are exactly the K members that
    were active, and the audit log grows by exactly one cascade entry,
    whose count is the number of all member rows, active or not, followed
    by the organization's own entry when that one's write succeeds (it
    does when its details serialize and its commit is accepted). *)
Theorem deactivation_cascade_counts_all_members w org_id org_update current_user
    request organization :
  first_organization_by_id (working w) org_id = Some organization ->
  org_is_active organization = true ->
  ou_is_active org_update = Some false ->
  (2 <= stack_left w)%nat ->
  commit_accepted 0 w ->
  commit_accepted 1 w ->
  exists organization' w' cascade rest,
    update_organization org_id org_update current_user request w
    = (Return organization', w')
    /\ org_is_active organization' = false
    /\ users (committed w')
       = List.map (fun u => if member_of org_id u then deactivate u else u)
                  (users (working w))
    /\ flipped (users (working w)) (users (committed w'))
       = length (active_members org_id (users (working w)))
    /\ audit_logs (committed w') = (audit_logs (working w) ++ cascade :: rest)%list
    /\ cascade_counts (cascade :: rest)
       = [Z.of_nat (length (members org_id (users (working w))))]
    /\ (rest = [] \/ exists own, rest = [own] /\ al_resource_type own = "Organization")
    /\ ((3 <= stack_left w)%nat -> commit_accepted 2 w -> exists own, rest = [own]).
Proof.
  intros Hfind Hactive Hupd Hstack Hc0 Hc1.
  destruct (stack_left w) as [|[|n]] eqn:Hn; try lia.
  assert (Hnf0 : forall x, faults x = faults w -> next_commit_fails x = false).
  { intros x Hx. unfold next_commit_fails, commit_accepted in *. rewrite Hx.
    destruct (faults w) as [|[] fs]; cbn in *; congruence. }
  assert (Hnf1 : forall x, faults x = tail (faults w) -> next_commit_fails x = false).
  { intros x Hx. unfold next_commit_fails, commit_accepted in *. rewrite Hx.
    destruct (faults w) as [|b0 [|[] fs]]; cbn in *; congruence. }
  unfold update_organization. unfold bind at 1. cbn. rewrite Hfind.
  rewrite Hupd, Hactive. cbn.
  rewrite (bool_decide_eq_true_2 (Some false = Some false) eq_refl). cbn.
  unfold bulk_deactivate_users, bind. cbn.
  set (count := Z.of_nat (length (List.filter (member_of org_id) (users (working w))))).
  set (w1 := with_stores (committed w)
               (with_users
                  (List.map (fun u => if member_of org_id u then deactivate u else u)
                            (users (working w)))
                  (working w))
               (faults w) w).
  assert (Hsd1 : serialized_details_of
                   (Some (PyDict [("action", PyStr "cascade_deactivate_users");
                                  ("organization_id", PyStr (str_of_uuid org_id));
                                  ("affected_users_count", PyInt count)])) w1
                 = Return (Some (cascade_details org_id count))).
  { unfold serialized_details_of. cbn. rewrite Hn. reflexivity. }
  rewrite (create_audit_log_entry_success _ _ _ _ _ _ _ _ _ Hsd1 (Hnf0 w1 eq_refl)). cbn.
  match goal with
  | |- context [audit_world ?a w1] => set (cascade := a); set (w2 := audit_world a w1)
  end.
  rewrite db_commit_ok by (apply Hnf1; reflexivity).
  cbn.
  match goal with
  | |- context [create_audit_log_entry ?us ?ac ?rt ?rid ?d ?rq ?cid ?w0] =>
      set (w3 := w0);
      destruct (create_audit_log_entry_cases us ac rt rid d rq cid w3)
        as [(sd & Hsd & Hnf & E) | (Hfail & w4 & E & Hc4 & Hw4)];
      rewrite E
  end.
  - cbn. eexists _, _, cascade, [_]. split; [reflexivity|].
    cbn. rewrite Hupd. cbn.
    split; [reflexivity|]. split; [reflexivity|].
    split; [apply flipped_bulk_deactivate|].
    split; [rewrite <- app_assoc; reflexivity|].
    split; [reflexivity|].
    split; [right; eexists; split; reflexivity|].
    intros _ _. eexists. reflexivity.
  - cbn. exists (apply_organization_update org_update organization), w4, cascade, [].
    split; [reflexivity|].
    cbn. rewrite Hupd. cbn. rewrite Hc4. cbn.
    split; [reflexivity|]. split; [reflexivity|].
    split; [apply flipped_bulk_deactivate|].
    split; [reflexivity|].
    split; [reflexivity|].
    split; [left; reflexivity|].
    intros Hstack3 Hc2. exfalso.
    destruct n as [|m]; [lia|].
    destruct Hfail as [[e He] | Hf].
    + revert He. unfold serialized_details_of. cbn -[serialize_for_json]. rewrite Hn.
      destruct (organization_update_data_serializes m org_update) as (sd2 & Hser).
      rewrite Hser. discriminate.
    + revert Hf. unfold next_commit_fails, commit_accepted in *. cbn.
      destruct (faults w) as [|b0 [|b1 [|[] fs]]]; cbn in *; congruence.
Qed.

(** ** What a bearer token must satisfy *)

(** The part of [get_current_user] that follows the decoding of the claims. *)
Lemma get_current_user_tail w uname token_role organization_id pt user :
  (let* s0 := get_working in
   match first_user_by_username s0 uname with
   | None => raise credentials_exception
   | Some user0 =>
       run raise_if
             (negb (bool_decide (role user0 = token_role))
              || negb (bool_decide (user_organization_id user0 = organization_id)))
             (HTTPException HTTP_401_UNAUTHORIZED
                "Token mismatch with user data. Please log in again.") in
       run match password_changed_at user0 with
           | Some stored =>
               let user_pw_changed_utc := astimezone_local stored in
               let token_pw_changed_utc := astimezone_local pt in
               let* later :=
                 lift (datetime_gt user_pw_changed_utc token_pw_changed_utc) in
               raise_if later
                 (HTTPException HTTP_401_UNAUTHORIZED
                    "Your password has been changed. Please log in again.")
           | None => ret tt
           end in
       ret user0
   end) w = (Return user, w)
  <-> first_user_by_username (working w) uname = Some user
      /\ role user = token_role
      /\ user_organization_id user = organization_id
      /\ (forall stored, password_changed_at user = Some stored ->
                         instant stored <= instant pt).
Proof.
  unfold bind at 1. cbn.
  destruct (first_user_by_username (working w) uname) as [u|] eqn:Hu.
  2:{ split; [discriminate | intros [? _]; discriminate]. }
  unfold bind at 1.
  destruct (bool_decide (role u = token_role)) eqn:Hr; cbn.
  2:{ apply bool_decide_eq_false_1 in Hr.
      split; [discriminate | intros ([= ->] & ? & _); contradiction]. }
  destruct (bool_decide (user_organization_id u = organization_id)) eqn:Ho; cbn.
  2:{ apply bool_decide_eq_false_1 in Ho.
      split; [discriminate | intros ([= ->] & _ & ? & _); contradiction]. }
  apply bool_decide_eq_true_1 in Hr. apply bool_decide_eq_true_1 in Ho.
  destruct (password_changed_at u) as [stored|] eqn:Hst.
  - unfold bind at 1. unfold bind at 1. rewrite datetime_gt_normalized. cbn.
    destruct (instant pt <? instant stored) eqn:Hlt; cbn.
    + apply Z.ltb_lt in Hlt.
      split; [discriminate|]. intros ([= <-] & _ & _ & Hle).
      specialize (Hle _ Hst). lia.
    + apply Z.ltb_ge in Hlt. split.
      * intros [= <-]. repeat split; auto. intros st Hst'.
        rewrite Hst in Hst'. injection Hst' as <-. exact Hlt.
      * intros ([= <-] & _). reflexivity.
  - cbn. split.
    + intros [= <-]. repeat split; auto. intros st Hst'. congruence.
    + intros ([= <-] & _). reflexivity.
Qed.

Lemma get_current_user_iff w credentials user :
  get_current_user credentials w = (Return user, w)
  <-> token_resolves_to w credentials user.
Proof.
  unfold token_resolves_to, token_epoch. split.
  - unfold get_current_user. unfold bind at 1. unfold jwt_decode.
    destruct (jwt_verify credentials) as [payload|]; [|discriminate].
    destruct (p_exp payload * 1000000 <? clock w) eqn:Hexp; [discriminate|].
    destruct (p_sub payload) as [uname|] eqn:Hsub; [|discriminate].
    destruct (p_role payload) as [role_str|] eqn:Hrole; [|discriminate].
    destruct (p_password_changed_at payload) as [s|] eqn:Hs; [|discriminate].
    destruct (UserRole_of_value role_str) as [token_role|] eqn:Hrv; [|discriminate].
    destruct (fromisoformat s) as [pt|] eqn:Hpt.
    2:{ unfold bind at 1.
        destruct (p_organization_id payload) as [o|]; [|discriminate].
        destruct (bool_decide (o = EmptyString)); [discriminate|].
        destruct (uuid_of_str o); discriminate. }
    assert (Hfin : forall organization_id,
      organization_claim payload = Some organization_id ->
      first_user_by_username (working w) uname = Some user
      /\ role user = token_role
      /\ user_organization_id user = organization_id
      /\ (forall stored, password_changed_at user = Some stored ->
                         instant stored <= instant pt) ->
      exists payload0 uname0 role_str0 pt0,
        Some payload = Some payload0
        /\ (p_exp payload0 * 1000000 <? clock w) = false
        /\ p_sub payload0 = Some uname0
        /\ p_role payload0 = Some role_str0
        /\ UserRole_of_value role_str0 = Some (role user)
        /\ organization_claim payload0 = Some (user_organization_id user)
        /\ match p_password_changed_at payload with
           | Some s0 => fromisoformat s0
           | None => None
           end = Some pt0
        /\ first_user_by_username (working w) uname0 = Some user
        /\ (forall stored, password_changed_at user = Some stored ->
                           instant stored <= instant pt0)).
    { intros oid Hoc (Hu & Hr & Ho & Hle).
      exists payload, uname, role_str, pt. rewrite Hs. subst. repeat split; auto. }
    rewrite Hs, Hpt in Hfin.
    unfold bind at 1.
    destruct (p_organization_id payload) as [o|] eqn:Ho.
    + destruct (bool_decide (o = EmptyString)) eqn:Hb; cbn.
      * intros E. apply (Hfin None).
        -- unfold organization_claim. rewrite Ho, Hb. reflexivity.
        -- apply get_current_user_tail, E.
      * destruct (uuid_of_str o) as [oid|] eqn:Hp; cbn; [|discriminate].
        intros E. apply (Hfin (Some oid)).
        -- unfold organization_claim. rewrite Ho, Hb, Hp. reflexivity.
        -- apply get_current_user_tail, E.
    + cbn. intros E. apply (Hfin None).
      * unfold organization_claim. rewrite Ho. reflexivity.
      * apply get_current_user_tail, E.
  - intros (payload & uname & role_str & pt & Hv & Hexp & Hsub & Hrole & Hrv
            & Hoc & Hep & Hu & Hle).
    rewrite Hv in Hep.
    destruct (p_password_changed_at payload) as [s|] eqn:Hs; [|discriminate].
    unfold get_current_user. unfold bind at 1. unfold jwt_decode.
    rewrite Hv, Hexp, Hsub, Hrole, Hs, Hrv, Hep.
    assert (Htail := proj2 (get_current_user_tail w uname (role user)
                              (user_organization_id user) pt user)
                           (conj Hu (conj eq_refl (conj eq_refl Hle)))).
    unfold organization_claim in Hoc. unfold bind at 1.
    destruct (p_organization_id payload) as [o|].
    + destruct (bool_decide (o = EmptyString)).
      * injection Hoc as Hoc. cbn. rewrite Hoc. exact Htail.
      * destruct (uuid_of_str o) as [oid|]; [|discriminate].
        injection Hoc as Hoc. cbn. rewrite Hoc. exact Htail.
    + injection Hoc as Hoc. cbn. rewrite Hoc. exact Htail.
Qed.

(** X1. a token resolves to a user exactly when it verifies, has not
    expired, names an existing user whose role and organization it repeats,
    and carries an epoch that is not older than the stored one. *)
Theorem get_current_user_accepts_iff w credentials user :
  get_current_user credentials w = (Return user, w)
  <-> token_resolves_to w credentials user.
Proof. apply get_current_user_iff. Qed.

(** X2. resolving a token reads and never writes, and the only error it
    gives is 401. *)
Theorem get_current_user_reads_only w credentials :
  snd (get_current_user credentials w) = w
  /\ (returns (get_current_user credentials w) = true
      \/ unauthorized (get_current_user credentials w) = true).
Proof.
  unfold get_current_user, returns, unauthorized, raises_http, jwt_decode,
    bind, raise_if, lift, get_working, ret, raise, credentials_exception.
  repeat first
    [ rewrite datetime_gt_normalized
    | match goal with
      | |- context [match ?x with _ => _ end] =>
          lazymatch type of x with
          | prod _ _ => fail
          | Outcome _ => fail
          | Exn => fail
          | _ => destruct x
          end
      end
    | progress cbn ];
  auto.
Qed.

(** ** The role guards *)

Lemma get_current_active_user_Return credentials w u w' :
  get_current_active_user credentials w = (Return u, w') <->
  get_current_user credentials w = (Return u, w') /\ is_active u = true.
Proof.
  unfold get_current_active_user. unfold bind at 1.
  destruct (get_current_user credentials w) as [[u0|e] w0]; cbn.
  - unfold bind at 1. destruct (is_active u0) eqn:Ha; cbn.
    + split.
      * intros [= <- <-]. auto.
      * intros [[= <- <-] _]. reflexivity.
    + split; [discriminate|]. intros [[= <- <-] Hx]. congruence.
  - split; [discriminate | intros [? _]; discriminate].
Qed.

Lemma guard_Return (allowed : User -> bool) e credentials w u w' :
  (let* current_user := get_current_active_user credentials in
   run raise_if (negb (allowed current_user)) e in
   ret current_user) w = (Return u, w') <->
  get_current_active_user credentials w = (Return u, w') /\ allowed u = true.
Proof.
  unfold bind at 1.
  destruct (get_current_active_user credentials w) as [[u0|e0] w0]; cbn.
  - unfold bind at 1. destruct (allowed u0) eqn:Ha; cbn.
    + split.
      * intros [= <- <-]. auto.
      * intros [[= <- <-] _]. reflexivity.
    + split; [discriminate|]. intros [[= <- <-] Hx]. congruence.
  - split; [discriminate | intros [? _]; discriminate].
Qed.

(** X3. each guard admits exactly the active users of its roles, so
    whoever passes the SuperAdmin guard passes the OrgAdmin guard, whoever
    passes that one passes the staff guard, and the individual guard admits
    every active user. *)
Theorem role_guards_nest credentials w u w' :
  (get_current_active_super_admin credentials w = (Return u, w')
   <-> get_current_active_user credentials w = (Return u, w')
       /\ role u = SUPER_ADMIN)
  /\ (get_current_active_org_admin credentials w = (Return u, w')
      <-> get_current_active_user credentials w = (Return u, w')
          /\ (role u = ORG_ADMIN \/ role u = SUPER_ADMIN))
  /\ (get_current_active_staff_user credentials w = (Return u, w')
      <-> get_current_active_user credentials w = (Return u, w')
          /\ role u <> INDIVIDUAL_USER)
  /\ (get_current_active_individual_user credentials w = (Return u, w')
      <-> get_current_active_user credentials w = (Return u, w'))
  /\ (get_current_active_super_admin credentials w = (Return u, w')
      -> get_current_active_org_admin credentials w = (Return u, w'))
  /\ (get_current_active_org_admin credentials w = (Return u, w')
      -> get_current_active_staff_user credentials w = (Return u, w')).
Proof.
  assert (H1 : get_current_active_super_admin credentials w = (Return u, w')
               <-> get_current_active_user credentials w = (Return u, w')
                   /\ role u = SUPER_ADMIN).
  { unfold get_current_active_super_admin.
    rewrite (guard_Return (fun x => bool_decide (role x = SUPER_ADMIN))).
    rewrite bool_decide_eq_true. reflexivity. }
  assert (H2 : get_current_active_org_admin credentials w = (Return u, w')
               <-> get_current_active_user credentials w = (Return u, w')
                   /\ (role u = ORG_ADMIN \/ role u = SUPER_ADMIN)).
  { unfold get_current_active_org_admin.
    rewrite (guard_Return (fun x => bool_decide (role x = ORG_ADMIN)
                                    || bool_decide (role x = SUPER_ADMIN))).
    rewrite orb_true_iff, !bool_decide_eq_true. reflexivity. }
  assert (H3 : get_current_active_staff_user credentials w = (Return u, w')
               <-> get_current_active_user credentials w = (Return u, w')
                   /\ role u <> INDIVIDUAL_USER).
  { unfold get_current_active_staff_user.
    rewrite (guard_Return (fun x => bool_decide (role x = STAFF_USER)
                                    || bool_decide (role x = ORG_ADMIN)
                                    || bool_decide (role x = SUPER_ADMIN))).
    rewrite !orb_true_iff, !bool_decide_eq_true.
    destruct (role u); intuition congruence. }
  split; [exact H1|]. split; [exact H2|]. split; [exact H3|].
  split; [reflexivity|]. split.
  - intros Hs. apply H2. apply H1 in Hs as [? ->]. auto.
  - intros Ho. apply H3. apply H2 in Ho as [? [-> | ->]]; split; auto; discriminate.
Qed.

(** X4. the organization guard hands back the active organization the
    caller belongs to and nothing else; a SuperAdmin never passes it. *)
Theorem get_current_organization_Return credentials w o w' :
  get_current_organization credentials w = (Return o, w') ->
  exists u,
    get_current_active_user credentials w = (Return u, w')
    /\ role u <> SUPER_ADMIN
    /\ user_organization_id u = Some (Organization_id o)
    /\ first_organization_by_id (working w') (Organization_id o) = Some o
    /\ org_is_active o = true.
Proof.
  unfold get_current_organization. unfold bind at 1.
  destruct (get_current_active_user credentials w) as [[u|e] w0] eqn:Hu; [|discriminate].
  unfold bind at 1.
  destruct (bool_decide (role u = SUPER_ADMIN)) eqn:Hr; cbn; [discriminate|].
  apply bool_decide_eq_false_1 in Hr.
  destruct (user_organization_id u) as [oid|] eqn:Ho; [|discriminate].
  unfold bind at 1. cbn.
  destruct (first_organization_by_id (working w0) oid) as [org|] eqn:Hf; [|discriminate].
  unfold bind at 1. destruct (org_is_active org) eqn:Ha; cbn; [|discriminate].
  intros [= <- <-]. exists u.
  assert (Hid : Organization_id org = oid).
  { apply find_some in Hf as [_ Hb]. apply bool_decide_eq_true_1 in Hb. exact Hb. }
  rewrite Hid. auto.
Qed.

(** ** Logging in *)

Context `{TokenSigner}.

Lemma UserRole_round_trip r : UserRole_of_value (UserRole_value r) = Some r.
Proof. destruct r; reflexivity. Qed.

Lemma login_for_access_token_Return form_username form_password w token user w1 :
  login_for_access_token form_username form_password w = (Return (token, user), w1) ->
  w1 = w
  /\ first_user_by_username (working w) form_username = Some user
  /\ verify_password form_password (hashed_password user) = true
  /\ is_active user = true
  /\ token = jwt_encode
               (access_claims (username user)
                  (ACCESS_TOKEN_EXPIRE_MINUTES * 60 * 1000000) (role user)
                  (user_organization_id user)
                  (match password_changed_at user with
                   | Some t => t
                   | None => mk_datetime (clock w) None
                   end)
                  (clock w)).
Proof.
  unfold login_for_access_token, authenticate_user.
  unfold bind at 1. unfold bind at 1. cbn.
  destruct (first_user_by_username (working w) form_username) as [u|]; [|discriminate].
  destruct (verify_password form_password (hashed_password u)) eqn:Hv; cbn;
    [|discriminate].
  unfold bind at 1. destruct (is_active u) eqn:Ha; cbn; [|discriminate].
  unfold ret. intros [= <- <- <-]. auto.
Qed.

(** X5. an unknown user name and a wrong password for a known one get the
    same answer, 401 with the same text, and neither leaves a trace. *)
Theorem login_hides_which_part_failed w name1 password1 name2 password2 user2 :
  first_user_by_username (working w) name1 = None ->
  first_user_by_username (working w) name2 = Some user2 ->
  verify_password password2 (hashed_password user2) = false ->
  login_for_access_token name1 password1 w = login_for_access_token name2 password2 w
  /\ login_for_access_token name1 password1 w
     = (Raise (HTTPException HTTP_401_UNAUTHORIZED "Incorrect username or password"), w).
Proof.
  intros H1 H2 Hv.
  assert (E1 : login_for_access_token name1 password1 w
               = (Raise (HTTPException HTTP_401_UNAUTHORIZED
                           "Incorrect username or password"), w)).
  { unfold login_for_access_token, authenticate_user, bind. cbn.
    rewrite H1. reflexivity. }
  assert (E2 : login_for_access_token name2 password2 w
               = (Raise (HTTPException HTTP_401_UNAUTHORIZED
                           "Incorrect username or password"), w)).
  { unfold login_for_access_token, authenticate_user, bind. cbn.
    rewrite H2, Hv. reflexivity. }
  split; congruence.
Qed.

(** X6. the token [login_for_access_token] issues resolves to the user it
    was issued for, in any session that sees the same users before the
    token expires, provided the libraries decode what they encoded. *)
Theorem issued_token_resolves w form_username form_password token user w1 w2 :
  login_for_access_token form_username form_password w = (Return (token, user), w1) ->
  let epoch := match password_changed_at user with
               | Some t => t
               | None => mk_datetime (clock w) None
               end in
  let claims := access_claims (username user)
                  (ACCESS_TOKEN_EXPIRE_MINUTES * 60 * 1000000) (role user)
                  (user_organization_id user) epoch (clock w) in
  jwt_verify (jwt_encode claims) = Some claims ->
  fromisoformat (isoformat epoch) = Some epoch ->
  (forall o, user_organization_id user = Some o ->
             str_of_uuid o <> EmptyString /\ uuid_of_str (str_of_uuid o) = Some o) ->
  working w2 = working w ->
  clock w2 <= p_exp claims * 1000000 ->
  get_current_user token w2 = (Return user, w2).
Proof.
  intros Hlogin epoch claims Hjwt Hiso Huuid Hw Hexp.
  apply login_for_access_token_Return in Hlogin as (_ & Hu & _ & _ & ->).
  fold epoch. fold claims.
  apply get_current_user_iff. unfold token_resolves_to.
  assert (Hname : username user = form_username).
  { apply find_some in Hu as [_ Hb]. apply bool_decide_eq_true_1 in Hb. exact Hb. }
  exists claims, (username user), (UserRole_value (role user)), epoch.
  split; [exact Hjwt|].
  split; [apply Z.ltb_ge; exact Hexp|].
  split; [reflexivity|]. split; [reflexivity|].
  split; [apply UserRole_round_trip|].
  split.
  { unfold organization_claim, claims, access_claims. cbn.
    destruct (user_organization_id user) as [o|] eqn:Ho; [|reflexivity].
    destruct (Huuid o eq_refl) as [Hne Hrt].
    rewrite (bool_decide_eq_false_2 _ Hne), Hrt. reflexivity. }
  split.
  { unfold token_epoch. rewrite Hjwt. cbn. exact Hiso. }
  split; [rewrite Hw, Hname; exact Hu|].
  intros stored Hst. unfold epoch. rewrite Hst. lia.
Qed.

(** ** Serializing audit details *)

Lemma comprehension_Return {A B} (f : A -> Outcome B) l l' :
  comprehension f l = Return l' <-> Forall2 (fun x y => f x = Return y) l l'.
Proof.
  revert l'. induction l as [|x l IH]; intros l'; cbn.
  - split.
    + intros [= <-]. constructor.
    + intros Hf. inversion Hf. reflexivity.
  - destruct (f x) as [y|e] eqn:Hx.
    + destruct (comprehension f l) as [ys|e] eqn:Hl.
      * split.
        -- intros [= <-]. constructor; [exact Hx | apply IH; reflexivity].
        -- intros Hf. inversion Hf as [|? y' ? l2 Hy Hrest]; subst.
           apply IH in Hrest. congruence.
      * split; [discriminate|].
        intros Hf. inversion Hf as [|? y' ? l2 Hy Hrest]; subst.
        apply IH in Hrest. discriminate.
    + split; [discriminate|].
      intros Hf. inversion Hf; subst. congruence.
Qed.

Lemma comprehension_Raise {A B} (f : A -> Outcome B) l e :
  comprehension f l = Raise e -> exists x, In x l /\ f x = Raise e.
Proof.
  induction l as [|x l IH]; cbn; [discriminate|].
  destruct (f x) as [y|e'] eqn:Hx.
  - destruct (comprehension f l) as [ys|e'']; [discriminate|].
    intros [= <-]. destruct (IH eq_refl) as (x' & Hin & Hx'). eauto.
  - intros [= <-]. eauto.
Qed.

Lemma comprehension_total {A B} (f : A -> Outcome B) l :
  (forall x, In x l -> exists y, f x = Return y) ->
  exists l', comprehension f l = Return l'.
Proof.
  induction l as [|x l IH]; cbn; intros Hall; [eauto|].
  destruct (Hall x (or_introl eq_refl)) as [y ->].
  destruct IH as [l' ->]; [intros; apply Hall; auto|]. eauto.
Qed.

Lemma serialize_for_json_S d obj :
  serialize_for_json (S d) obj =
  match obj with
  | PyRole r => Return (PyStr (UserRole_value r))
  | PyDatetime t => Return (PyStr (isoformat t))
  | PyUUID u => Return (PyStr (str_of_uuid u))
  | PyObject attrs =>
      match comprehension (on_item d)
              (List.filter (fun kv => negb (startswith_underscore (fst kv))) attrs) with
      | Return items => Return (PyDict items)
      | Raise e => Raise e
      end
  | PyDict items =>
      match comprehension (on_item d) items with
      | Return items' => Return (PyDict items')
      | Raise e => Raise e
      end
  | PyList elems =>
      match comprehension (serialize_for_json d) elems with
      | Return elems' => Return (PyList elems')
      | Raise e => Raise e
      end
  | _ => Return obj
  end.
Proof. destruct obj; reflexivity. Qed.

Lemma on_item_Return d kv kv' :
  on_item d kv = Return kv' <->
  fst kv' = fst kv /\ serialize_for_json d (snd kv) = Return (snd kv').
Proof.
  unfold on_item. destruct kv as [k v], kv' as [k' v']. cbn.
  destruct (serialize_for_json d v) as [v0|e].
  - split.
    + intros [= <- <-]. auto.
    + intros [-> [= ->]]. reflexivity.
  - split; [discriminate | intros [_ ?]; discriminate].
Qed.



Lemma serialize_for_json_idempotent_aux d :
  forall obj obj', serialize_for_json d obj = Return obj' ->
                   serialize_for_json d obj' = Return obj'.
Proof.
  induction d as [|d IH]; intros obj obj'; [discriminate|].
  rewrite (serialize_for_json_S d obj).
  assert (Hitems : forall l l',
            comprehension (on_item d) l = Return l' ->
            comprehension (on_item d) l' = Return l').
  { intros l l' Hc. apply comprehension_Return in Hc. apply comprehension_Return.
    induction Hc as [|kv kv' l l' Hkv _ IHl]; constructor; [|exact IHl].
    apply on_item_Return in Hkv as [_ Hs]. apply on_item_Return.
    split; [reflexivity | exact (IH _ _ Hs)]. }
  destruct obj; try (intros [= <-]; reflexivity).
  - destruct (comprehension _ _) as [items|e] eqn:Hc; [|discriminate].
    intros [= <-]. rewrite serialize_for_json_S, (Hitems _ _ Hc). reflexivity.
  - destruct (comprehension _ _) as [items'|e] eqn:Hc; [|discriminate].
    intros [= <-]. rewrite serialize_for_json_S, (Hitems _ _ Hc). reflexivity.
  - destruct (comprehension _ _) as [elems'|e] eqn:Hc; [|discriminate].
    intros [= <-]. rewrite serialize_for_json_S.
    assert (Hl : comprehension (serialize_for_json d) elems' = Return elems').
    { apply comprehension_Return in Hc. apply comprehension_Return.
      induction Hc as [|x y l l' Hx _ IHl]; constructor; [|exact IHl].
      exact (IH _ _ Hx). }
    rewrite Hl. reflexivity.
Qed.

(** X8. serializing a serialized value changes nothing. *)
Theorem serialize_for_json_idempotent d obj obj' :
  serialize_for_json d obj = Return obj' ->
  serialize_for_json d obj' = Return obj'.
Proof. apply serialize_for_json_idempotent_aux. Qed.

Lemma comprehension_succeeds_iff {A B} (f : A -> Outcome B) l :
  (exists l', comprehension f l = Return l')
  <-> (forall x, In x l -> exists y, f x = Return y).
Proof.
  split.
  - intros [l' Hc] x Hin. apply comprehension_Return in Hc.
    induction Hc as [|a b l l' Hab _ IHl]; [destruct Hin|].
    destruct Hin as [<- | Hin]; eauto.
  - apply comprehension_total.
Qed.

Lemma foldr_max_lt {A} (g : A -> nat) (l : list A) d :
  (foldr (fun x acc => Nat.max (S (g x)) acc) 0%nat l < S d)%nat
  <-> (forall x, In x l -> (g x < d)%nat).
Proof.
  induction l as [|a l IH]; cbn.
  - split; [intros _ x [] | lia].
  - rewrite Nat.max_lub_lt_iff, IH. split.
    + intros [Ha Hl] x [<- | Hin]; [lia | auto].
    + intros Hall. split; [specialize (Hall a (or_introl eq_refl)); lia|].
      intros x Hin. auto.
Qed.

Lemma foldr_public_attrs (g : string * PyVal -> nat) attrs :
  foldr (fun kv acc => if startswith_underscore (fst kv) then acc
                       else Nat.max (S (g kv)) acc) 0%nat attrs
  = foldr (fun kv acc => Nat.max (S (g kv)) acc) 0%nat
          (List.filter (fun kv => negb (startswith_underscore (fst kv))) attrs).
Proof.
  induction attrs as [|kv attrs IH]; cbn; [reflexivity|].
  destruct (startswith_underscore (fst kv)); cbn; congruence.
Qed.

Lemma serialize_for_json_succeeds_iff d :
  forall obj, (exists obj', serialize_for_json d obj = Return obj')
              <-> (nesting obj < d)%nat.
Proof.
  induction d as [|d IH]; intros obj.
  - cbn. split; [intros [? ?]; discriminate | lia].
  - rewrite serialize_for_json_S.
    assert (Hitems : forall l,
              (exists l', comprehension (on_item d) l = Return l')
              <-> (forall kv, In kv l -> (nesting (snd kv) < d)%nat)).
    { intros l. rewrite comprehension_succeeds_iff. split.
      - intros Hall kv Hin. apply IH. destruct (Hall kv Hin) as [kv' Hkv].
        apply on_item_Return in Hkv as [_ Hs]. eauto.
      - intros Hall kv Hin. destruct (proj2 (IH (snd kv)) (Hall kv Hin)) as [v Hv].
        exists (fst kv, v). apply on_item_Return. auto. }
    destruct obj; cbn [nesting]; try (split; [lia | eauto]).
    + rewrite foldr_public_attrs, (foldr_max_lt (fun kv => nesting (snd kv))), <- Hitems.
      destruct (comprehension _ _) as [its|e]; split; eauto.
      * intros [? ?]; discriminate.
      * intros [? ?]; discriminate.
    + rewrite (foldr_max_lt (fun kv => nesting (snd kv))), <- Hitems.
      destruct (comprehension _ _) as [its|e]; split; eauto.
      * intros [? ?]; discriminate.
      * intros [? ?]; discriminate.
    + rewrite (foldr_max_lt nesting).
      assert (Hl : (exists l', comprehension (serialize_for_json d) elems = Return l')
                   <-> (forall x, In x elems -> (nesting x < d)%nat)).
      { rewrite comprehension_succeeds_iff. split.
        - intros Hall x Hin. apply IH. auto.
        - intros Hall x Hin. apply IH. auto. }
      rewrite <- Hl.
      destruct (comprehension _ _) as [els|e]; split; eauto.
      * intros [? ?]; discriminate.
      * intros [? ?]; discriminate.
Qed.

Lemma serialize_for_json_Raise d :
  forall obj e, serialize_for_json d obj = Raise e -> e = RecursionError.
Proof.
  induction d as [|d IH]; intros obj e.
  - cbn. congruence.
  - rewrite serialize_for_json_S.
    assert (Hitems : forall l, comprehension (on_item d) l = Raise e ->
                               e = RecursionError).
    { intros l Hc. apply comprehension_Raise in Hc as (kv & _ & Hkv).
      unfold on_item in Hkv.
      destruct (serialize_for_json d (snd kv)) eqn:Hs; [discriminate|].
      injection Hkv as <-. eapply IH, Hs. }
    destruct obj; try discriminate.
    + destruct (comprehension _ _) eqn:Hc; [discriminate|].
      intros [= <-]. eapply Hitems, Hc.
    + destruct (comprehension _ _) eqn:Hc; [discriminate|].
      intros [= <-]. eapply Hitems, Hc.
    + destruct (comprehension _ _) eqn:Hc; [discriminate|].
      intros [= <-]. apply comprehension_Raise in Hc as (x & _ & Hx).
      eapply IH, Hx.
Qed.

(** X9. [serialize_for_json] returns exactly when the value nests less
    deep than the interpreter allows; otherwise it raises [RecursionError],
    and it raises nothing else. *)
Theorem serialize_for_json_depth d obj :
  ((nesting obj < d)%nat -> exists obj', serialize_for_json d obj = Return obj')
  /\ ((d <= nesting obj)%nat -> serialize_for_json d obj = Raise RecursionError).
Proof.
  split.
  - apply serialize_for_json_succeeds_iff.
  - intros Hle. destruct (serialize_for_json d obj) as [obj'|e] eqn:Hs.
    + assert ((nesting obj < d)%nat)
        by (apply serialize_for_json_succeeds_iff; eauto).
      lia.
    + apply serialize_for_json_Raise in Hs. congruence.
Qed.

(** ** Errors come before writes *)

Lemma find_app_eq {A} (p : A -> bool) (l1 l2 : list A) :
  List.find p (l1 ++ l2)
  = match List.find p l1 with
    | Some x => Some x
    | None => List.find p l2
    end.
Proof.
  induction l1 as [|x l1 IH]; cbn; [reflexivity|].
  destruct (p x); [reflexivity | exact IH].
Qed.

Lemma assign_loop_spec case_id assigned_by user_ids :
  forall assignments_created w,
  exists created w' new,
    assign_loop case_id assigned_by user_ids assignments_created w
    = (Return created, w')
    /\ committed w' = committed w
    /\ faults w' = faults w
    /\ clock w' = clock w
    /\ stack_left w' = stack_left w
    /\ same_but_assignments (working w) (working w')
    /\ case_assignments (working w') = (case_assignments (working w) ++ new)%list
    /\ Forall (fun a => ca_case_id a = case_id /\ In (ca_user_id a) user_ids
                        /\ ca_assigned_by a = Some assigned_by
                        /\ first_assignment (working w) case_id (ca_user_id a) = None)
              new
    /\ (forall u, In u user_ids -> first_assignment (working w') case_id u <> None).
Proof.
  unfold same_but_assignments.
  induction user_ids as [|u ids IH]; intros acc w; cbn.
  - exists acc, w, []. rewrite app_nil_r.
    repeat split; auto.
  - unfold bind at 1. cbn.
    destruct (first_assignment (working w) case_id u) as [a|] eqn:Ha.
    + destruct (IH acc w)
        as (created & w' & new & E & Hc & Hf & Hk & Hst & Hsame & Happ & Hnew & Hall).
      exists created, w', new. split; [exact E|].
      repeat split; try tauto.
      * eapply Forall_impl; [exact Hnew|]. cbn. intros x (? & ? & ? & ?). auto.
      * intros u' [<- | Hin]; [|auto].
        unfold first_assignment in *. rewrite Happ, find_app_eq, Ha. discriminate.
    + match goal with
      | |- context [assign_loop _ _ _ ?acc' ?w0] =>
          destruct (IH acc' w0)
            as (created & w' & new & E & Hc & Hf & Hk & Hst & Hsame & Happ & Hnew & Hall)
      end.
      cbn in *.
      eexists created, w', (_ :: new). split; [exact E|].
      split; [exact Hc|]. split; [exact Hf|]. split; [exact Hk|]. split; [exact Hst|].
      split; [tauto|].
      split; [rewrite Happ, <- app_assoc; reflexivity|].
      split.
      * constructor; [cbn; auto|].
        eapply Forall_impl; [exact Hnew|]. cbn. intros x (? & ? & ? & Hx).
        repeat split; auto.
        unfold first_assignment in *. cbn in Hx.
        rewrite find_app_eq in Hx.
        destruct (List.find
                    (fun a0 => bool_decide (ca_case_id a0 = case_id)
                               && bool_decide (ca_user_id a0 = ca_user_id x))
                    (case_assignments (working w))); [discriminate | reflexivity].
      * intros u' [<- | Hin]; [|auto].
        unfold first_assignment. rewrite Happ, <- app_assoc.
        rewrite find_app_eq. fold (first_assignment (working w) case_id u).
        rewrite Ha. cbn.
        rewrite !(bool_decide_eq_true_2 _ eq_refl). cbn. discriminate.
Qed.

Ltac loop_returns :=
  match goal with
  | |- context [assign_loop ?c ?b ?ids ?acc ?w] =>
      let E := fresh "E" in
      destruct (assign_loop_spec c b ids acc w) as (? & ? & ? & E & _);
      rewrite E; cbn
  end.

Ltac lookup_cases :=
  match goal with
  | |- context [match ?o with Some _ => _ | None => _ end] =>
      destruct o eqn:?; cbn
  | |- context [if ?c then _ else _] =>
      destruct c eqn:?; cbn
  end.

(** Runs a handler to each of its exits. *)
Ltac run_handler :=
  unfold bind; cbn;
  repeat first [ discriminate | reflexivity | handler_step | loop_returns
               | lookup_cases | progress (intros; cbn in *) ].

Lemma create_case_error_writes_nothing w case_in u req :
  http_error (create_case case_in u req w) = true ->
  snd (create_case case_in u req w) = w.
Proof. unfold create_case, http_error. run_handler. Qed.

Lemma update_case_error_writes_nothing w case_id upd u req :
  http_error (update_case case_id upd u req w) = true ->
  snd (update_case case_id upd u req w) = w.
Proof. unfold update_case, http_error. run_handler. Qed.

Lemma delete_case_error_writes_nothing w case_id u req :
  http_error (delete_case case_id u req w) = true ->
  snd (delete_case case_id u req w) = w.
Proof. unfold delete_case, http_error. run_handler. Qed.

Lemma assign_users_to_case_error_writes_nothing w case_id ids u req :
  http_error (assign_users_to_case case_id ids u req w) = true ->
  snd (assign_users_to_case case_id ids u req w) = w.
Proof. unfold assign_users_to_case, http_error. run_handler. Qed.

Lemma remove_user_from_case_error_writes_nothing w case_id user_id u req :
  http_error (remove_user_from_case case_id user_id u req w) = true ->
  snd (remove_user_from_case case_id user_id u req w) = w.
Proof. unfold remove_user_from_case, http_error. run_handler. Qed.

Lemma create_user_error_writes_nothing w user_in u req :
  http_error (create_user user_in u req w) = true ->
  snd (create_user user_in u req w) = w.
Proof. unfold create_user, http_error. run_handler. Qed.

Lemma update_user_error_writes_nothing w user_id upd u req :
  http_error (update_user user_id upd u req w) = true ->
  snd (update_user user_id upd u req w) = w.
Proof. unfold update_user, http_error. run_handler. Qed.

Lemma create_organization_error_writes_nothing w org_in u req :
  http_error (create_organization org_in u req w) = true ->
  snd (create_organization org_in u req w) = w.
Proof. unfold create_organization, http_error. run_handler. Qed.

Lemma update_organization_error_writes_nothing w org_id upd u req :
  http_error (update_organization org_id upd u req w) = true ->
  snd (update_organization org_id upd u req w) = w.
Proof.
  unfold update_organization, bulk_deactivate_users, http_error. run_handler.
Qed.

Lemma admin_reset_password_error_writes_nothing w reset_data u req :
  http_error (admin_reset_password reset_data u req w) = true ->
  snd (admin_reset_password reset_data u req w) = w.
Proof. unfold admin_reset_password, http_error. run_handler. Qed.

(** X10. a request a mutating handler answers with an HTTP error (400, 403,
    404) has written nothing: no row, no audit entry, no draw from
    [uuid4]; every such check sits before the first write. *)
Theorem http_error_writes_nothing w u req :
  (forall case_in,
     http_error (create_case case_in u req w) = true ->
     snd (create_case case_in u req w) = w)
  /\ (forall case_id upd,
        http_error (update_case case_id upd u req w) = true ->
        snd (update_case case_id upd u req w) = w)
  /\ (forall case_id,
        http_error (delete_case case_id u req w) = true ->
        snd (delete_case case_id u req w) = w)
  /\ (forall case_id ids,
        http_error (assign_users_to_case case_id ids u req w) = true ->
        snd (assign_users_to_case case_id ids u req w) = w)
  /\ (forall case_id user_id,
        http_error (remove_user_from_case case_id user_id u req w) = true ->
        snd (remove_user_from_case case_id user_id u req w) = w)
  /\ (forall user_in,
        http_error (create_user user_in u req w) = true ->
        snd (create_user user_in u req w) = w)
  /\ (forall user_id upd,
        http_error (update_user user_id upd u req w) = true ->
        snd (update_user user_id upd u req w) = w)
  /\ (forall reset_data,
        http_error (admin_reset_password reset_data u req w) = true ->
        snd (admin_reset_password reset_data u req w) = w)
  /\ (forall org_in,
        http_error (create_organization org_in u req w) = true ->
        snd (create_organization org_in u req w) = w)
  /\ (forall org_id upd,
        http_error (update_organization org_id upd u req w) = true ->
        snd (update_organization org_id upd u req w) = w).
Proof.
  repeat split; intros.
  - by apply create_case_error_writes_nothing.
  - by apply update_case_error_writes_nothing.
  - by apply delete_case_error_writes_nothing.
  - by apply assign_users_to_case_error_writes_nothing.
  - by apply remove_user_from_case_error_writes_nothing.
  - by apply create_user_error_writes_nothing.
  - by apply update_user_error_writes_nothing.
  - by apply admin_reset_password_error_writes_nothing.
  - by apply create_organization_error_writes_nothing.
  - by apply update_organization_error_writes_nothing.
Qed.

(** ** Listing cases *)

Lemma In_take {A} (x : A) n l : In x (take n l) -> In x l.
Proof.
  revert l. induction n as [|n IH]; intros [|a l]; cbn; try tauto.
  intros [-> | Hin]; auto.
Qed.

Lemma In_drop {A} (x : A) n l : In x (drop n l) -> In x l.
Proof.
  revert l. induction n as [|n IH]; intros [|a l]; cbn; try tauto.
  intros Hin. auto.
Qed.

Lemma In_filter_opt {A B} `{EqDecision B} (col : A -> B) (o : option B) l x :
  In x (filter_opt col o l) ->
  In x l /\ (forall v, o = Some v -> col x = v).
Proof.
  unfold filter_opt. destruct o as [v|].
  - intros Hin. apply filter_In in Hin as [Hin Hb]. split; [exact Hin|].
    intros v' [= <-]. apply bool_decide_eq_true_1 in Hb. exact Hb.
  - intros Hin. split; [exact Hin | discriminate].
Qed.

Lemma find_by_key_NoDup {A K} `{EqDecision K} (key : A -> K) (l : list A) x :
  NoDup (List.map key l) -> In x l ->
  List.find (fun y => bool_decide (key y = key x)) l = Some x.
Proof.
  induction l as [|a l IH]; cbn; intros Hnd Hin; [destruct Hin|].
  apply NoDup_cons in Hnd as [Hnotin Hnd].
  destruct Hin as [-> | Hin].
  - rewrite (bool_decide_eq_true_2 _ eq_refl). reflexivity.
  - destruct (bool_decide (key a = key x)) eqn:Hk.
    + apply bool_decide_eq_true_1 in Hk. exfalso. apply Hnotin.
      rewrite Hk. apply list_elem_of_In, in_map. exact Hin.
    + auto.
Qed.

Lemma is_assigned_via_table_existsb s case_id u :
  is_assigned_via_table s case_id u
  = existsb (fun a => bool_decide (ca_user_id a = User_id u)
                      && bool_decide (ca_case_id a = case_id))
            (case_assignments s).
Proof.
  unfold is_assigned_via_table, first_assignment.
  induction (case_assignments s) as [|a l IH]; cbn; [reflexivity|].
  rewrite (andb_comm (bool_decide (ca_user_id a = User_id u))).
  destruct (bool_decide (ca_case_id a = case_id) && bool_decide (ca_user_id a = User_id u));
    [reflexivity | exact IH].
Qed.

Lemma created_or_assigned_readable s u c :
  role u = STAFF_USER \/ role u = INDIVIDUAL_USER ->
  created_or_assigned s u c = true ->
  case_access_denied s c (Case_id c) u = false.
Proof.
  unfold created_or_assigned, case_access_denied.
  rewrite is_assigned_via_table_existsb.
  intros [-> | ->] Hc; revert Hc;
    destruct (bool_decide (created_by c = User_id u)),
             (bool_decide (assigned_to c = Some (User_id u))),
             (existsb _ _); cbn; congruence.
Qed.

(** X11. [read_cases] lists only cases the same user can open with
    [read_case], only cases with the requested status and priority, and at
    most [limit] of them. *)
Theorem read_cases_lists_readable w skip limit case_status case_priority u req
    req' listed w' :
  NoDup (List.map Case_id (cases (working w))) ->
  read_cases skip limit case_status case_priority u req w = (Return listed, w') ->
  (length listed <= limit)%nat
  /\ forall c, In c listed ->
       In c (cases (working w))
       /\ forbidden (read_case (Case_id c) u req' w) = false
       /\ (forall v, case_status = Some v -> status c = v)
       /\ (forall v, case_priority = Some v -> priority c = v).
Proof.
  intros Hnd Hrun.
  assert (Hbase : exists base,
    (forall c, In c base ->
               In c (cases (working w))
               /\ case_access_denied (working w) c (Case_id c) u = false)
    /\ listed = take limit (drop skip
                   (filter_opt priority case_priority
                      (filter_opt status case_status base)))).
  { revert Hrun. unfold read_cases. unfold bind at 1. cbn.
    destruct (role u) eqn:Hr.
    - unfold bind at 1. cbn. unfold bind at 1. audit_returns.
      intros [= <- _]. exists (cases (working w)). split; [|reflexivity].
      intros c Hin. split; [exact Hin|].
      unfold case_access_denied. rewrite Hr. reflexivity.
    - unfold bind at 1. unfold bind at 1.
      destruct (bool_decide (user_organization_id u = None)); cbn; [discriminate|].
      unfold bind at 1. audit_returns. intros [= <- _].
      eexists. split; [|reflexivity].
      intros c Hin. apply filter_In in Hin as [Hin Hb]. split; [exact Hin|].
      unfold case_access_denied. rewrite Hr, Hb. reflexivity.
    - unfold bind at 1. unfold bind at 1.
      destruct (bool_decide (user_organization_id u = None)); cbn; [discriminate|].
      unfold bind at 1. audit_returns. intros [= <- _].
      eexists. split; [|reflexivity].
      intros c Hin. apply filter_In in Hin as [Hin Hb]. split; [exact Hin|].
      apply created_or_assigned_readable; auto.
    - unfold bind at 1. cbn. unfold bind at 1. audit_returns.
      intros [= <- _]. eexists. split; [|reflexivity].
      intros c Hin. apply filter_In in Hin as [Hin Hb]. split; [exact Hin|].
      apply created_or_assigned_readable; auto. }
  destruct Hbase as (base & Hbase & ->).
  split; [rewrite length_take; lia|].
  intros c Hin. apply In_take, In_drop in Hin.
  apply In_filter_opt in Hin as [Hin Hp].
  apply In_filter_opt in Hin as [Hin Hs].
  destruct (Hbase c Hin) as [Hc Hden].
  split; [exact Hc|]. split; [|auto].
  rewrite (read_case_forbidden w (Case_id c) u req' c); [exact Hden|].
  apply (find_by_key_NoDup Case_id); assumption.
Qed.

(** ** What a committed handler leaves behind *)

Lemma db_commit_inv w :
  (exists w', db_commit w = (Return tt, w')
     /\ committed w' = working w /\ working w' = working w
     /\ clock w' = clock w
     /\ password_reset_tokens w' = password_reset_tokens w)
  \/ (exists w', db_commit w = (Raise SQLAlchemyError, w')
        /\ committed w' = committed w /\ working w' = committed w
        /\ clock w' = clock w
        /\ password_reset_tokens w' = password_reset_tokens w).
Proof.
  unfold db_commit. destruct (faults w) as [|[] fs]; [left | right | left];
    eexists; repeat split.
Qed.

Lemma audit_inv user action resource_type resource_id details request case_id w :
  exists r w',
    create_audit_log_entry user action resource_type resource_id details
                           request case_id w = (Return r, w')
    /\ committed w' = working w'
    /\ clock w' = clock w
    /\ password_reset_tokens w' = password_reset_tokens w
    /\ (committed w = working w -> same_but_audit_logs (working w) (working w')).
Proof.
  unfold same_but_audit_logs.
  unfold create_audit_log_entry, try_except, bind, db_commit.
  assert (Hfin : forall w',
    committed w' = working w' ->
    clock w' = clock w ->
    password_reset_tokens w' = password_reset_tokens w ->
    (working w' = committed w
     \/ exists a, working w' = with_audit_logs (audit_logs (working w) ++ [a]) (working w)) ->
    committed w' = working w'
    /\ clock w' = clock w
    /\ password_reset_tokens w' = password_reset_tokens w
    /\ (committed w = working w ->
        users (working w') = users (working w)
        /\ organizations (working w') = organizations (working w)
        /\ cases (working w') = cases (working w)
        /\ case_assignments (working w') = case_assignments (working w)
        /\ evidence (working w') = evidence (working w))).
  { intros w' Hc Hk Ht Hw. repeat split; auto;
      destruct Hw as [-> | (a & ->)]; cbn; congruence. }
  destruct details as [d|]; cbn.
  - destruct (truthy d); cbn.
    + destruct (serialize_for_json (stack_left w) d); cbn.
      * destruct (faults w) as [|[] fs]; cbn; do 2 eexists;
          (split; [reflexivity|]); apply Hfin; cbn; eauto.
      * do 2 eexists; (split; [reflexivity|]); apply Hfin; cbn; eauto.
    + destruct (faults w) as [|[] fs]; cbn; do 2 eexists;
        (split; [reflexivity|]); apply Hfin; cbn; eauto.
  - destruct (faults w) as [|[] fs]; cbn; do 2 eexists;
      (split; [reflexivity|]); apply Hfin; cbn; eauto.
Qed.

(** The tail every mutating handler ends with: commit, audit, answer. *)
Lemma commit_audit_ret {A} (x : A) user action resource_type resource_id details
    request case_id w r w' :
  (run db_commit in
   run create_audit_log_entry user action resource_type resource_id details
         request case_id in
   ret x) w = (r, w') ->
  (r = Return x
   /\ committed w' = working w'
   /\ same_but_audit_logs (working w) (working w')
   /\ clock w' = clock w
   /\ password_reset_tokens w' = password_reset_tokens w)
  \/ (r = Raise SQLAlchemyError
      /\ committed w' = committed w /\ working w' = committed w).
Proof.
  unfold bind at 1.
  destruct (db_commit_inv w) as [(w1 & E & Hc & Hw & Hk & Ht) | (w1 & E & Hc & Hw & _)];
    rewrite E.
  - unfold bind at 1.
    destruct (audit_inv user action resource_type resource_id details
                        request case_id w1) as (a & w2 & E2 & Hc2 & Hk2 & Ht2 & Hs).
    rewrite E2. cbn. intros [= <- <-]. left.
    assert (Hs' : same_but_audit_logs (working w1) (working w2))
      by (apply Hs; congruence).
    rewrite <- Hw. split; [reflexivity|]. split; [exact Hc2|].
    split; [exact Hs'|]. split; congruence.
  - intros [= <- <-]. right. auto.
Qed.

(** ** Assigning users to a case *)

Lemma first_assignment_Some s case_id uid a :
  first_assignment s case_id uid = Some a ->
  In a (case_assignments s) /\ ca_case_id a = case_id /\ ca_user_id a = uid.
Proof.
  unfold first_assignment. intros Hf. apply find_some in Hf as [Hin Hb].
  apply andb_true_iff in Hb as [H1 H2].
  apply bool_decide_eq_true_1 in H1, H2. auto.
Qed.

Lemma users_found_all s user_ids :
  NoDup (List.map User_id (users s)) ->
  length (users_found s user_ids) = length user_ids ->
  forall uid, In uid user_ids ->
    exists x, In x (users_found s user_ids) /\ User_id x = uid.
Proof.
  intros Hnd Hlen uid Hin.
  pose proof (filter_ids_NoDup
                (fun u => existsb (fun i => bool_decide (User_id u = i)) user_ids
                          && is_active u) _ Hnd) as Hnd'.
  fold (users_found s user_ids) in Hnd'.
  assert (Hperm : List.map User_id (users_found s user_ids) ≡ₚ user_ids).
  { apply submseteq_length_Permutation.
    - apply NoDup_submseteq; [exact Hnd' | apply users_found_ids].
    - rewrite length_map. lia. }
  apply list_elem_of_In in Hin. rewrite <- Hperm in Hin.
  apply list_elem_of_In, in_map_iff in Hin as (x & Hx & Hin). eauto.
Qed.

Lemma assign_users_to_case_Return w case_id user_ids u req created w' :
  assign_users_to_case case_id user_ids u req w = (Return created, w') ->
  exists case new,
    first_case_by_id (working w) case_id = Some case
    /\ (role u = SUPER_ADMIN
        \/ (role u = ORG_ADMIN /\ case_organization_id case = user_organization_id u))
    /\ length (users_found (working w) user_ids) = length user_ids
    /\ (case_organization_id case = None
        \/ Forall (fun x => user_organization_id x = case_organization_id case)
                  (users_found (working w) user_ids))
    /\ committed w' = working w'
    /\ users (working w') = users (working w)
    /\ organizations (working w') = organizations (working w)
    /\ cases (working w') = cases (working w)
    /\ evidence (working w') = evidence (working w)
    /\ case_assignments (working w') = (case_assignments (working w) ++ new)%list
    /\ Forall (fun a => ca_case_id a = case_id /\ In (ca_user_id a) user_ids
                        /\ ca_assigned_by a = Some (User_id u)
                        /\ first_assignment (working w) case_id (ca_user_id a) = None)
              new
    /\ (forall uid, In uid user_ids ->
                    first_assignment (working w') case_id uid <> None).
Proof.
  unfold assign_users_to_case. unfold bind at 1. cbn -[existsb].
  fold (users_found (working w) user_ids).
  destruct (first_case_by_id (working w) case_id) as [case|] eqn:Hc; [|discriminate].
  intros Hrun. exists case.
  assert (Hauth : role u = SUPER_ADMIN
                  \/ (role u = ORG_ADMIN
                      /\ case_organization_id case = user_organization_id u)).
  { revert Hrun. unfold bind at 1. destruct (role u); cbn; auto; try discriminate.
    destruct (bool_decide (case_organization_id case = user_organization_id u)) eqn:E;
      cbn; [|discriminate].
    apply bool_decide_eq_true_1 in E. auto. }
  assert (Hrun' :
    (run raise_if (negb (bool_decide (length (users_found (working w) user_ids)
                                      = length user_ids)))
           (HTTPException HTTP_400_BAD_REQUEST
              "One or more user IDs are invalid or inactive.") in
     run match case_organization_id case with
         | Some _ =>
             raise_if (negb (bool_decide
                 (length (List.filter
                            (fun u0 => negb (bool_decide (user_organization_id u0
                                                          = case_organization_id case)))
                            (users_found (working w) user_ids)) = 0%nat)))
               (HTTPException HTTP_400_BAD_REQUEST
                  "All assigned users must belong to the case's organization.")
         | None => ret tt
         end in
     let* assignments_created := assign_loop case_id (User_id u) user_ids [] in
     run db_commit in
     run create_audit_log_entry u "ASSIGN" "Case" (Some case_id)
           (Some (PyDict [("assigned_users",
                           PyList (List.map PyStr assignments_created))]))
           req None in
     ret assignments_created) w = (Return created, w')).
  { revert Hrun. unfold bind at 1.
    destruct Hauth as [-> | [-> E]]; cbn; [auto|].
    rewrite (bool_decide_eq_true_2 _ E). cbn. auto. }
  clear Hrun. revert Hrun'. unfold bind at 1.
  destruct (bool_decide (length (users_found (working w) user_ids) = length user_ids))
    eqn:Hlen; cbn; [|discriminate].
  apply bool_decide_eq_true_1 in Hlen.
  unfold bind at 1.
  assert (Horg : forall (k : M (list string)),
    (match
       (match case_organization_id case with
        | Some _ =>
            raise_if (negb (bool_decide
                (length (List.filter
                           (fun u0 => negb (bool_decide (user_organization_id u0
                                                         = case_organization_id case)))
                           (users_found (working w) user_ids)) = 0%nat)))
              (HTTPException HTTP_400_BAD_REQUEST
                 "All assigned users must belong to the case's organization.")
        | None => ret tt
        end) w
     with
     | (Return _, w0) => k w0
     | (Raise e, w0) => (Raise e, w0)
     end) = (Return created, w') ->
    k w = (Return created, w')
    /\ (case_organization_id case = None
        \/ Forall (fun x => user_organization_id x = case_organization_id case)
                  (users_found (working w) user_ids))).
  { intros k. destruct (case_organization_id case) as [o|] eqn:Eo; cbn; [|auto].
    destruct (bool_decide (length _ = 0%nat)) eqn:Hinv; cbn; [|discriminate].
    intros Hk. split; [exact Hk|]. right.
    apply bool_decide_eq_true_1, length_zero_iff_nil in Hinv.
    apply Forall_forall. intros x Hx.
    destruct (decide (user_organization_id x = Some o)) as [E|N]; [exact E|].
    exfalso.
    assert (Hin : In x (List.filter
                          (fun u0 => negb (bool_decide (user_organization_id u0 = Some o)))
                          (users_found (working w) user_ids))).
    { apply filter_In. split; [by apply list_elem_of_In|].
      rewrite (bool_decide_eq_false_2 _ N). reflexivity. }
    rewrite Hinv in Hin. destruct Hin. }
  intros Hrun. apply Horg in Hrun as [Hrun Hvalid]. clear Horg.
  revert Hrun. unfold bind at 1.
  destruct (assign_loop_spec case_id (User_id u) user_ids [] w)
    as (cr & w1 & new & E & Hcm & _ & _ & _ & Hsame & Happ & Hnew & Hall).
  rewrite E. intros Hrun.
  apply commit_audit_ret in Hrun as [(Hr & Hcw & Hs & _) | (Hr & _)]; [|discriminate].
  exists new. destruct Hsame as (Hu & Ho & Hcs & Hev & _).
  destruct Hs as (Hu' & Ho' & Hcs' & Has' & Hev').
  repeat split; try congruence; auto.
  intros uid Hin. unfold first_assignment. rewrite Has'. apply Hall, Hin.
Qed.

(** X12. when [assign_users_to_case] answers, the assignment is durable and
    complete: every requested id has a row for the case in the committed
    table, the rows that were there are kept in place, each added row is
    for this case, one of the requested ids and the acting user, and no
    other table changed. *)
Theorem assign_users_to_case_assigns_all w case_id user_ids u req created w' :
  assign_users_to_case case_id user_ids u req w = (Return created, w') ->
  (forall uid, In uid user_ids ->
               first_assignment (committed w') case_id uid <> None)
  /\ (exists new,
        case_assignments (committed w') = (case_assignments (working w) ++ new)%list
        /\ Forall (fun a => ca_case_id a = case_id /\ In (ca_user_id a) user_ids
                            /\ ca_assigned_by a = Some (User_id u)) new)
  /\ users (committed w') = users (working w)
  /\ organizations (committed w') = organizations (working w)
  /\ cases (committed w') = cases (working w)
  /\ evidence (committed w') = evidence (working w).
Proof.
  intros Hrun. apply assign_users_to_case_Return in Hrun
    as (case & new & _ & _ & _ & _ & Hcw & Hu & Ho & Hcs & Hev & Happ & Hnew & Hall).
  rewrite Hcw. repeat split; auto.
  exists new. split; [exact Happ|].
  eapply Forall_impl; [exact Hnew|]. cbn. intros a (? & ? & ? & _). auto.
Qed.

(** X13. [assign_users_to_case] goes through only for a batch of users that
    exist and are active, and, when the case has an organization, belong
    to it; and only for a super admin or an admin of the case's
    organization. *)
Theorem assign_users_to_case_validates w case_id user_ids u req created w' :
  NoDup (List.map User_id (users (working w))) ->
  assign_users_to_case case_id user_ids u req w = (Return created, w') ->
  exists case,
    first_case_by_id (working w) case_id = Some case
    /\ (role u = SUPER_ADMIN
        \/ (role u = ORG_ADMIN /\ case_organization_id case = user_organization_id u))
    /\ forall uid, In uid user_ids ->
         exists x, In x (users (working w)) /\ User_id x = uid
                   /\ is_active x = true
                   /\ (case_organization_id case = None
                       \/ user_organization_id x = case_organization_id case).
Proof.
  intros Hnd Hrun. apply assign_users_to_case_Return in Hrun
    as (case & new & Hc & Hauth & Hlen & Horg & _).
  exists case. split; [exact Hc|]. split; [exact Hauth|].
  intros uid Hin.
  destruct (users_found_all _ _ Hnd Hlen uid Hin) as (x & Hx & Hid).
  exists x. pose proof Hx as Hx'.
  apply filter_In in Hx' as [Hxin Hp]. apply andb_true_iff in Hp as [_ Hact].
  repeat split; auto.
  destruct Horg as [E | Hall]; [auto|]. right.
  rewrite Forall_forall in Hall. apply Hall. by apply list_elem_of_In.
Qed.

(** X14. assignment opens the case: a staff or individual user named in a
    batch that [assign_users_to_case] accepted is no longer refused by
    [read_case] or [update_case] on that case. *)
Theorem assignment_grants_access w case_id user_ids u req created w' x upd req' :
  assign_users_to_case case_id user_ids u req w = (Return created, w') ->
  In (User_id x) user_ids ->
  role x = STAFF_USER \/ role x = INDIVIDUAL_USER ->
  forbidden (read_case case_id x req' w') = false
  /\ forbidden (update_case case_id upd x req' w') = false.
Proof.
  intros Hrun Hin Hrole. apply assign_users_to_case_Return in Hrun
    as (case & new & Hc & _ & _ & _ & _ & _ & _ & Hcs & _ & _ & _ & Hall).
  assert (Hc' : first_case_by_id (working w') case_id = Some case)
    by (unfold first_case_by_id in *; rewrite Hcs; exact Hc).
  rewrite (read_case_forbidden _ _ _ _ _ Hc'), (update_case_forbidden _ _ _ _ _ _ Hc').
  assert (Hden : case_access_denied (working w') case case_id x = false).
  { unfold case_access_denied, is_assigned_via_table.
    rewrite (bool_decide_eq_false_2 _ (Hall _ Hin)). cbn.
    rewrite !andb_false_r. destruct Hrole as [-> | ->]; reflexivity. }
  auto.
Qed.

(** ** Removing an assignment *)

(** Reduces an authorization block whose tests have been decided. *)
Ltac auth_passed := cbv beta iota delta [ret raise raise_if negb andb].

Lemma remove_user_from_case_Return w case_id user_id u req msg w' :
  remove_user_from_case case_id user_id u req w = (Return msg, w') ->
  exists case a,
    first_case_by_id (working w) case_id = Some case
    /\ (role u = SUPER_ADMIN
        \/ (role u = ORG_ADMIN /\ case_organization_id case = user_organization_id u))
    /\ first_assignment (working w) case_id user_id = Some a
    /\ committed w' = working w'
    /\ case_assignments (working w')
       = List.filter (fun a0 => negb (bool_decide (ca_id a0 = ca_id a)))
                     (case_assignments (working w))
    /\ users (working w') = users (working w)
    /\ organizations (working w') = organizations (working w)
    /\ cases (working w') = cases (working w)
    /\ evidence (working w') = evidence (working w).
Proof.
  unfold remove_user_from_case. unfold bind at 1. cbn.
  destruct (first_case_by_id (working w) case_id) as [case|] eqn:Hc; [|discriminate].
  intros Hrun. exists case.
  assert (Hauth : role u = SUPER_ADMIN
                  \/ (role u = ORG_ADMIN
                      /\ case_organization_id case = user_organization_id u)).
  { revert Hrun. unfold bind at 1. destruct (role u); cbn; auto; try discriminate.
    destruct (bool_decide (case_organization_id case = user_organization_id u)) eqn:E;
      cbn; [|discriminate].
    apply bool_decide_eq_true_1 in E. auto. }
  assert (Htail :
    match first_assignment (working w) case_id user_id with
    | Some assignment =>
        run modify_working (fun s =>
              with_case_assignments
                (List.filter (fun a => negb (bool_decide (ca_id a = ca_id assignment)))
                             (case_assignments s)) s) in
        run db_commit in
        run create_audit_log_entry u "UNASSIGN" "Case" (Some case_id)
              (Some (PyDict [("unassigned_user", PyStr (str_of_uuid user_id))]))
              req None in
        ret "User assignment removed successfully"
    | None => raise (HTTPException HTTP_404_NOT_FOUND "Assignment not found.")
    end w = (Return msg, w')).
  { revert Hrun. unfold bind at 1. destruct Hauth as [Hr | [Hr E]]; rewrite Hr.
    - auth_passed. auto.
    - rewrite (bool_decide_eq_true_2 _ E). auth_passed. auto. }
  clear Hrun. revert Htail.
  destruct (first_assignment (working w) case_id user_id) as [a|]; [|discriminate].
  unfold bind at 1. cbn. intros Hrun.
  apply commit_audit_ret in Hrun as [(_ & Hcw & Hs & _) | (Hr & _)]; [|discriminate].
  destruct Hs as (Hu & Ho & Hcs & Has & Hev). cbn in *.
  exists a. repeat split; auto.
Qed.

Lemma find_filter_other {A} (p q : A -> bool) (l : list A) :
  (forall x, In x l -> p x = true -> q x = true) ->
  List.find p (List.filter q l) = List.find p l.
Proof.
  induction l as [|x l IH]; cbn; intros Hpq; [reflexivity|].
  destruct (q x) eqn:Hq; cbn.
  - destruct (p x); [reflexivity|]. apply IH. auto.
  - destruct (p x) eqn:Hp.
    + rewrite (Hpq x) in Hq by auto. discriminate.
    + apply IH. auto.
Qed.

Lemma find_filter_none {A} (p q : A -> bool) (l : list A) :
  (forall x, In x l -> p x = true -> q x = false) ->
  List.find p (List.filter q l) = None.
Proof.
  induction l as [|x l IH]; cbn; intros Hpq; [reflexivity|].
  destruct (q x) eqn:Hq; cbn.
  - destruct (p x) eqn:Hp.
    + rewrite (Hpq x) in Hq by auto. discriminate.
    + apply IH. auto.
  - apply IH. auto.
Qed.

Lemma NoDup_map_inj_In {A K} (key : A -> K) (l : list A) x y :
  NoDup (List.map key l) -> In x l -> In y l -> key x = key y -> x = y.
Proof.
  induction l as [|a l IH]; cbn; intros Hnd Hx Hy E; [destruct Hx|].
  apply NoDup_cons in Hnd as [Hnotin Hnd].
  destruct Hx as [-> | Hx], Hy as [-> | Hy]; auto.
  - exfalso. apply Hnotin. rewrite E. apply list_elem_of_In, in_map. exact Hy.
  - exfalso. apply Hnotin. rewrite <- E. apply list_elem_of_In, in_map. exact Hx.
Qed.

Lemma remove_user_from_case_pairs w case_id user_id u req msg w' :
  NoDup (List.map ca_id (case_assignments (working w))) ->
  NoDup (List.map assignment_pair (case_assignments (working w))) ->
  remove_user_from_case case_id user_id u req w = (Return msg, w') ->
  first_assignment (working w') case_id user_id = None
  /\ (forall c x, (c, x) <> (case_id, user_id) ->
                  first_assignment (working w') c x = first_assignment (working w) c x).
Proof.
  intros Hid Hpair Hrun. apply remove_user_from_case_Return in Hrun
    as (case & a & _ & _ & Ha & _ & Has & _).
  apply first_assignment_Some in Ha as (Hin & Hac & Hau).
  unfold first_assignment. rewrite Has. split.
  - apply find_filter_none. intros a0 Hin0 Hp.
    apply andb_true_iff in Hp as [H1 H2]. apply bool_decide_eq_true_1 in H1, H2.
    assert (a0 = a) as ->.
    { apply (NoDup_map_inj_In assignment_pair _ _ _ Hpair Hin0 Hin).
      unfold assignment_pair. congruence. }
    rewrite (bool_decide_eq_true_2 _ eq_refl). reflexivity.
  - intros c x Hne. apply find_filter_other. intros a0 Hin0 Hp.
    apply andb_true_iff in Hp as [H1 H2]. apply bool_decide_eq_true_1 in H1, H2.
    apply negb_true_iff, bool_decide_eq_false_2. intros E.
    assert (a0 = a) as -> by (apply (NoDup_map_inj_In ca_id _ _ _ Hid Hin0 Hin E)).
    apply Hne. congruence.
Qed.

(** X15. when [remove_user_from_case] answers, the pair is gone from the
    committed assignment table, every other pair is answered as before,
    and no other table changed.  The assignment table is taken with its
    primary key and its unique constraint on (case, user). *)
Theorem remove_user_from_case_removes_the_pair w case_id user_id u req msg w' :
  NoDup (List.map ca_id (case_assignments (working w))) ->
  NoDup (List.map assignment_pair (case_assignments (working w))) ->
  remove_user_from_case case_id user_id u req w = (Return msg, w') ->
  first_assignment (committed w') case_id user_id = None
  /\ (forall c x, (c, x) <> (case_id, user_id) ->
                  first_assignment (committed w') c x
                  = first_assignment (working w) c x)
  /\ users (committed w') = users (working w)
  /\ organizations (committed w') = organizations (working w)
  /\ cases (committed w') = cases (working w)
  /\ evidence (committed w') = evidence (working w).
Proof.
  intros Hid Hpair Hrun.
  destruct (remove_user_from_case_pairs _ _ _ _ _ _ _ Hid Hpair Hrun) as [Hgone Hkept].
  apply remove_user_from_case_Return in Hrun
    as (case & a & _ & _ & _ & Hcw & _ & Hu & Ho & Hcs & Hev).
  rewrite Hcw. auto 10.
Qed.

(** X16. removal closes the case again: once [remove_user_from_case] has
    answered, a staff or individual user who neither created the case nor
    holds its legacy [assigned_to] column is refused by [read_case] and
    [update_case]. *)
Theorem unassignment_revokes_access w case_id u req msg w' x upd req' case :
  NoDup (List.map ca_id (case_assignments (working w))) ->
  NoDup (List.map assignment_pair (case_assignments (working w))) ->
  remove_user_from_case case_id (User_id x) u req w = (Return msg, w') ->
  first_case_by_id (working w) case_id = Some case ->
  role x = STAFF_USER \/ role x = INDIVIDUAL_USER ->
  created_by case <> User_id x ->
  assigned_to case <> Some (User_id x) ->
  forbidden (read_case case_id x req' w') = true
  /\ forbidden (update_case case_id upd x req' w') = true.
Proof.
  intros Hid Hpair Hrun Hc Hrole Hcr Has.
  destruct (remove_user_from_case_pairs _ _ _ _ _ _ _ Hid Hpair Hrun) as [Hgone _].
  apply remove_user_from_case_Return in Hrun
    as (case' & a & _ & _ & _ & _ & _ & _ & _ & Hcs & _).
  assert (Hc' : first_case_by_id (working w') case_id = Some case)
    by (unfold first_case_by_id in *; rewrite Hcs; exact Hc).
  rewrite (read_case_forbidden _ _ _ _ _ Hc'), (update_case_forbidden _ _ _ _ _ _ Hc').
  assert (Hden : case_access_denied (working w') case case_id x = true).
  { unfold case_access_denied, is_assigned_via_table. rewrite Hgone.
    rewrite (bool_decide_eq_false_2 _ Hcr), (bool_decide_eq_false_2 _ Has).
    rewrite (bool_decide_eq_true_2 _ eq_refl).
    destruct Hrole as [-> | ->]; reflexivity. }
  auto.
Qed.

(** ** Deleting and updating a case *)

Lemma first_case_by_id_Some s case_id case :
  first_case_by_id s case_id = Some case ->
  In case (cases s) /\ Case_id case = case_id.
Proof.
  unfold first_case_by_id. intros Hf. apply find_some in Hf as [Hin Hb].
  apply bool_decide_eq_true_1 in Hb. auto.
Qed.

Lemma delete_case_Return w case_id u req msg w' :
  delete_case case_id u req w = (Return msg, w') ->
  exists case,
    first_case_by_id (working w) case_id = Some case
    /\ committed w' = working w'
    /\ cases (working w')
       = List.filter (fun c => negb (bool_decide (Case_id c = case_id)))
                     (cases (working w))
    /\ evidence (working w')
       = List.filter (fun e => negb (bool_decide (ev_case_id e = case_id)))
                     (evidence (working w))
    /\ case_assignments (working w')
       = List.filter (fun a => negb (bool_decide (ca_case_id a = case_id)))
                     (case_assignments (working w))
    /\ users (working w') = users (working w)
    /\ organizations (working w') = organizations (working w).
Proof.
  unfold delete_case. unfold bind at 1. cbn.
  destruct (first_case_by_id (working w) case_id) as [case|] eqn:Hc; [|discriminate].
  pose proof (first_case_by_id_Some _ _ _ Hc) as [_ Hid].
  intros Hrun. exists case.
  assert (Htail :
    (run modify_working (fun s =>
           with_evidence
             (List.filter (fun e => negb (bool_decide (ev_case_id e = case_id)))
                          (evidence s)) s) in
     run modify_working (fun s =>
           with_case_assignments
             (List.filter (fun a => negb (bool_decide (ca_case_id a = case_id)))
                          (case_assignments s)) s) in
     run modify_working (fun s =>
           with_cases
             (List.filter (fun c => negb (bool_decide (Case_id c = Case_id case)))
                          (cases s)) s) in
     run db_commit in
     run create_audit_log_entry u "DELETE" "Case" (Some case_id)
           (Some (PyDict [("title", PyStr (title case))])) req None in
     ret "Case deleted successfully") w = (Return msg, w')).
  { revert Hrun. unfold bind at 1. destruct (role u) eqn:Hr.
    - auth_passed. auto.
    - destruct (bool_decide (case_organization_id case = user_organization_id u));
        auth_passed; [auto | discriminate].
    - rewrite (bool_decide_eq_false_2 (STAFF_USER = INDIVIDUAL_USER)) by discriminate.
      auth_passed. discriminate.
    - rewrite (bool_decide_eq_true_2 (INDIVIDUAL_USER = INDIVIDUAL_USER) eq_refl).
      destruct (bool_decide (created_by case = User_id u)); auth_passed;
        [auto | discriminate]. }
  clear Hrun. revert Htail.
  unfold bind at 1. cbn. unfold bind at 1. cbn. unfold bind at 1. cbn. intros Hrun.
  apply commit_audit_ret in Hrun as [(_ & Hcw & Hs & _) | (Hr & _)]; [|discriminate].
  destruct Hs as (Hu & Ho & Hcs & Has & Hev). cbn in *.
  rewrite Hid in Hcs. repeat split; auto.
Qed.

(** X17. when [delete_case] answers, the committed store holds no case, no
    evidence row and no assignment row with that case id, every other row
    of those three tables is still there, and users and organizations are
    untouched. *)
Theorem delete_case_leaves_no_rows w case_id u req msg w' :
  delete_case case_id u req w = (Return msg, w') ->
  first_case_by_id (committed w') case_id = None
  /\ (forall c, In c (cases (committed w'))
                <-> In c (cases (working w)) /\ Case_id c <> case_id)
  /\ (forall e, In e (evidence (committed w'))
                <-> In e (evidence (working w)) /\ ev_case_id e <> case_id)
  /\ (forall a, In a (case_assignments (committed w'))
                <-> In a (case_assignments (working w)) /\ ca_case_id a <> case_id)
  /\ users (committed w') = users (working w)
  /\ organizations (committed w') = organizations (working w).
Proof.
  intros Hrun. apply delete_case_Return in Hrun
    as (case & _ & Hcw & Hcs & Hev & Has & Hu & Ho).
  rewrite Hcw.
  assert (Hf : forall {A} (key : A -> UUID) (l : list A) x,
    In x (List.filter (fun y => negb (bool_decide (key y = case_id))) l)
    <-> In x l /\ key x <> case_id).
  { intros A key l x. rewrite filter_In, negb_true_iff.
    split; intros [Hin Hb]; split; auto.
    - eapply bool_decide_eq_false_1. exact Hb.
    - apply bool_decide_eq_false_2. exact Hb. }
  split.
  { unfold first_case_by_id. rewrite Hcs. apply find_filter_none.
    intros c _ Hp. rewrite Hp. reflexivity. }
  rewrite Hcs, Hev, Has.
  split; [apply (Hf _ Case_id)|]. split; [apply (Hf _ ev_case_id)|].
  split; [apply (Hf _ ca_case_id)|]. auto.
Qed.

Lemma update_case_Return w case_id upd u req c' w' :
  update_case case_id upd u req w = (Return c', w') ->
  exists case,
    first_case_by_id (working w) case_id = Some case
    /\ c' = apply_case_update upd case
    /\ committed w' = working w'
    /\ cases (working w')
       = List.map (fun c => if bool_decide (Case_id c = case_id)
                            then apply_case_update upd c else c)
                  (cases (working w))
    /\ users (working w') = users (working w)
    /\ organizations (working w') = organizations (working w)
    /\ case_assignments (working w') = case_assignments (working w)
    /\ evidence (working w') = evidence (working w).
Proof.
  unfold update_case. unfold bind at 1. cbn.
  destruct (first_case_by_id (working w) case_id) as [case|] eqn:Hc; [|discriminate].
  pose proof (first_case_by_id_Some _ _ _ Hc) as [_ Hid].
  intros Hrun. exists case.
  assert (Htail :
    (run modify_working (fun s =>
           with_cases (List.map (fun c => if bool_decide (Case_id c = Case_id case)
                                          then apply_case_update upd c else c)
                                (cases s)) s) in
     run db_commit in
     run create_audit_log_entry u "UPDATE" "Case"
           (Some (Case_id (apply_case_update upd case)))
           (Some (PyDict [("updated_fields", case_update_data upd)]))
           req None in
     ret (apply_case_update upd case)) w = (Return c', w')).
  { revert Hrun. unfold bind at 1. destruct (role u) eqn:Hr.
    - auth_passed. auto.
    - destruct (bool_decide (case_organization_id case = user_organization_id u));
        auth_passed; [auto | discriminate].
    - destruct (_ && _ && _); auth_passed; [discriminate | auto].
    - destruct (_ && _ && _); auth_passed; [discriminate | auto]. }
  clear Hrun. revert Htail.
  unfold bind at 1. cbn. intros Hrun.
  apply commit_audit_ret in Hrun as [(Hr & Hcw & Hs & _) | (Hr & _)]; [|discriminate].
  destruct Hs as (Hu & Ho & Hcs & Has & Hev). cbn in *.
  rewrite Hid in Hcs. injection Hr as <-. repeat split; auto.
Qed.

(** X18. [update_case] never moves a case: the answered row keeps the id,
    the creator and the organization it had, it is the row the committed
    table now answers under that id, every other id is answered as
    before, and no other table changed. *)
Theorem update_case_touches_one_row w case_id upd u req c' w' :
  update_case case_id upd u req w = (Return c', w') ->
  (exists case,
     first_case_by_id (working w) case_id = Some case
     /\ Case_id c' = case_id
     /\ created_by c' = created_by case
     /\ case_organization_id c' = case_organization_id case)
  /\ first_case_by_id (committed w') case_id = Some c'
  /\ (forall other, other <> case_id ->
        first_case_by_id (committed w') other = first_case_by_id (working w) other)
  /\ List.map Case_id (cases (committed w')) = List.map Case_id (cases (working w))
  /\ users (committed w') = users (working w)
  /\ organizations (committed w') = organizations (working w)
  /\ case_assignments (committed w') = case_assignments (working w)
  /\ evidence (committed w') = evidence (working w).
Proof.
  intros Hrun. apply update_case_Return in Hrun
    as (case & Hc & -> & Hcw & Hcs & Hu & Ho & Has & Hev).
  pose proof (first_case_by_id_Some _ _ _ Hc) as [_ Hid].
  rewrite Hcw. split; [exists case; auto|].
  assert (Hkey : forall c, Case_id (if bool_decide (Case_id c = case_id)
                                    then apply_case_update upd c else c) = Case_id c).
  { intros c. destruct (bool_decide (Case_id c = case_id)); reflexivity. }
  assert (Hfind : forall x,
    first_case_by_id (working w') x
    = option_map (fun c => if bool_decide (Case_id c = case_id)
                           then apply_case_update upd c else c)
                 (first_case_by_id (working w) x)).
  { intros x. unfold first_case_by_id. rewrite Hcs.
    apply (find_map_invariant (fun c => bool_decide (Case_id c = x))).
    intros c. rewrite Hkey. reflexivity. }
  split.
  { rewrite Hfind, Hc. cbn. rewrite (bool_decide_eq_true_2 _ Hid). reflexivity. }
  split.
  { intros other Hne. rewrite Hfind.
    destruct (first_case_by_id (working w) other) as [c|] eqn:Eo; [|reflexivity].
    apply first_case_by_id_Some in Eo as [_ Eo]. cbn.
    rewrite bool_decide_eq_false_2 by congruence. reflexivity. }
  split.
  { rewrite Hcs, map_map. apply map_ext. exact Hkey. }
  auto.
Qed.

(** ** A handler that raises has committed nothing *)

Ltac commit_inv :=
  match goal with
  | |- context [db_commit ?w] =>
      let w' := fresh "w'" in
      let E := fresh "E" in
      let Hc := fresh "Hc" in
      destruct (db_commit_inv w) as [(w' & E & _) | (w' & E & Hc & _)];
      rewrite E; cbn
  end.

Ltac loop_keeps :=
  match goal with
  | |- context [assign_loop ?c ?b ?ids ?acc ?w] =>
      let E := fresh "E" in
      let Hc := fresh "Hc" in
      destruct (assign_loop_spec c b ids acc w) as (? & ? & ? & E & Hc & _);
      rewrite E; cbn
  end.

Ltac failure_step :=
  match goal with
  | |- context [raise_if ?c ?e ?w] => destruct c eqn:?; cbn
  | |- context [db_commit ?w] => commit_inv
  | |- context [create_audit_log_entry _ _ _ _ _ _ _ _] => audit_returns
  | |- context [match role ?u with _ => _ end] => destruct (role u) eqn:?; cbn
  end.

(** Runs a handler to each of its exits, keeping what a failed commit
    leaves. *)
Ltac exit_reached :=
  match goal with
  | Hexit : _ = (Raise _, _) |- _ =>
      unfold raise, ret in Hexit; cbn in Hexit;
      first [ discriminate Hexit | injection Hexit as <- <- ]
  end.

Ltac run_failure :=
  unfold bind; cbn;
  repeat first [ discriminate | reflexivity | failure_step | loop_keeps
               | lookup_cases | progress (intros; cbn in * ) | exit_reached
               | congruence ].

Lemma create_case_raise_commits_nothing w case_in u req e w' :
  create_case case_in u req w = (Raise e, w') ->
  committed w' = committed w.
Proof. unfold create_case, load_global. run_failure. Qed.

Lemma update_case_raise_commits_nothing w case_id upd u req e w' :
  update_case case_id upd u req w = (Raise e, w') ->
  committed w' = committed w.
Proof. unfold update_case. run_failure. Qed.

Lemma delete_case_raise_commits_nothing w case_id u req e w' :
  delete_case case_id u req w = (Raise e, w') ->
  committed w' = committed w.
Proof. unfold delete_case. run_failure. Qed.

Lemma assign_users_to_case_raise_commits_nothing w case_id ids u req e w' :
  assign_users_to_case case_id ids u req w = (Raise e, w') ->
  committed w' = committed w.
Proof. unfold assign_users_to_case. run_failure. Qed.

Lemma remove_user_from_case_raise_commits_nothing w case_id user_id u req e w' :
  remove_user_from_case case_id user_id u req w = (Raise e, w') ->
  committed w' = committed w.
Proof. unfold remove_user_from_case. run_failure. Qed.

Lemma create_user_raise_commits_nothing w user_in u req e w' :
  create_user user_in u req w = (Raise e, w') ->
  committed w' = committed w.
Proof. unfold create_user. run_failure. Qed.

Lemma update_user_raise_commits_nothing w user_id upd u req e w' :
  update_user user_id upd u req w = (Raise e, w') ->
  committed w' = committed w.
Proof. unfold update_user. run_failure. Qed.

Lemma change_password_raise_commits_nothing w password_data u req e w' :
  change_password password_data u req w = (Raise e, w') ->
  committed w' = committed w.
Proof. unfold change_password. run_failure. Qed.

Lemma admin_reset_password_raise_commits_nothing w reset_data u req e w' :
  admin_reset_password reset_data u req w = (Raise e, w') ->
  committed w' = committed w.
Proof. unfold admin_reset_password. run_failure. Qed.

Lemma create_organization_raise_commits_nothing w org_in u req e w' :
  create_organization org_in u req w = (Raise e, w') ->
  committed w' = committed w.
Proof. unfold create_organization. run_failure. Qed.

Lemma confirm_password_reset_raise_commits_nothing w reset_confirm e w' :
  confirm_password_reset reset_confirm w = (Raise e, w') ->
  committed w' = committed w.
Proof.
  unfold confirm_password_reset, reset_tokens_get, reset_tokens_delitem, lift.
  unfold bind; cbn.
  destruct (password_reset_tokens w !! prc_token reset_confirm) as [entry|]; cbn;
    [|intros [= _ <-]; reflexivity].
  destruct (datetime_gt _ _) as [[]|]; cbn; try (intros [= _ <-]; reflexivity).
  destruct (first_user_by_id (working w) (re_user_id entry)); cbn;
    [|intros [= _ <-]; reflexivity].
  commit_inv.
  - audit_returns. discriminate.
  - intros [= _ <-]. exact Hc.
Qed.

(** X19. a mutating handler that raises, whatever it raises (an HTTP error,
    a failed commit, a [NameError]), leaves the committed store as it
    was: each of these handlers commits once, as its last write. *)
Theorem raise_commits_nothing w u req e w' :
  (forall case_in, create_case case_in u req w = (Raise e, w') ->
                   committed w' = committed w)
  /\ (forall case_id upd, update_case case_id upd u req w = (Raise e, w') ->
                          committed w' = committed w)
  /\ (forall case_id, delete_case case_id u req w = (Raise e, w') ->
                      committed w' = committed w)
  /\ (forall case_id ids, assign_users_to_case case_id ids u req w = (Raise e, w') ->
                          committed w' = committed w)
  /\ (forall case_id user_id,
        remove_user_from_case case_id user_id u req w = (Raise e, w') ->
        committed w' = committed w)
  /\ (forall user_in, create_user user_in u req w = (Raise e, w') ->
                      committed w' = committed w)
  /\ (forall user_id upd, update_user user_id upd u req w = (Raise e, w') ->
                          committed w' = committed w)
  /\ (forall password_data, change_password password_data u req w = (Raise e, w') ->
                            committed w' = committed w)
  /\ (forall reset_data, admin_reset_password reset_data u req w = (Raise e, w') ->
                         committed w' = committed w)
  /\ (forall reset_confirm, confirm_password_reset reset_confirm w = (Raise e, w') ->
                            committed w' = committed w)
  /\ (forall org_in, create_organization org_in u req w = (Raise e, w') ->
                     committed w' = committed w).
Proof.
  repeat split; intros.
  - eapply create_case_raise_commits_nothing; eauto.
  - eapply update_case_raise_commits_nothing; eauto.
  - eapply delete_case_raise_commits_nothing; eauto.
  - eapply assign_users_to_case_raise_commits_nothing; eauto.
  - eapply remove_user_from_case_raise_commits_nothing; eauto.
  - eapply create_user_raise_commits_nothing; eauto.
  - eapply update_user_raise_commits_nothing; eauto.
  - eapply change_password_raise_commits_nothing; eauto.
  - eapply admin_reset_password_raise_commits_nothing; eauto.
  - eapply confirm_password_reset_raise_commits_nothing; eauto.
  - eapply create_organization_raise_commits_nothing; eauto.
Qed.

(** ** Creating and updating users *)

Ltac commit_facts :=
  match goal with
  | |- context [db_commit ?w] =>
      let w' := fresh "w'" in
      let E := fresh "E" in
      let Hcc := fresh "Hcc" in
      let Hcw := fresh "Hcw" in
      destruct (db_commit_inv w) as [(w' & E & Hcc & Hcw & _) | (w' & E & _)];
      rewrite E; cbn
  end.

Ltac audit_facts :=
  match goal with
  | |- context [create_audit_log_entry ?u ?a ?rt ?rid ?d ?rq ?cid ?w] =>
      let r := fresh "r" in
      let w' := fresh "w'" in
      let E := fresh "E" in
      let Hac := fresh "Hac" in
      let Has := fresh "Has" in
      destruct (audit_inv u a rt rid d rq cid w) as (r & w' & E & Hac & _ & _ & Has);
      rewrite E; cbn
  end.

Ltac facts_step :=
  match goal with
  | |- context [raise_if ?c ?e ?w] => destruct c eqn:?; cbn
  | |- context [db_commit ?w] => commit_facts
  | |- context [create_audit_log_entry _ _ _ _ _ _ _ _] => audit_facts
  | |- context [match role ?u with _ => _ end] => destruct (role u) eqn:?; cbn
  end.

(** Turns the recorded outcomes of boolean tests into propositions. *)
Ltac bools :=
  repeat match goal with
    | Hb : negb _ = true |- _ => apply negb_true_iff in Hb
    | Hb : negb _ = false |- _ => apply negb_false_iff in Hb
    | Hb : _ && _ = true |- _ => apply andb_true_iff in Hb as [? ?]
    | Hb : _ || _ = false |- _ => apply orb_false_iff in Hb as [? ?]
    | Hb : _ && _ = false |- _ => apply andb_false_iff in Hb as [? | ?]
    | Hb : _ || _ = true |- _ => apply orb_true_iff in Hb as [? | ?]
    | Hb : bool_decide _ = true |- _ => apply bool_decide_eq_true_1 in Hb
    | Hb : bool_decide _ = false |- _ => apply bool_decide_eq_false_1 in Hb
    end.

(** Brings what the commit and the audit call left into the tables of the
    final session. *)
Ltac frames :=
  repeat match goal with
    | Hs : ?a = ?b -> same_but_audit_logs _ _ |- _ =>
        let Hab := fresh "Hab" in
        assert (Hab : a = b) by congruence;
        specialize (Hs Hab); destruct Hs as (? & ? & ? & ? & ?)
    end;
  cbn in *.

(** A table of the final session, read back through the audit call and the
    commit. *)
Ltac table :=
  match goal with
  | Ht : ?f (working ?w2) = ?f (working ?w1), Hw : working ?w1 = _
    |- ?f (working ?w2) = _ => rewrite Ht, Hw; reflexivity
  end.

(** Runs a handler to the exits where it answers. *)
Ltac run_answer :=
  unfold bind; cbn;
  repeat first [ discriminate | facts_step | lookup_cases ].

Lemma create_user_inv w user_in cu req u' w' :
  create_user user_in cu req w = (Return u', w') ->
  first_user_by_username (working w) (uc_username user_in) = None
  /\ first_user_by_email (working w) (uc_email user_in) = None
  /\ username u' = uc_username user_in
  /\ email u' = uc_email user_in
  /\ role u' = uc_role user_in
  /\ hashed_password u' = get_password_hash (uc_password user_in)
  /\ is_active u' = uc_is_active user_in
  /\ (role cu = SUPER_ADMIN \/ role cu = ORG_ADMIN)
  /\ (role u' = INDIVIDUAL_USER -> user_organization_id u' = None)
  /\ (role u' = STAFF_USER \/ role u' = ORG_ADMIN -> user_organization_id u' <> None)
  /\ (role cu = SUPER_ADMIN ->
      forall oid, user_organization_id u' = Some oid ->
                  first_organization_by_id (working w) oid <> None)
  /\ (role cu = ORG_ADMIN ->
      (role u' = STAFF_USER \/ role u' = INDIVIDUAL_USER)
      /\ (role u' = STAFF_USER -> user_organization_id u' = user_organization_id cu))
  /\ committed w' = working w'
  /\ users (working w') = (users (working w) ++ [u'])%list
  /\ organizations (working w') = organizations (working w)
  /\ cases (working w') = cases (working w)
  /\ case_assignments (working w') = case_assignments (working w)
  /\ evidence (working w') = evidence (working w).
Proof.
  unfold create_user. run_answer.
  all: intros [= <- <-]; frames; bools.
  all: repeat split; try congruence; try table; cbn; auto.
  all: intros; bools; repeat case_bool_decide; simplify_eq/=; try congruence.
  all: try (destruct (uc_role user_in); simplify_eq/=; intuition congruence).
Qed.

Lemma find_None_not_in {A K} `{EqDecision K} (key : A -> K) (l : list A) k :
  List.find (fun x => bool_decide (key x = k)) l = None ->
  k ∉ List.map key l.
Proof.
  intros Hf Hin. apply list_elem_of_In, in_map_iff in Hin as (x & Hx & Hin).
  pose proof (find_none _ _ Hf x Hin) as Hb. cbn in Hb.
  apply bool_decide_eq_false_1 in Hb. auto.
Qed.

Lemma NoDup_snoc_fresh {K} (l : list K) k :
  NoDup l -> k ∉ l -> NoDup (l ++ [k]).
Proof.
  intros Hnd Hk. apply NoDup_app. split; [exact Hnd|]. split.
  - intros x Hx Hin. apply list_elem_of_singleton in Hin as ->. auto.
  - apply NoDup_singleton.
Qed.

(** X20. [create_user] keeps logins unique: when it answers, the committed
    users table is the old one with the answered row appended, and user
    names and e-mail addresses that were pairwise distinct still are; no
    other table changed. *)
Theorem create_user_keeps_logins_unique w user_in cu req u' w' :
  NoDup (List.map username (users (working w))) ->
  NoDup (List.map email (users (working w))) ->
  create_user user_in cu req w = (Return u', w') ->
  users (committed w') = (users (working w) ++ [u'])%list
  /\ NoDup (List.map username (users (committed w')))
  /\ NoDup (List.map email (users (committed w')))
  /\ organizations (committed w') = organizations (working w)
  /\ cases (committed w') = cases (working w)
  /\ case_assignments (committed w') = case_assignments (working w)
  /\ evidence (committed w') = evidence (working w).
Proof.
  intros Hn He Hrun. apply create_user_inv in Hrun
    as (Hfn & Hfe & Hun & Hue & _ & _ & _ & _ & _ & _ & _ & _
        & Hcw & Hu & Ho & Hcs & Has & Hev).
  rewrite Hcw, Hu, !map_app. cbn. rewrite Hun, Hue.
  split; [rewrite <- Hu; reflexivity|].
  split; [apply NoDup_snoc_fresh; [exact Hn | apply find_None_not_in, Hfn]|].
  split; [apply NoDup_snoc_fresh; [exact He | apply find_None_not_in, Hfe]|].
  auto.
Qed.

(** X21. what [create_user] can create: only a super admin or an
    organization admin gets an answer; the new row has the requested
    role; an individual user has no organization and a staff user or
    organization admin has one; an organization named by a super admin
    exists; an organization admin creates only staff users of the
    admin's own organization and individual users. *)
Theorem create_user_scope w user_in cu req u' w' :
  create_user user_in cu req w = (Return u', w') ->
  role u' = uc_role user_in
  /\ (role cu = SUPER_ADMIN \/ role cu = ORG_ADMIN)
  /\ (role u' = INDIVIDUAL_USER -> user_organization_id u' = None)
  /\ (role u' = STAFF_USER \/ role u' = ORG_ADMIN -> user_organization_id u' <> None)
  /\ (role cu = SUPER_ADMIN ->
      forall oid, user_organization_id u' = Some oid ->
                  first_organization_by_id (working w) oid <> None)
  /\ (role cu = ORG_ADMIN ->
      (role u' = STAFF_USER \/ role u' = INDIVIDUAL_USER)
      /\ (role u' = STAFF_USER -> user_organization_id u' = user_organization_id cu)).
Proof.
  intros Hrun. apply create_user_inv in Hrun
    as (_ & _ & _ & _ & Hr & _ & _ & Hcu & Hind & Horg & Hsuper & Hadmin & _).
  auto 10.
Qed.

Lemma update_user_inv w user_id upd cu req u' w' :
  update_user user_id upd cu req w = (Return u', w') ->
  exists target,
    first_user_by_id (working w) user_id = Some target
    /\ u' = apply_user_update upd (mk_datetime (clock w) None) target
    /\ (role cu = SUPER_ADMIN -> User_id cu = user_id ->
        uu_is_active upd <> Some false)
    /\ (role cu = ORG_ADMIN ->
        user_organization_id cu <> None
        /\ user_organization_id target = user_organization_id cu
        /\ uu_role upd <> Some SUPER_ADMIN
        /\ uu_role upd <> Some ORG_ADMIN
        /\ (uu_organization_id_value upd = None
            \/ uu_organization_id_value upd = user_organization_id cu))
    /\ (role cu = STAFF_USER \/ role cu = INDIVIDUAL_USER ->
        User_id cu = user_id
        /\ uu_role upd = None
        /\ uu_organization_id_value upd = None)
    /\ committed w' = working w'
    /\ users (working w')
       = List.map (fun x => if bool_decide (User_id x = User_id target)
                            then apply_user_update upd (mk_datetime (clock w) None) x
                            else x)
                  (users (working w))
    /\ organizations (working w') = organizations (working w)
    /\ cases (working w') = cases (working w)
    /\ case_assignments (working w') = case_assignments (working w)
    /\ evidence (working w') = evidence (working w).
Proof.
  unfold update_user. run_answer.
  all: intros [= <- <-]; frames; bools.
  all: eexists; split; [reflexivity|].
  all: repeat split; try congruence; try table; cbn; auto.
  all: intros; bools; repeat case_bool_decide; simplify_eq/=; try congruence.
  all: try (intuition congruence).
Qed.

(** X22. how far [update_user] lets each role reach.  An organization
    admin only changes users of the admin's own organization, and the
    updated row is in that organization or in none, with the role it had
    or a staff or individual role.  A staff or individual user only
    changes the own row, keeps the role, and keeps the organization or
    leaves it.  A super admin is never answered when deactivating the own
    account. *)
Theorem update_user_scope w user_id upd cu req u' w' :
  update_user user_id upd cu req w = (Return u', w') ->
  exists target,
    first_user_by_id (working w) user_id = Some target
    /\ User_id u' = user_id
    /\ (role cu = SUPER_ADMIN -> User_id cu = user_id ->
        uu_is_active upd <> Some false)
    /\ (role cu = ORG_ADMIN ->
        user_organization_id target = user_organization_id cu
        /\ (user_organization_id u' = user_organization_id cu
            \/ user_organization_id u' = None)
        /\ (role u' = role target
            \/ role u' = STAFF_USER \/ role u' = INDIVIDUAL_USER))
    /\ (role cu = STAFF_USER \/ role cu = INDIVIDUAL_USER ->
        User_id cu = user_id
        /\ role u' = role target
        /\ (user_organization_id u' = user_organization_id target
            \/ user_organization_id u' = None)).
Proof.
  intros Hrun. apply update_user_inv in Hrun
    as (target & Ht & -> & Hsuper & Hadmin & Hself & _).
  exists target. split; [exact Ht|].
  assert (Hid : User_id target = user_id).
  { unfold first_user_by_id in Ht. apply find_some in Ht as [_ Hb].
    apply bool_decide_eq_true_1 in Hb. exact Hb. }
  split; [exact Hid|]. split; [exact Hsuper|]. split.
  - intros Hr. destruct (Hadmin Hr) as (_ & Horg & Hr1 & Hr2 & Hval).
    split; [exact Horg|]. cbn. unfold uu_organization_id_value in Hval. split.
    + destruct (uu_organization_id upd) as [[o|]|]; cbn; intuition congruence.
    + destruct (uu_role upd) as [[]|]; cbn; intuition congruence.
  - intros Hr. destruct (Hself Hr) as (Hcu & Hrole & Hval).
    split; [exact Hcu|]. cbn. rewrite Hrole. cbn. split; [reflexivity|].
    unfold uu_organization_id_value in Hval.
    destruct (uu_organization_id upd) as [[o|]|]; cbn; intuition congruence.
Qed.

(** [update_user] touches one user: the answered row is what the
    committed table now answers under that id, every other id is answered
    as before, the ids of the table are the same in the same order, and
    no other table changed. *)
Lemma update_user_touches_one_row w user_id upd cu req u' w' :
  update_user user_id upd cu req w = (Return u', w') ->
  first_user_by_id (committed w') user_id = Some u'
  /\ (forall other, other <> user_id ->
        first_user_by_id (committed w') other = first_user_by_id (working w) other)
  /\ List.map User_id (users (committed w')) = List.map User_id (users (working w))
  /\ organizations (committed w') = organizations (working w)
  /\ cases (committed w') = cases (working w)
  /\ case_assignments (committed w') = case_assignments (working w)
  /\ evidence (committed w') = evidence (working w).
Proof.
  intros Hrun. apply update_user_inv in Hrun
    as (target & Ht & -> & _ & _ & _ & Hcw & Hu & Ho & Hcs & Has & Hev).
  assert (Hid : User_id target = user_id).
  { unfold first_user_by_id in Ht. apply find_some in Ht as [_ Hb].
    apply bool_decide_eq_true_1 in Hb. exact Hb. }
  rewrite Hcw.
  set (g := fun x => if bool_decide (User_id x = User_id target)
                     then apply_user_update upd (mk_datetime (clock w) None) x
                     else x) in *.
  assert (Hkey : forall x, User_id (g x) = User_id x).
  { intros x. unfold g. destruct (bool_decide (User_id x = User_id target)); reflexivity. }
  assert (Hfind : forall k,
    first_user_by_id (working w') k = option_map g (first_user_by_id (working w) k)).
  { intros k. unfold first_user_by_id. rewrite Hu.
    apply (find_map_invariant (fun x => bool_decide (User_id x = k))).
    intros x. rewrite Hkey. reflexivity. }
  split.
  { rewrite Hfind, Ht. cbn. unfold g.
    rewrite (bool_decide_eq_true_2 _ eq_refl). reflexivity. }
  split.
  { intros other Hne. rewrite Hfind.
    destruct (first_user_by_id (working w) other) as [x|] eqn:Eo; [|reflexivity].
    unfold first_user_by_id in Eo. apply find_some in Eo as [_ Eo].
    apply bool_decide_eq_true_1 in Eo. cbn. unfold g.
    rewrite bool_decide_eq_false_2 by congruence. reflexivity. }
  split.
  { rewrite Hu, map_map. apply map_ext. exact Hkey. }
  auto.
Qed.

(** ** Password resets *)

Lemma with_new_password_find s hashed now uid k :
  List.find (fun x => bool_decide (User_id x = k))
            (List.map (fun x => if bool_decide (User_id x = uid)
                                then with_new_password hashed now x else x)
                      (users s))
  = option_map (fun x => if bool_decide (User_id x = uid)
                         then with_new_password hashed now x else x)
               (first_user_by_id s k).
Proof.
  unfold first_user_by_id.
  apply (find_map_invariant (fun x => bool_decide (User_id x = k))).
  intros x. destruct (bool_decide (User_id x = uid)); reflexivity.
Qed.

Lemma confirm_password_reset_inv w reset_confirm msg w' :
  confirm_password_reset reset_confirm w = (Return msg, w') ->
  exists entry user,
    password_reset_tokens w !! prc_token reset_confirm = Some entry
    /\ datetime_gt (mk_datetime (clock w) None) (re_expires entry) = Return false
    /\ first_user_by_id (working w) (re_user_id entry) = Some user
    /\ committed w' = working w'
    /\ password_reset_tokens w'
       = delete (prc_token reset_confirm) (password_reset_tokens w)
    /\ users (working w')
       = List.map (fun x => if bool_decide (User_id x = User_id user)
                            then with_new_password
                                   (get_password_hash (prc_new_password reset_confirm))
                                   (mk_datetime (clock w) None) x
                            else x)
                  (users (working w))
    /\ organizations (working w') = organizations (working w)
    /\ cases (working w') = cases (working w)
    /\ case_assignments (working w') = case_assignments (working w)
    /\ evidence (working w') = evidence (working w).
Proof.
  unfold confirm_password_reset, reset_tokens_get, reset_tokens_delitem, lift.
  unfold bind; cbn.
  destruct (password_reset_tokens w !! prc_token reset_confirm) as [entry|] eqn:He;
    cbn; [|discriminate].
  destruct (datetime_gt _ _) as [[]|] eqn:Hgt; cbn; try discriminate.
  destruct (first_user_by_id (working w) (re_user_id entry)) as [user|] eqn:Hu;
    cbn; [|discriminate].
  destruct (db_commit_inv
              (with_stores (committed w)
                 (with_users
                    (List.map (fun x => if bool_decide (User_id x = User_id user)
                                        then with_new_password
                                               (get_password_hash
                                                  (prc_new_password reset_confirm))
                                               (mk_datetime (clock w) None) x
                                        else x)
                              (users (working w)))
                    (working w))
                 (faults w) w))
    as [(w1 & E & Hcc & Hcw & Hck & Hct) | (w1 & E & _)]; rewrite E; cbn;
    [|discriminate].
  match goal with
  | |- context [create_audit_log_entry ?u ?a ?rt ?rid ?d ?rq ?cid ?w0] =>
      destruct (audit_inv u a rt rid d rq cid w0) as (r & w2 & E2 & Hac & _ & Hat & Has)
  end.
  rewrite E2. cbn. intros [= _ <-].
  cbn in *. destruct Has as (? & ? & ? & ? & ?); [congruence|]. cbn in *.
  exists entry, user. rewrite Hat, Hct.
  repeat split; auto; try table; congruence.
Qed.

(** X23. the reset round trip.  A token handed out by
    [request_password_reset] is accepted by [confirm_password_reset] up
    to one hour later, provided the commit goes through: the account the
    e-mail address named then carries the hash of the new password and
    the time of the change, and the token is gone. *)
Theorem password_reset_round_trip w reset_email response token w1 w2 new_password :
  request_password_reset reset_email w = (Return response, w1) ->
  response !! "token" = Some token ->
  NoDup (List.map User_id (users (working w))) ->
  working w2 = working w ->
  password_reset_tokens w2 = password_reset_tokens w1 ->
  clock w2 <= clock w + one_hour ->
  next_commit_fails w2 = false ->
  exists user w3,
    first_user_by_email (working w) reset_email = Some user
    /\ confirm_password_reset (mk_PasswordResetConfirm token new_password) w2
       = (Return "Password reset successfully", w3)
    /\ first_user_by_id (committed w3) (User_id user)
       = Some (with_new_password (get_password_hash new_password)
                                 (mk_datetime (clock w2) None) user)
    /\ password_reset_tokens w3 !! token = None.
Proof.
  unfold request_password_reset. unfold bind at 1. cbn.
  destruct (first_user_by_email (working w) reset_email) as [user|] eqn:Hu.
  2:{ intros [= <- _] Htok. rewrite lookup_singleton_ne in Htok by discriminate.
      discriminate. }
  unfold bind, token_urlsafe, utcnow, reset_tokens_setitem; cbn.
  intros [= <- <-] Htok. rewrite lookup_insert_eq in Htok.
  injection Htok as <-. cbn.
  intros Hnd Hw Ht Hclock Hfault.
  assert (Hin : In user (users (working w))).
  { unfold first_user_by_email in Hu. apply find_some in Hu as [Hin _]. exact Hin. }
  assert (Hbyid : first_user_by_id (working w) (User_id user) = Some user)
    by (apply (find_by_key_NoDup User_id); assumption).
  exists user.
  unfold confirm_password_reset, reset_tokens_get, reset_tokens_delitem, lift.
  unfold bind; cbn. rewrite Ht, lookup_insert_eq. cbn.
  unfold datetime_gt. cbn.
  assert (Hlt : (clock w + one_hour <? clock w2) = false) by (apply Z.ltb_ge; lia).
  rewrite Hlt. cbn. rewrite Hw, Hbyid. cbn.
  assert (Hcommit : forall w0, faults w0 = faults w2 ->
            db_commit w0 = (Return tt, with_stores (working w0) (working w0)
                                                   (tail (faults w0)) w0)).
  { intros w0 Hf. unfold db_commit, next_commit_fails in *. rewrite Hf.
    destruct (faults w2) as [|[] fs]; try discriminate; reflexivity. }
  rewrite Hcommit by reflexivity. cbn.
  match goal with
  | |- context [create_audit_log_entry ?u ?a ?rt ?rid ?d ?rq ?cid ?w0] =>
      destruct (audit_inv u a rt rid d rq cid w0) as (r & w3 & E2 & Hac & _ & Hat & Has)
  end.
  rewrite E2. cbn. exists w3. split; [reflexivity|]. split; [reflexivity|].
  cbn in *. destruct Has as (Hus & _); [reflexivity|]. cbn in Hus.
  split.
  - rewrite Hac. unfold first_user_by_id at 1. rewrite Hus.
    rewrite with_new_password_find, Hw, Hbyid. cbn.
    rewrite (bool_decide_eq_true_2 _ eq_refl). reflexivity.
  - rewrite Hat. apply lookup_delete_eq.
Qed.

(** X24. a reset token works once, and never after its hour.  After an
    answered [confirm_password_reset] any further use of the token is
    refused with 400; and a token presented after its expiry is refused
    with 400 and deleted, the store untouched. *)
Theorem reset_token_single_use_and_expiry w reset_confirm :
  (forall msg w',
     confirm_password_reset reset_confirm w = (Return msg, w') ->
     forall again w'',
       prc_token again = prc_token reset_confirm ->
       password_reset_tokens w'' = password_reset_tokens w' ->
       confirm_password_reset again w''
       = (Raise (HTTPException HTTP_400_BAD_REQUEST "Invalid or expired reset token"),
          w''))
  /\ (forall entry,
        password_reset_tokens w !! prc_token reset_confirm = Some entry ->
        tzinfo (re_expires entry) = None ->
        wall (re_expires entry) < clock w ->
        exists w',
          confirm_password_reset reset_confirm w
          = (Raise (HTTPException HTTP_400_BAD_REQUEST "Reset token has expired"), w')
          /\ password_reset_tokens w' !! prc_token reset_confirm = None
          /\ working w' = working w /\ committed w' = committed w).
Proof.
  split.
  - intros msg w' Hrun again w'' Htok Hsame.
    apply confirm_password_reset_inv in Hrun as (entry & user & _ & _ & _ & _ & Hdel & _).
    unfold confirm_password_reset, reset_tokens_get. unfold bind at 1. cbn.
    rewrite Hsame, Hdel, Htok, lookup_delete_eq. reflexivity.
  - intros entry He Htz Hexp.
    unfold confirm_password_reset, reset_tokens_get, reset_tokens_delitem, lift.
    unfold bind; cbn. rewrite He. cbn. unfold datetime_gt. cbn. rewrite Htz.
    assert (Hlt : (wall (re_expires entry) <? clock w) = true) by (apply Z.ltb_lt; lia).
    rewrite Hlt. cbn. eexists. split; [reflexivity|]. cbn.
    split; [apply lookup_delete_eq | auto].
Qed.

Lemma admin_reset_password_inv w reset_data cu req u' w' :
  admin_reset_password reset_data cu req w = (Return u', w') ->
  exists target,
    first_user_by_id (working w) (apr_user_id reset_data) = Some target
    /\ u' = with_new_password (get_password_hash (apr_new_password reset_data))
                              (mk_datetime (clock w) None) target
    /\ verify_password (apr_admin_password reset_data) (hashed_password cu) = true
    /\ (role cu = SUPER_ADMIN \/ role cu = ORG_ADMIN)
    /\ (role cu = ORG_ADMIN ->
        user_organization_id cu <> None
        /\ user_organization_id target = user_organization_id cu
        /\ role target <> SUPER_ADMIN
        /\ role target <> ORG_ADMIN)
    /\ committed w' = working w'
    /\ users (working w')
       = List.map (fun x => if bool_decide (User_id x = User_id target)
                            then with_new_password
                                   (get_password_hash (apr_new_password reset_data))
                                   (mk_datetime (clock w) None) x
                            else x)
                  (users (working w))
    /\ organizations (working w') = organizations (working w)
    /\ cases (working w') = cases (working w)
    /\ case_assignments (working w') = case_assignments (working w)
    /\ evidence (working w') = evidence (working w).
Proof.
  unfold admin_reset_password. run_answer.
  all: intros [= <- <-]; frames; bools.
  all: eexists; split; [reflexivity|].
  all: repeat split; try congruence; try table; cbn; auto.
  all: intros; bools; repeat case_bool_decide; simplify_eq/=; try congruence.
  all: try (intuition congruence).
Qed.

(** X25. who can reset whose password with [admin_reset_password]: the
    caller has proved the own password and is a super admin or an
    organization admin; an organization admin only reaches staff and
    individual users of the admin's own organization; and the account
    then carries the hash of the new password and the time of the
    change. *)
Theorem admin_reset_password_scope w reset_data cu req u' w' :
  admin_reset_password reset_data cu req w = (Return u', w') ->
  verify_password (apr_admin_password reset_data) (hashed_password cu) = true
  /\ (role cu = SUPER_ADMIN \/ role cu = ORG_ADMIN)
  /\ (role cu = ORG_ADMIN ->
      user_organization_id u' = user_organization_id cu
      /\ (role u' = STAFF_USER \/ role u' = INDIVIDUAL_USER))
  /\ first_user_by_id (committed w') (apr_user_id reset_data) = Some u'
  /\ hashed_password u' = get_password_hash (apr_new_password reset_data)
  /\ password_changed_at u' = Some (mk_datetime (clock w) None).
Proof.
  intros Hrun. apply admin_reset_password_inv in Hrun
    as (target & Ht & -> & Hv & Hr & Hadmin & Hcw & Hu & _).
  split; [exact Hv|]. split; [exact Hr|]. split.
  { intros Hcu. destruct (Hadmin Hcu) as (_ & Ho & Hr1 & Hr2). cbn.
    split; [exact Ho|]. destruct (role target); auto; congruence. }
  split; [|split; reflexivity].
  rewrite Hcw. unfold first_user_by_id at 1. rewrite Hu.
  rewrite with_new_password_find, Ht. cbn.
  rewrite (bool_decide_eq_true_2 _ eq_refl). reflexivity.
Qed.



(** ** Organizations *)

Lemma create_organization_inv w org_in cu req o' w' :
  create_organization org_in cu req w = (Return o', w') ->
  first_organization_by_name (working w) (oc_name org_in) = None
  /\ o' = mk_Organization (uuid4_source w (uuid4_drawn w)) (oc_name org_in)
                          (oc_description org_in)
                          (default "free" (oc_plan org_in))
                          (default 10 (oc_max_users org_in))
                          (default 50 (oc_max_cases org_in))
                          (default true (oc_is_active org_in))
  /\ committed w' = working w'
  /\ organizations (working w') = (organizations (working w) ++ [o'])%list
  /\ users (working w') = users (working w)
  /\ cases (working w') = cases (working w)
  /\ case_assignments (working w') = case_assignments (working w)
  /\ evidence (working w') = evidence (working w).
Proof.
  unfold create_organization. run_answer.
  all: intros [= <- <-]; frames; bools.
  all: repeat split; try congruence; try table; cbn; auto.
Qed.

(** X27. [create_organization] keeps organization names unique: when it
    answers, the committed table is the old one with the answered row
    appended, names that were pairwise distinct still are, the row has
    the requested name and the defaults of the schema for what was not
    sent, and no other table changed. *)
Theorem create_organization_keeps_names_unique w org_in cu req o' w' :
  NoDup (List.map org_name (organizations (working w))) ->
  create_organization org_in cu req w = (Return o', w') ->
  organizations (committed w') = (organizations (working w) ++ [o'])%list
  /\ NoDup (List.map org_name (organizations (committed w')))
  /\ org_name o' = oc_name org_in
  /\ org_plan o' = default "free" (oc_plan org_in)
  /\ org_max_users o' = default 10 (oc_max_users org_in)
  /\ org_max_cases o' = default 50 (oc_max_cases org_in)
  /\ org_is_active o' = default true (oc_is_active org_in)
  /\ users (committed w') = users (working w)
  /\ cases (committed w') = cases (working w).
Proof.
  intros Hn Hrun. apply create_organization_inv in Hrun
    as (Hf & Ho' & Hcw & Ho & Hu & Hcs & _).
  rewrite Hcw, Ho, map_app. split; [reflexivity|].
  split.
  { apply NoDup_snoc_fresh; [exact Hn|]. rewrite Ho'. cbn.
    apply find_None_not_in, Hf. }
  rewrite Ho'. cbn. auto 10.
Qed.

Lemma update_organization_inv w org_id upd cu req o' w' organization :
  first_organization_by_id (working w) org_id = Some organization ->
  bool_decide (ou_is_active upd = Some false) && org_is_active organization = false ->
  update_organization org_id upd cu req w = (Return o', w') ->
  o' = apply_organization_update upd organization
  /\ committed w' = working w'
  /\ organizations (working w')
     = List.map (fun o => if bool_decide (Organization_id o = Organization_id organization)
                          then apply_organization_update upd o else o)
                (organizations (working w))
  /\ users (working w') = users (working w)
  /\ cases (working w') = cases (working w)
  /\ case_assignments (working w') = case_assignments (working w)
  /\ evidence (working w') = evidence (working w).
Proof.
  intros Ho Hflip. unfold update_organization. unfold bind at 1. cbn.
  rewrite Ho. unfold bind at 1. rewrite Hflip. cbn. unfold bind at 1. cbn.
  intros Hrun.
  apply commit_audit_ret in Hrun as [(Hr & Hcw & Hs & _) | (Hr & _)]; [|discriminate].
  destruct Hs as (Hu & Hos & Hcs & Has & Hev). cbn in *.
  injection Hr as <-. repeat split; auto.
Qed.

(** X28. only the switch from active to inactive reaches the users.  An
    [update_organization] that does not turn an active organization
    inactive (a rename, a new plan, a re-activation) changes no user row:
    re-activating an organization does not re-activate its members.  The
    answered row is what the committed table then answers under the id,
    and cases are untouched. *)
Theorem update_organization_without_cascade w org_id upd cu req o' w' organization :
  first_organization_by_id (working w) org_id = Some organization ->
  ou_is_active upd <> Some false \/ org_is_active organization = false ->
  update_organization org_id upd cu req w = (Return o', w') ->
  users (committed w') = users (working w)
  /\ o' = apply_organization_update upd organization
  /\ first_organization_by_id (committed w') org_id = Some o'
  /\ cases (committed w') = cases (working w).
Proof.
  intros Ho Hflip Hrun.
  assert (Hb : bool_decide (ou_is_active upd = Some false)
               && org_is_active organization = false).
  { destruct Hflip as [Hne | ->]; [|apply andb_false_r].
    rewrite (bool_decide_eq_false_2 _ Hne). reflexivity. }
  destruct (update_organization_inv _ _ _ _ _ _ _ _ Ho Hb Hrun)
    as (-> & Hcw & Hos & Hu & Hcs & _).
  assert (Hid : Organization_id organization = org_id).
  { unfold first_organization_by_id in Ho. apply find_some in Ho as [_ Hx].
    apply bool_decide_eq_true_1 in Hx. exact Hx. }
  rewrite Hcw. split; [exact Hu|]. split; [reflexivity|]. split; [|exact Hcs].
  unfold first_organization_by_id in *. rewrite Hos.
  rewrite (find_map_invariant (fun o => bool_decide (Organization_id o = org_id))).
  - rewrite Ho. cbn. rewrite (bool_decide_eq_true_2 _ eq_refl). reflexivity.
  - intros o. destruct (bool_decide (Organization_id o = Organization_id organization));
      reflexivity.
Qed.

(** ** Handlers that read *)

Ltac read_only :=
  unfold only_audit_logs_written, same_but_audit_logs;
  intros Hfresh; unfold bind; cbn;
  repeat first [ facts_step | lookup_cases ];
  frames; cbn; auto 10.

Lemma read_case_only_audit w case_id u req :
  committed w = working w ->
  only_audit_logs_written w (read_case case_id u req w).
Proof. unfold read_case. read_only. Qed.

Lemma read_cases_only_audit w skip limit st pr u req :
  committed w = working w ->
  only_audit_logs_written w (read_cases skip limit st pr u req w).
Proof. unfold read_cases. read_only. Qed.

Lemma read_evidence_for_case_only_audit w case_id skip limit u req :
  committed w = working w ->
  only_audit_logs_written w (read_evidence_for_case case_id skip limit u req w).
Proof. unfold read_evidence_for_case. read_only. Qed.

Lemma read_evidence_only_audit w evidence_id u req :
  committed w = working w ->
  only_audit_logs_written w (read_evidence evidence_id u req w).
Proof. unfold read_evidence. read_only. Qed.

Lemma read_users_only_audit w skip limit u req :
  committed w = working w ->
  only_audit_logs_written w (read_users skip limit u req w).
Proof. unfold read_users. read_only. Qed.

Lemma read_organizations_only_audit w skip limit u req :
  committed w = working w ->
  only_audit_logs_written w (read_organizations skip limit u req w).
Proof. unfold read_organizations. read_only. Qed.

Lemma read_organizations_simple_only_audit w u req :
  committed w = working w ->
  only_audit_logs_written w (read_organizations_simple u req w).
Proof. unfold read_organizations_simple. read_only. Qed.

Lemma read_organization_only_audit w org_id u req :
  committed w = working w ->
  only_audit_logs_written w (read_organization org_id u req w).
Proof. unfold read_organization. read_only. Qed.

(** X29. the handlers that read write nothing but the audit log.  From a
    session with nothing pending, whatever they answer, every table other
    than the audit log is as it was and nothing is left uncommitted. *)
Theorem reads_write_only_the_audit_log w u req :
  committed w = working w ->
  (forall case_id, only_audit_logs_written w (read_case case_id u req w))
  /\ (forall skip limit st pr,
        only_audit_logs_written w (read_cases skip limit st pr u req w))
  /\ (forall case_id skip limit,
        only_audit_logs_written w (read_evidence_for_case case_id skip limit u req w))
  /\ (forall evidence_id,
        only_audit_logs_written w (read_evidence evidence_id u req w))
  /\ (forall skip limit, only_audit_logs_written w (read_users skip limit u req w))
  /\ (forall skip limit,
        only_audit_logs_written w (read_organizations skip limit u req w))
  /\ only_audit_logs_written w (read_organizations_simple u req w)
  /\ (forall org_id, only_audit_logs_written w (read_organization org_id u req w)).
Proof.
  intros Hfresh.
  split; [intros; apply read_case_only_audit, Hfresh|].
  split; [intros; apply read_cases_only_audit, Hfresh|].
  split; [intros; apply read_evidence_for_case_only_audit, Hfresh|].
  split; [intros; apply read_evidence_only_audit, Hfresh|].
  split; [intros; apply read_users_only_audit, Hfresh|].
  split; [intros; apply read_organizations_only_audit, Hfresh|].
  split; [apply read_organizations_simple_only_audit, Hfresh|].
  intros; apply read_organization_only_audit, Hfresh.
Qed.

(** X30. [read_users] answers a super admin with rows of the users table
    and an organization admin with rows of the admin's own organization
    only, at most [limit] of them, and nobody else. *)
Theorem read_users_scope w skip limit cu req listed w' :
  read_users skip limit cu req w = (Return listed, w') ->
  (role cu = SUPER_ADMIN \/ role cu = ORG_ADMIN /\ user_organization_id cu <> None)
  /\ (length listed <= limit)%nat
  /\ forall x, In x listed ->
       In x (users (working w))
       /\ (role cu = ORG_ADMIN -> user_organization_id x = user_organization_id cu).
Proof.
  unfold read_users. unfold bind at 1. cbn. unfold bind at 1.
  destruct (role cu) eqn:Hr; cbn; try discriminate.
  - unfold bind at 1. audit_returns. intros [= <- _].
    split; [auto|]. split; [rewrite length_take; lia|].
    intros x Hin. apply In_take, In_drop in Hin. split; [exact Hin | discriminate].
  - unfold bind at 1.
    destruct (bool_decide (user_organization_id cu = None)) eqn:Ho; cbn; [discriminate|].
    apply bool_decide_eq_false_1 in Ho.
    unfold bind at 1. audit_returns. intros [= <- _].
    split; [auto|]. split; [rewrite length_take; lia|].
    intros x Hin. apply In_take, In_drop, filter_In in Hin as [Hin Hb].
    apply bool_decide_eq_true_1 in Hb. auto.
Qed.

End Properties.

(** ** The statements on the concrete deployment *)

#[local] Existing Instance utc_platform.


Lemma read_update_agree_delete_narrower_witness :
  first_case_by_id (working world0) 100 = Some case_100
  /\ forbidden (read_case 100 sam None world0)
     = forbidden (update_case 100 no_case_update sam None world0)
  /\ forbidden (update_case 100 no_case_update sam None world0) = false
  /\ forbidden (delete_case 100 sam None world0) = true.
Proof.
  assert (Hc : first_case_by_id (working world0) 100 = Some case_100)
    by (vm_compute; reflexivity).
  destruct (@read_update_agree_delete_narrower utc_platform world0 100%N
              no_case_update sam None case_100 Hc) as (Heq & _ & Hnarrow).
  split; [exact Hc|]. split; [exact Heq|].
  apply Hnarrow.
  - left. reflexivity.
  - vm_compute. discriminate.
  - left. reflexivity.
Defined.

Lemma update_user_gives_individual_an_organization_witness :
  role root = SUPER_ADMIN
  /\ first_user_by_id (working world0) 5 = Some ivy
  /\ role ivy = INDIVIDUAL_USER
  /\ exists u' w',
       update_user 5 move_into_acme root None world0 = (Return u', w')
       /\ role u' = INDIVIDUAL_USER
       /\ user_organization_id u' = Some 10%N
       /\ In u' (users (committed w')).
Proof.
  split; [reflexivity|]. split; [vm_compute; reflexivity|]. split; [reflexivity|].
  apply (@update_user_gives_individual_an_organization utc_platform world0 5%N
           move_into_acme root None ivy 10%N).
  - reflexivity.
  - vm_compute; reflexivity.
  - reflexivity.
  - reflexivity.
  - vm_compute. discriminate.
  - reflexivity.
  - vm_compute; reflexivity.
Defined.

Lemma deactivation_cascade_counts_all_members_witness :
  first_organization_by_id (working world0) 10 = Some acme
  /\ length (active_members 10 (users (working world0))) = 3%nat
  /\ exists organization' w' cascade rest,
       update_organization 10 deactivate_acme root None world0
       = (Return organization', w')
       /\ org_is_active organization' = false
       /\ users (committed w')
          = List.map (fun u => if member_of 10 u then deactivate u else u)
                     (users (working world0))
       /\ flipped (users (working world0)) (users (committed w')) = 3%nat
       /\ audit_logs (committed w')
          = (audit_logs (working world0) ++ cascade :: rest)%list
       /\ cascade_counts (cascade :: rest) = [4]
       /\ (rest = []
           \/ exists own, rest = [own] /\ al_resource_type own = "Organization")
       /\ ((3 <= stack_left world0)%nat -> commit_accepted 2 world0 ->
           exists own, rest = [own]).
Proof.
  split; [vm_compute; reflexivity|]. split; [vm_compute; reflexivity|].
  apply (@deactivation_cascade_counts_all_members utc_platform world0 10%N
           deactivate_acme root None acme).
  - vm_compute; reflexivity.
  - reflexivity.
  - reflexivity.
  - vm_compute. lia.
  - reflexivity.
  - reflexivity.
Defined.

(** C4 (as stated) fails: acme has three active members and one inactive
    member; the cascade entry reports 4, not K = 3. *)
Lemma cascade_count_is_not_active_members :
  ~ cascade_reports_active_members world0 10 deactivate_acme root None.
Proof.
  unfold cascade_reports_active_members. intros [_ Hcount].
  vm_compute in Hcount. discriminate Hcount.
Qed.

(** Where the cascade entry cannot be written the statement above is
    silent.  On [world_faulty] the engine refuses the entry's commit: the
    emitter's rollback takes the bulk update with it, no member flips, no
    cascade entry exists, and the organization is committed inactive all
    the same. *)
Lemma cascade_audit_failure_keeps_members_active :
  exists organization' w',
    update_organization 10 deactivate_acme root None world_faulty
    = (Return organization', w')
    /\ org_is_active organization' = false
    /\ first_organization_by_id (committed w') 10 = Some organization'
    /\ users (committed w') = users (committed world_faulty)
    /\ flipped (users (working world_faulty)) (users (committed w')) = 0%nat
    /\ cascade_counts (audit_logs (committed w')) = [].
Proof.
  eexists _, _. split; [vm_compute; reflexivity|].
  repeat split; vm_compute; reflexivity.
Qed.

Lemma assign_same_user_twice_rejected_witness :
  first_case_by_id (working world0) 100 = Some case_100
  /\ NoDup (List.map User_id (users (working world0)))
  /\ assign_users_to_case 100 [3%N; 3%N] root None world0
     = (Raise (HTTPException HTTP_400_BAD_REQUEST
                 "One or more user IDs are invalid or inactive."), world0).
Proof.
  assert (Hnd : NoDup (List.map User_id (users (working world0)))).
  { apply (bool_decide_unpack _). vm_compute. exact I. }
  split; [vm_compute; reflexivity|]. split; [exact Hnd|].
  apply (@assign_same_user_twice_rejected utc_platform world0 100%N 3%N root None case_100).
  - vm_compute; reflexivity.
  - left. reflexivity.
  - exact Hnd.
Defined.

Lemma create_case_super_admin_name_error_witness :
  role root = SUPER_ADMIN
  /\ first_organization_by_id (working world0) 10 = Some acme
  /\ create_case case_for_acme root None world0
     = (Raise (NameError "Organization"), world0).
Proof.
  split; [reflexivity|]. split; [vm_compute; reflexivity|].
  apply (@create_case_super_admin_name_error utc_platform world0 case_for_acme
           root None 10%N); reflexivity.
Defined.


Lemma null_stored_epoch_skips_staleness_check_witness :
  password_changed_at lee = None
  /\ token_epoch "token-lee" = Some (mk_datetime 5000 None)
  /\ get_current_user "token-lee" world0 = (Return lee, world0).
Proof.
  split; [reflexivity|]. split; [vm_compute; reflexivity|].
  apply (@null_stored_epoch_skips_staleness_check utc_platform world0 "token-lee"
           (mk_Payload (Some "lee") (Some "STAFF_USER") (Some "0000000a")
                       (Some "1970-01-01T00:00:00.005000") 86400)
           "lee" "STAFF_USER" "1970-01-01T00:00:00.005000" (mk_datetime 5000 None) lee);
    vm_compute; reflexivity.
Defined.

Lemma request_password_reset_reveals_account_witness :
  fst (request_password_reset "sam@example.org" world0)
  <> fst (request_password_reset "nobody@example.org" world0).
Proof.
  apply (proj2 request_password_reset_reveals_account).
  - vm_compute. eauto.
  - vm_compute. reflexivity.
Defined.

(** C10.  There is a staff user and a case of the same organization, the
    user being neither its creator nor an assignee by the legacy field or
    the assignment table, for which [read_case] answers 403 while
    [read_evidence_for_case] returns the evidence of that very case. *)
Theorem evidence_listing_ignores_assignment :
  exists (w : World) (current_user : User) (case : Case) (rows : list Evidence),
    role current_user = STAFF_USER
    /\ first_case_by_id (working w) (Case_id case) = Some case
    /\ case_organization_id case = user_organization_id current_user
    /\ created_by case <> User_id current_user
    /\ assigned_to case <> Some (User_id current_user)
    /\ first_assignment (working w) (Case_id case) (User_id current_user) = None
    /\ forbidden (@read_case utc_platform (Case_id case) current_user None w) = true
    /\ fst (@read_evidence_for_case utc_platform (Case_id case) 0 100 current_user None w)
       = Return rows
    /\ rows <> [].
Proof.
  exists world0, sam, case_101, [mk_Evidence 300 101 "ledger.pdf" (Some 10%N) 2].
  repeat split; try (vm_compute; reflexivity); vm_compute; discriminate.
Qed.

(** ** Further statements on the concrete deployment *)

Lemma get_current_user_accepts_iff_witness :
  get_current_user "token-sam" world0 = (Return sam, world0).
Proof.
  apply (proj2 (@get_current_user_accepts_iff utc_platform world0 "token-sam" sam)).
  exists (mk_Payload (Some "sam") (Some "STAFF_USER") (Some "0000000a")
                     (Some "1970-01-01T00:00:00.001000") 86400),
         "sam", "STAFF_USER", (mk_datetime 1000 None).
  repeat split; try (vm_compute; reflexivity).
  intros stored [= <-]. vm_compute. discriminate.
Defined.

Lemma role_guards_nest_witness :
  get_current_active_staff_user "token-sam" world0 = (Return sam, world0).
Proof.
  apply (proj2 (proj1 (proj2 (proj2
           (@role_guards_nest utc_platform "token-sam" world0 sam world0))))).
  split; [vm_compute; reflexivity | discriminate].
Defined.

Lemma get_current_organization_Return_witness :
  exists u,
    get_current_active_user "token-sam" world0 = (Return u, world0)
    /\ role u <> SUPER_ADMIN
    /\ user_organization_id u = Some (Organization_id acme)
    /\ first_organization_by_id (working world0) (Organization_id acme) = Some acme
    /\ org_is_active acme = true.
Proof.
  apply (@get_current_organization_Return utc_platform "token-sam" world0 acme world0).
  vm_compute; reflexivity.
Defined.

Lemma login_hides_which_part_failed_witness :
  @login_for_access_token utc_platform demo_signer "nobody" "s" world0
  = @login_for_access_token utc_platform demo_signer "sam" "guess" world0
  /\ @login_for_access_token utc_platform demo_signer "nobody" "s" world0
     = (Raise (HTTPException HTTP_401_UNAUTHORIZED "Incorrect username or password"),
        world0).
Proof.
  apply (@login_hides_which_part_failed utc_platform demo_signer world0
           "nobody" "s" "sam" "guess" sam); vm_compute; reflexivity.
Defined.

Lemma issued_token_resolves_witness :
  @get_current_user issuing_platform "issued-sam" world0 = (Return sam, world0).
Proof.
  apply (@issued_token_resolves issuing_platform demo_signer world0 "sam" "s"
           "issued-sam" sam world0 world0).
  - vm_compute; reflexivity.
  - vm_compute; reflexivity.
  - vm_compute; reflexivity.
  - intros o [= <-]. split; [vm_compute; discriminate | vm_compute; reflexivity].
  - reflexivity.
  - vm_compute. discriminate.
Defined.


Lemma serialize_for_json_idempotent_witness :
  serialize_for_json 5
    (PyDict [("role", PyStr "STAFF_USER"); ("ids", PyList [PyStr "0000000a"])])
  = Return (PyDict [("role", PyStr "STAFF_USER"); ("ids", PyList [PyStr "0000000a"])]).
Proof.
  apply (@serialize_for_json_idempotent utc_platform 5 role_in_details).
  vm_compute; reflexivity.
Defined.

Lemma serialize_for_json_depth_witness :
  (exists obj', serialize_for_json 3 role_in_details = Return obj')
  /\ serialize_for_json 2 role_in_details = Raise RecursionError.
Proof.
  split.
  - apply (proj1 (@serialize_for_json_depth utc_platform 3 role_in_details)).
    vm_compute. lia.
  - apply (proj2 (@serialize_for_json_depth utc_platform 2 role_in_details)).
    vm_compute. lia.
Defined.

Lemma http_error_writes_nothing_witness :
  snd (delete_case 100 sam None world0) = world0.
Proof.
  apply (proj1 (proj2 (proj2 (@http_error_writes_nothing utc_platform world0 sam None)))).
  vm_compute; reflexivity.
Defined.

Lemma read_cases_lists_readable_witness :
  exists listed w',
    read_cases 0 10 None None sam None world0 = (Return listed, w')
    /\ (length listed <= 10)%nat
    /\ forall c, In c listed ->
         In c (cases (working world0))
         /\ forbidden (read_case (Case_id c) sam None world0) = false
         /\ (forall v, None = Some v -> status c = v)
         /\ (forall v, None = Some v -> priority c = v).
Proof.
  eexists _, _. split; [vm_compute; reflexivity|].
  eapply (@read_cases_lists_readable utc_platform world0 0 10 None None sam None None).
  - apply (bool_decide_unpack _). vm_compute. exact I.
  - vm_compute; reflexivity.
Defined.

Lemma assign_users_to_case_assigns_all_witness :
  exists created w',
    assign_users_to_case 101 [3%N] olivia None world0 = (Return created, w')
    /\ (forall uid, In uid [3%N] -> first_assignment (committed w') 101 uid <> None)
    /\ (exists new,
          case_assignments (committed w')
          = (case_assignments (working world0) ++ new)%list
          /\ Forall (fun a => ca_case_id a = 101%N /\ In (ca_user_id a) [3%N]
                              /\ ca_assigned_by a = Some (User_id olivia)) new)
    /\ users (committed w') = users (working world0)
    /\ organizations (committed w') = organizations (working world0)
    /\ cases (committed w') = cases (working world0)
    /\ evidence (committed w') = evidence (working world0).
Proof.
  eexists _, _. split; [vm_compute; reflexivity|].
  eapply (@assign_users_to_case_assigns_all utc_platform world0 101%N [3%N] olivia None).
  vm_compute; reflexivity.
Defined.

Lemma assign_users_to_case_validates_witness :
  exists case,
    first_case_by_id (working world0) 101 = Some case
    /\ (role olivia = SUPER_ADMIN
        \/ (role olivia = ORG_ADMIN
            /\ case_organization_id case = user_organization_id olivia))
    /\ forall uid, In uid [3%N] ->
         exists x, In x (users (working world0)) /\ User_id x = uid
                   /\ is_active x = true
                   /\ (case_organization_id case = None
                       \/ user_organization_id x = case_organization_id case).
Proof.
  eapply (@assign_users_to_case_validates utc_platform world0 101%N [3%N] olivia None).
  - apply (bool_decide_unpack _). vm_compute. exact I.
  - vm_compute; reflexivity.
Defined.

Lemma assignment_grants_access_witness :
  forbidden (read_case 101 sam None world0) = true
  /\ forbidden (read_case 101 sam None
                  (snd (assign_users_to_case 101 [3%N] olivia None world0))) = false
  /\ forbidden (update_case 101 no_case_update sam None
                  (snd (assign_users_to_case 101 [3%N] olivia None world0))) = false.
Proof.
  split; [vm_compute; reflexivity|].
  eapply (@assignment_grants_access utc_platform world0 101%N [3%N] olivia None).
  - vm_compute; reflexivity.
  - left. reflexivity.
  - left. reflexivity.
Defined.

Lemma remove_user_from_case_removes_the_pair_witness :
  exists msg w',
    remove_user_from_case 100 6 olivia None world0 = (Return msg, w')
    /\ first_assignment (committed w') 100 6 = None
    /\ (forall c x, (c, x) <> (100%N, 6%N) ->
                    first_assignment (committed w') c x
                    = first_assignment (working world0) c x)
    /\ users (committed w') = users (working world0)
    /\ organizations (committed w') = organizations (working world0)
    /\ cases (committed w') = cases (working world0)
    /\ evidence (committed w') = evidence (working world0).
Proof.
  eexists _, _. split; [vm_compute; reflexivity|].
  eapply (@remove_user_from_case_removes_the_pair utc_platform world0 100%N 6%N
            olivia None).
  - apply (bool_decide_unpack _). vm_compute. exact I.
  - apply (bool_decide_unpack _). vm_compute. exact I.
  - vm_compute; reflexivity.
Defined.

Lemma unassignment_revokes_access_witness :
  forbidden (read_case 100 lee None world0) = false
  /\ forbidden (read_case 100 lee None
                  (snd (remove_user_from_case 100 6 olivia None world0))) = true
  /\ forbidden (update_case 100 no_case_update lee None
                  (snd (remove_user_from_case 100 6 olivia None world0))) = true.
Proof.
  split; [vm_compute; reflexivity|].
  eapply (@unassignment_revokes_access utc_platform world0 100%N olivia None _ _ lee
            no_case_update None case_100).
  - apply (bool_decide_unpack _). vm_compute. exact I.
  - apply (bool_decide_unpack _). vm_compute. exact I.
  - vm_compute; reflexivity.
  - vm_compute; reflexivity.
  - left. reflexivity.
  - vm_compute. discriminate.
  - vm_compute. discriminate.
Defined.

Lemma delete_case_leaves_no_rows_witness :
  exists msg w',
    delete_case 101 root None world0 = (Return msg, w')
    /\ first_case_by_id (committed w') 101 = None
    /\ (forall c, In c (cases (committed w'))
                  <-> In c (cases (working world0)) /\ Case_id c <> 101%N)
    /\ (forall e, In e (evidence (committed w'))
                  <-> In e (evidence (working world0)) /\ ev_case_id e <> 101%N)
    /\ (forall a, In a (case_assignments (committed w'))
                  <-> In a (case_assignments (working world0)) /\ ca_case_id a <> 101%N)
    /\ users (committed w') = users (working world0)
    /\ organizations (committed w') = organizations (working world0).
Proof.
  eexists _, _. split; [vm_compute; reflexivity|].
  eapply (@delete_case_leaves_no_rows utc_platform world0 101%N root None).
  vm_compute; reflexivity.
Defined.

Lemma update_case_touches_one_row_witness :
  exists c' w',
    update_case 100 no_case_update sam None world0 = (Return c', w')
    /\ (exists case,
          first_case_by_id (working world0) 100 = Some case
          /\ Case_id c' = 100%N
          /\ created_by c' = created_by case
          /\ case_organization_id c' = case_organization_id case)
    /\ first_case_by_id (committed w') 100 = Some c'
    /\ (forall other, other <> 100%N ->
          first_case_by_id (committed w') other
          = first_case_by_id (working world0) other)
    /\ List.map Case_id (cases (committed w'))
       = List.map Case_id (cases (working world0))
    /\ users (committed w') = users (working world0)
    /\ organizations (committed w') = organizations (working world0)
    /\ case_assignments (committed w') = case_assignments (working world0)
    /\ evidence (committed w') = evidence (working world0).
Proof.
  eexists _, _. split; [vm_compute; reflexivity|].
  eapply (@update_case_touches_one_row utc_platform world0 100%N no_case_update sam None).
  vm_compute; reflexivity.
Defined.

Lemma raise_commits_nothing_witness :
  fst (update_case 100 no_case_update sam None world_faulty) = Raise SQLAlchemyError
  /\ committed (snd (update_case 100 no_case_update sam None world_faulty))
     = committed world_faulty.
Proof.
  split; [vm_compute; reflexivity|].
  apply (proj1 (proj2 (@raise_commits_nothing utc_platform world_faulty sam None
                         SQLAlchemyError
                         (snd (update_case 100 no_case_update sam None world_faulty))))
           100%N no_case_update).
  vm_compute; reflexivity.
Defined.

Lemma create_user_keeps_logins_unique_witness :
  exists u' w',
    create_user nina olivia None world0 = (Return u', w')
    /\ users (committed w') = (users (working world0) ++ [u'])%list
    /\ NoDup (List.map username (users (committed w')))
    /\ NoDup (List.map email (users (committed w')))
    /\ organizations (committed w') = organizations (working world0)
    /\ cases (committed w') = cases (working world0)
    /\ case_assignments (committed w') = case_assignments (working world0)
    /\ evidence (committed w') = evidence (working world0).
Proof.
  eexists _, _. split; [vm_compute; reflexivity|].
  eapply (@create_user_keeps_logins_unique utc_platform world0 nina olivia None).
  - apply (bool_decide_unpack _). vm_compute. exact I.
  - apply (bool_decide_unpack _). vm_compute. exact I.
  - vm_compute; reflexivity.
Defined.

Lemma create_user_scope_witness :
  exists u' w',
    create_user nina olivia None world0 = (Return u', w')
    /\ role u' = uc_role nina
    /\ (role olivia = SUPER_ADMIN \/ role olivia = ORG_ADMIN)
    /\ (role u' = INDIVIDUAL_USER -> user_organization_id u' = None)
    /\ (role u' = STAFF_USER \/ role u' = ORG_ADMIN -> user_organization_id u' <> None)
    /\ (role olivia = SUPER_ADMIN ->
        forall oid, user_organization_id u' = Some oid ->
                    first_organization_by_id (working world0) oid <> None)
    /\ (role olivia = ORG_ADMIN ->
        (role u' = STAFF_USER \/ role u' = INDIVIDUAL_USER)
        /\ (role u' = STAFF_USER ->
            user_organization_id u' = user_organization_id olivia)).
Proof.
  eexists _, _. split; [vm_compute; reflexivity|].
  eapply (@create_user_scope utc_platform world0 nina olivia None).
  vm_compute; reflexivity.
Defined.

Lemma update_user_scope_witness :
  exists u' w',
    update_user 3 (mk_UserUpdate None None (Some "Samuel") None None None None)
                sam None world0 = (Return u', w')
    /\ exists target,
         first_user_by_id (working world0) 3 = Some target
         /\ User_id u' = 3%N
         /\ (role sam = SUPER_ADMIN -> User_id sam = 3%N ->
             uu_is_active (mk_UserUpdate None None (Some "Samuel") None None None None)
             <> Some false)
         /\ (role sam = ORG_ADMIN ->
             user_organization_id target = user_organization_id sam
             /\ (user_organization_id u' = user_organization_id sam
                 \/ user_organization_id u' = None)
             /\ (role u' = role target
                 \/ role u' = STAFF_USER \/ role u' = INDIVIDUAL_USER))
         /\ (role sam = STAFF_USER \/ role sam = INDIVIDUAL_USER ->
             User_id sam = 3%N
             /\ role u' = role target
             /\ (user_organization_id u' = user_organization_id target
                 \/ user_organization_id u' = None)).
Proof.
  eexists _, _. split; [vm_compute; reflexivity|].
  eapply (@update_user_scope utc_platform world0 3%N
            (mk_UserUpdate None None (Some "Samuel") None None None None) sam None).
  vm_compute; reflexivity.
Defined.

Lemma password_reset_round_trip_witness :
  exists user w3,
    first_user_by_email (working world0) "sam@example.org" = Some user
    /\ confirm_password_reset (mk_PasswordResetConfirm "reset-token" "fresh") world_reset
       = (Return "Password reset successfully", w3)
    /\ first_user_by_id (committed w3) (User_id user)
       = Some (with_new_password (get_password_hash "fresh")
                                 (mk_datetime (clock world_reset) None) user)
    /\ password_reset_tokens w3 !! "reset-token" = None.
Proof.
  eapply (@password_reset_round_trip utc_platform world0 "sam@example.org"
            (<[ "token" := "reset-token" ]> {[ "message" := reset_message ]})
            "reset-token" world_reset world_reset "fresh").
  - vm_compute; reflexivity.
  - vm_compute; reflexivity.
  - apply (bool_decide_unpack _). vm_compute. exact I.
  - vm_compute; reflexivity.
  - reflexivity.
  - vm_compute. discriminate.
  - vm_compute; reflexivity.
Defined.

Lemma reset_token_single_use_and_expiry_witness :
  confirm_password_reset (mk_PasswordResetConfirm "reset-token" "again")
    (snd (confirm_password_reset (mk_PasswordResetConfirm "reset-token" "fresh")
                                 world_reset))
  = (Raise (HTTPException HTTP_400_BAD_REQUEST "Invalid or expired reset token"),
     snd (confirm_password_reset (mk_PasswordResetConfirm "reset-token" "fresh")
                                 world_reset)).
Proof.
  eapply (proj1 (@reset_token_single_use_and_expiry utc_platform world_reset
                   (mk_PasswordResetConfirm "reset-token" "fresh"))).
  - vm_compute; reflexivity.
  - reflexivity.
  - reflexivity.
Defined.

Lemma admin_reset_password_scope_witness :
  exists u' w',
    admin_reset_password reset_sam olivia None world0 = (Return u', w')
    /\ verify_password (apr_admin_password reset_sam) (hashed_password olivia) = true
    /\ (role olivia = SUPER_ADMIN \/ role olivia = ORG_ADMIN)
    /\ (role olivia = ORG_ADMIN ->
        user_organization_id u' = user_organization_id olivia
        /\ (role u' = STAFF_USER \/ role u' = INDIVIDUAL_USER))
    /\ first_user_by_id (committed w') (apr_user_id reset_sam) = Some u'
    /\ hashed_password u' = get_password_hash (apr_new_password reset_sam)
    /\ password_changed_at u' = Some (mk_datetime (clock world0) None).
Proof.
  eexists _, _. split; [vm_compute; reflexivity|].
  eapply (@admin_reset_password_scope utc_platform world0 reset_sam olivia None).
  vm_compute; reflexivity.
Defined.


Lemma create_organization_keeps_names_unique_witness :
  exists o' w',
    create_organization globex root None world0 = (Return o', w')
    /\ organizations (committed w') = (organizations (working world0) ++ [o'])%list
    /\ NoDup (List.map org_name (organizations (committed w')))
    /\ org_name o' = oc_name globex
    /\ org_plan o' = default "free" (oc_plan globex)
    /\ org_max_users o' = default 10 (oc_max_users globex)
    /\ org_max_cases o' = default 50 (oc_max_cases globex)
    /\ org_is_active o' = default true (oc_is_active globex)
    /\ users (committed w') = users (working world0)
    /\ cases (committed w') = cases (working world0).
Proof.
  eexists _, _. split; [vm_compute; reflexivity|].
  eapply (@create_organization_keeps_names_unique utc_platform world0 globex root None).
  - apply (bool_decide_unpack _). vm_compute. exact I.
  - vm_compute; reflexivity.
Defined.

Lemma update_organization_without_cascade_witness :
  exists o' w',
    update_organization 10 rename_acme root None world0 = (Return o', w')
    /\ users (committed w') = users (working world0)
    /\ o' = apply_organization_update rename_acme acme
    /\ first_organization_by_id (committed w') 10 = Some o'
    /\ cases (committed w') = cases (working world0).
Proof.
  eexists _, _. split; [vm_compute; reflexivity|].
  eapply (@update_organization_without_cascade utc_platform world0 10%N rename_acme
            root None _ _ acme).
  - vm_compute; reflexivity.
  - left. vm_compute. discriminate.
  - vm_compute; reflexivity.
Defined.

Lemma reads_write_only_the_audit_log_witness :
  only_audit_logs_written world0 (read_case 100 sam None world0)
  /\ only_audit_logs_written world0 (read_users 0 10 sam None world0).
Proof.
  destruct (@reads_write_only_the_audit_log utc_platform world0 sam None eq_refl)
    as (Hcase & _ & _ & _ & Husers & _).
  split; [apply Hcase | apply Husers].
Defined.

Lemma read_users_scope_witness :
  exists listed w',
    read_users 0 10 olivia None world0 = (Return listed, w')
    /\ (role olivia = SUPER_ADMIN
        \/ role olivia = ORG_ADMIN /\ user_organization_id olivia <> None)
    /\ (length listed <= 10)%nat
    /\ forall x, In x listed ->
         In x (users (working world0))
         /\ (role olivia = ORG_ADMIN ->
             user_organization_id x = user_organization_id olivia).
Proof.
  eexists _, _. split; [vm_compute; reflexivity|].
  eapply (@read_users_scope utc_platform world0 0 10 olivia None).
  vm_compute; reflexivity.
Defined.
